(** * Expression_Spanish: batch pipeline for psycholinguistic experiments

    A shallow embedding of the parts of [prepare_experiment.py],
    [execute_experiment.py] and [generateResults.py] that build prompt
    tasks, chunk them into batch files, track submitted batches, reconcile
    the tracking table with the remote service and score the answers.

    Python text is a sequence of Unicode code points, the files on disk are
    explicit state, Python exceptions are values of an error monad, and the
    remote service, the clock, MD5 and floating point are parameters.
    Reading the tracking file, reading the input files of the prepare stage
    and every call to the remote service may raise; writing a file and
    reading a registry file that exists are taken to succeed. *)

From Stdlib Require Import List NArith ZArith String Ascii Lia Bool.
From Stdlib Require Import DecimalNat.
From Stdlib Require Reals.
From stdpp Require Import base gmap strings list.
Import ListNotations.

Set Default Proof Using "Type".
Local Open Scope N_scope.
Local Open Scope list_scope.

(** ** Python text *)

Module PyStr.

(** A [str] is a list of code points. *)
Abbreviation pystr := (list N).

(** An ASCII literal as Python text. *)
Definition u (s : string) : pystr :=
  List.map N_of_ascii (list_ascii_of_string s).

Definition str_eqb (a b : pystr) : bool := bool_decide (a = b).

(** [str.isspace] on one code point; the same class is [\s] in a
    Unicode pattern and what [str.strip()] removes. *)
Definition is_space (c : N) : bool :=
  (9 <=? c) && (c <=? 13) || (28 <=? c) && (c <=? 32)
  || (c =? 133) || (c =? 160) || (c =? 5760)
  || (8192 <=? c) && (c <=? 8202)
  || (c =? 8232) || (c =? 8233) || (c =? 8239) || (c =? 8287)
  || (c =? 12288).

Fixpoint lstrip_by (p : N -> bool) (s : pystr) : pystr :=
  match s with
  | [] => []
  | c :: s' => if p c then lstrip_by p s' else s
  end.

Fixpoint rstrip_by (p : N -> bool) (s : pystr) : pystr :=
  match s with
  | [] => []
  | c :: s' =>
      match rstrip_by p s' with
      | [] => if p c then [] else [c]
      | r => c :: r
      end
  end.

Definition strip_by (p : N -> bool) (s : pystr) : pystr :=
  rstrip_by p (lstrip_by p s).

(** [s.strip()] *)
Definition strip (s : pystr) : pystr := strip_by is_space s.

(** [s.strip(chars)] *)
Definition strip_chars (chars s : pystr) : pystr :=
  strip_by (fun c => bool_decide (c ∈ chars)) s.

(** [s.startswith(p)] *)
Fixpoint startswith (p s : pystr) : bool :=
  match p, s with
  | [], _ => true
  | a :: p', b :: s' => (a =? b) && startswith p' s'
  | _ :: _, [] => false
  end.

(** [s.endswith(p)] *)
Definition endswith (p s : pystr) : bool := startswith (rev p) (rev s).

(** [s.replace(old, new)] for a non-empty [old]: the occurrences are
    replaced from left to right and do not overlap.  [skip] counts the
    characters of a replaced occurrence that are still to be passed. *)
Fixpoint replace_go (old new : pystr) (skip : nat) (s : pystr) : pystr :=
  match s with
  | [] => []
  | c :: s' =>
      match skip with
      | S k => replace_go old new k s'
      | O =>
          if startswith old s
          then new ++ replace_go old new (List.length old - 1) s'
          else c :: replace_go old new 0 s'
      end
  end.

(** With an empty [old] Python puts [new] before every character and at
    the end. *)
Fixpoint intersperse_all (new s : pystr) : pystr :=
  match s with
  | [] => new
  | c :: s' => new ++ c :: intersperse_all new s'
  end.

Definition replace (old new s : pystr) : pystr :=
  match old with
  | [] => intersperse_all new s
  | _ => replace_go old new 0 s
  end.

(** The line terminators of a text file opened with universal newlines. *)
Definition is_newline (c : N) : bool := (c =? 10) || (c =? 13).

(** The lines of a text file, without their terminators. *)
Fixpoint lines (s : pystr) : list pystr :=
  match s with
  | [] => []
  | c :: s' =>
      if is_newline c then [] :: lines s'
      else match lines s' with
           | [] => [[c]]
           | l :: ls => (c :: l) :: ls
           end
  end.

Definition nonempty (s : pystr) : bool :=
  match s with [] => false | _ => true end.

(** [[line.strip() for line in f if line.strip()]] *)
Definition stripped_lines (s : pystr) : list pystr :=
  List.filter nonempty (List.map strip (lines s)).

(** [str(n)] for a natural number. *)
Fixpoint digits_of_uint (d : Decimal.uint) : pystr :=
  match d with
  | Decimal.Nil => []
  | Decimal.D0 d => 48 :: digits_of_uint d
  | Decimal.D1 d => 49 :: digits_of_uint d
  | Decimal.D2 d => 50 :: digits_of_uint d
  | Decimal.D3 d => 51 :: digits_of_uint d
  | Decimal.D4 d => 52 :: digits_of_uint d
  | Decimal.D5 d => 53 :: digits_of_uint d
  | Decimal.D6 d => 54 :: digits_of_uint d
  | Decimal.D7 d => 55 :: digits_of_uint d
  | Decimal.D8 d => 56 :: digits_of_uint d
  | Decimal.D9 d => 57 :: digits_of_uint d
  end.

Definition str_of_nat (n : nat) : pystr := digits_of_uint (Nat.to_uint n).

Definition is_ascii_digit (c : N) : bool := (48 <=? c) && (c <=? 57).

End PyStr.
Import PyStr.

(** ** Exceptions *)

Inductive exn : Type :=
| FileNotFoundError | PermissionError | ValueError | KeyError | TypeError
| RemoteError | OtherError.

Inductive result (A : Type) : Type :=
| Ok (a : A)
| Raise (e : exn).
Arguments Ok {A} a.
Arguments Raise {A} e.

Definition bind {A B} (r : result A) (k : A -> result B) : result B :=
  match r with
  | Ok a => k a
  | Raise e => Raise e
  end.

Notation "'let!' x ':=' c 'in' k" := (bind c (fun x => k))
  (at level 10, x name, c at level 100, k at level 200).

(** [try: body  except Exception: handler] *)
Definition try_except {A} (body : result A) (handler : exn -> result A) : result A :=
  match body with
  | Ok a => Ok a
  | Raise e => handler e
  end.

(** [try: body  except (e1, e2, ...): handler], other exceptions pass. *)
Definition try_except_only {A} (caught : exn -> bool) (body : result A)
    (handler : exn -> result A) : result A :=
  match body with
  | Ok a => Ok a
  | Raise e => if caught e then handler e else Raise e
  end.

(** ** The batch tracking store ([execute_experiment.py]) *)

Module Tracking.

Definition bytes := list N.

(** One row of [batch_tracking.xlsx]. *)
Record tracking_record : Type := {
  experiment_name : pystr;
  batch_file : pystr;
  batch_id : pystr;
  status : pystr;
  timestamp : pystr;
  file_hash : pystr
}.

Record DataFrame : Type := {
  columns : list pystr;
  rows : list tracking_record
}.

Definition tracking_columns : list pystr :=
  [u "experiment_name"; u "batch_file"; u "batch_id"; u "status";
   u "timestamp"; u "file_hash"].

(** [pd.DataFrame(columns=[...])] *)
Definition empty_tracking : DataFrame :=
  {| columns := tracking_columns; rows := [] |}.

(** What is at the path of the tracking file: nothing, a file that
    [pd.read_excel] cannot read (it raises [e]), or a stored table. *)
Inductive tracking_file : Type :=
| Missing
| Unreadable (e : exn)
| Stored (rs : list tracking_record).

(** [os.path.exists(file_path)] *)
Definition exists_file (f : tracking_file) : bool :=
  match f with Missing => false | _ => true end.

(** [pd.read_excel(file_path)] *)
Definition read_excel (f : tracking_file) : result DataFrame :=
  match f with
  | Missing => Raise FileNotFoundError
  | Unreadable e => Raise e
  | Stored rs => Ok {| columns := tracking_columns; rows := rs |}
  end.

Definition load_batch_tracking (f : tracking_file) : result DataFrame :=
  if exists_file f then
    try_except (let! df := read_excel f in Ok df)
               (fun _ => Ok empty_tracking)
  else Ok empty_tracking.

(** The table a caller of [load_batch_tracking] goes on with; the
    operations below never see an exception from it. *)
Definition loaded (f : tracking_file) : DataFrame :=
  match load_batch_tracking f with
  | Ok df => df
  | Raise _ => empty_tracking
  end.

(** [df.to_excel(file_path, index=False)] *)
Definition save_batch_tracking (df : DataFrame) : tracking_file :=
  Stored (rows df).

(** The files [get_file_hash] can see: those reachable from the working
    directory under the given name, and those of the [batches] folder. *)
Record file_system : Type := {
  cwd_files : gmap pystr bytes;
  batches_dir : gmap pystr bytes
}.

Section Fingerprint.
(** [hashlib.md5(...).hexdigest()] *)
Variable md5 : bytes -> pystr.

Definition get_file_hash (fs : file_system) (file_path : pystr) : result pystr :=
  match cwd_files fs !! file_path with
  | Some content => Ok (md5 content)
  | None =>
      match batches_dir fs !! file_path with
      | Some content => Ok (md5 content)
      | None => Raise FileNotFoundError
      end
  end.

(** [add_batch_to_tracking]; [now] is the formatted clock reading. *)
Definition add_batch_to_tracking (fs : file_system) (now : pystr)
    (experiment batch_file_name job_id : pystr) (f : tracking_file)
  : result tracking_file :=
  let df := loaded f in
  let! h := get_file_hash fs batch_file_name in
  let new_row := {| experiment_name := experiment;
                    batch_file := batch_file_name;
                    batch_id := job_id;
                    status := u "submitted";
                    timestamp := now;
                    file_hash := h |} in
  Ok (save_batch_tracking
        {| columns := columns df; rows := rows df ++ [new_row] |}).

(** The loop of [get_batches_to_send] over the candidate files. *)
Fixpoint batches_to_send_loop (fs : file_system)
    (existing_batches : list tracking_record) (batch_files : list pystr)
    (batches_to_send : list pystr) : result (list pystr) :=
  match batch_files with
  | [] => Ok batches_to_send
  | bf :: rest =>
      let! h := get_file_hash fs bf in
      let existing :=
        List.filter (fun r => str_eqb (batch_file r) bf && str_eqb (file_hash r) h)
                    existing_batches in
      match existing with
      | [] => batches_to_send_loop fs existing_batches rest (batches_to_send ++ [bf])
      | _ :: _ => batches_to_send_loop fs existing_batches rest batches_to_send
      end
  end.

Definition get_batches_to_send (fs : file_system) (experiment : pystr)
    (batch_files : list pystr) (f : tracking_file) : result (list pystr) :=
  let df := loaded f in
  let existing_batches :=
    List.filter (fun r => str_eqb (experiment_name r) experiment) (rows df) in
  batches_to_send_loop fs existing_batches batch_files [].

(** The records of one experiment: [df[df['experiment_name'] == name]]. *)
Definition records_of (experiment : pystr) (df : DataFrame) : list tracking_record :=
  List.filter (fun r => str_eqb (experiment_name r) experiment) (rows df).

(** Whether some of the given records has this file name and the
    fingerprint the file has now. *)
Definition is_tracked (fs : file_system) (existing : list tracking_record)
    (bf : pystr) : bool :=
  match get_file_hash fs bf with
  | Ok h =>
      match List.filter (fun r => str_eqb (batch_file r) bf && str_eqb (file_hash r) h)
                        existing with
      | [] => false
      | _ :: _ => true
      end
  | Raise _ => false
  end.

End Fingerprint.

(** [update_batch_status]: [df.loc[df['batch_id'] == batch_id, 'status'] = status] *)
Definition set_status (new_status : pystr) (r : tracking_record) : tracking_record :=
  {| experiment_name := experiment_name r;
     batch_file := batch_file r;
     batch_id := batch_id r;
     status := new_status;
     timestamp := timestamp r;
     file_hash := file_hash r |}.

Definition update_batch_status (job_id new_status : pystr) (f : tracking_file)
  : tracking_file :=
  let df := loaded f in
  save_batch_tracking
    {| columns := columns df;
       rows := List.map (fun r => if str_eqb (batch_id r) job_id
                                  then set_status new_status r else r)
                        (rows df) |}.

(** [remove_batch_from_tracking]: [df = df[df['batch_id'] != batch_id]] *)
Definition remove_batch_from_tracking (job_id : pystr) (f : tracking_file)
  : tracking_file :=
  let df := loaded f in
  save_batch_tracking
    {| columns := columns df;
       rows := List.filter (fun r => negb (str_eqb (batch_id r) job_id)) (rows df) |}.

(** [cleanup_empty_tracking_file]: the file afterwards and the value
    returned. *)
Definition cleanup_empty_tracking_file (f : tracking_file) : tracking_file * bool :=
  if exists_file f then
    let df := loaded f in
    if (List.length (rows df) =? 0)%nat then (Missing, true) else (f, false)
  else (f, true).

(** [get_pending_batches_for_experiment] *)
Definition get_pending_batches_for_experiment (experiment : pystr)
    (f : tracking_file) : list tracking_record :=
  List.filter
    (fun r => str_eqb (experiment_name r) experiment
              && negb (bool_decide (status r ∈ [u "completed"; u "downloaded"; u "failed"])))
    (rows (loaded f)).

End Tracking.

(** ** The execute-stage registry of failed experiments
    ([failed_experiments/failed_execute_exp.txt]) *)

Module FailedExecute.

(** The text of the registry file, [None] when there is no file. *)
Definition registry := option pystr.

Definition newline : pystr := [10].

(** [get_failed_experiments_list] *)
Definition get_failed_experiments_list (reg : registry) : list pystr :=
  match reg with
  | None => []
  | Some text => stripped_lines text
  end.

(** [add_failed_experiment_to_list]: the file is opened for appending,
    which creates it when it is not there. *)
Definition add_failed_experiment_to_list (experiment : pystr) (reg : registry)
  : registry :=
  let existing_failed : gset pystr :=
    match reg with
    | Some text => list_to_set (stripped_lines text)
    | None => ∅
    end in
  if bool_decide (experiment ∉ existing_failed)
  then Some (default [] reg ++ experiment ++ newline)
  else reg.

(** [save_failed_experiment_info] keeps only the experiment name. *)
Definition save_failed_experiment_info
    (job_id experiment batch_file_name status_text : pystr) (reg : registry)
  : registry :=
  add_failed_experiment_to_list experiment reg.

(** [for exp in updated_experiments: f.write(f"{exp}\n")] *)
Definition write_lines (l : list pystr) : pystr :=
  List.concat (List.map (fun e => e ++ newline) l).

(** [remove_experiment_from_failed_list] *)
Definition remove_experiment_from_failed_list (experiment : pystr) (reg : registry)
  : registry :=
  match reg with
  | None => None
  | Some text =>
      let experiments := stripped_lines text in
      let updated_experiments :=
        List.filter (fun e => negb (str_eqb e experiment)) experiments in
      match updated_experiments with
      | [] => None
      | _ :: _ => Some (write_lines updated_experiments)
      end
  end.

End FailedExecute.

(** ** The status poller ([execute_experiment.py]) *)

Module Poller.
Import Tracking FailedExecute.

(** What [client.batches.retrieve] answers. *)
Record batch_info : Type := {
  info_status : pystr;
  output_file_id : pystr
}.

(** The remote service as one reconciliation pass sees it. *)
Record remote : Type := {
  openai_login : result unit;
  batches_retrieve : pystr -> result batch_info;
  files_content : pystr -> result bytes
}.

(** The durable state the poller works on. *)
Record world : Type := {
  tracking : tracking_file;
  failed_execute : registry;
  results_dir : gmap pystr bytes
}.

Definition with_tracking (f : tracking_file) (w : world) : world :=
  {| tracking := f; failed_execute := failed_execute w; results_dir := results_dir w |}.

Definition with_failed (reg : registry) (w : world) : world :=
  {| tracking := tracking w; failed_execute := reg; results_dir := results_dir w |}.

Definition with_result (name : pystr) (content : bytes) (w : world) : world :=
  {| tracking := tracking w; failed_execute := failed_execute w;
     results_dir := <[name := content]> (results_dir w) |}.

(** [f"{prefix}_results_{batch_id}_{date_string}.jsonl"] *)
Definition results_file_name (prefix job_id date_string : pystr) : pystr :=
  prefix ++ u "_results_" ++ job_id ++ u "_" ++ date_string ++ u ".jsonl".

(** The download of a completed batch: the inner [try] of the loop body.
    When the content cannot be fetched the [except] leaves the state as
    it is. *)
Definition download_completed (rm : remote) (date_string : pystr)
    (row : tracking_record) (info : batch_info) (w : world) : world :=
  match files_content rm (output_file_id info) with
  | Raise _ => w
  | Ok result_bytes =>
      let save_path :=
        results_file_name (experiment_name row) (batch_id row) date_string in
      let w := with_result save_path result_bytes w in
      let w := with_tracking (remove_batch_from_tracking (batch_id row) (tracking w)) w in
      with_failed (remove_experiment_from_failed_list (experiment_name row)
                     (failed_execute w)) w
  end.

(** The body of the loop over the pending rows. *)
Definition reconcile_record (rm : remote) (date_string : pystr)
    (row : tracking_record) (w : world) : world :=
  match batches_retrieve rm (batch_id row) with
  | Raise _ => w
  | Ok info =>
      let new_status := info_status info in
      let w :=
        if negb (str_eqb new_status (status row))
        then with_tracking (update_batch_status (batch_id row) new_status (tracking w)) w
        else w in
      if str_eqb new_status (u "completed") then
        download_completed rm date_string row info w
      else if bool_decide (new_status ∈ [u "failed"; u "cancelled"]) then
        let w := with_failed
                   (save_failed_experiment_info (batch_id row) (experiment_name row)
                      (batch_file row) new_status (failed_execute w)) w in
        with_tracking (remove_batch_from_tracking (batch_id row) (tracking w)) w
      else w
  end.

(** The rows a pass looks at. *)
Definition pending_batches (company_batches : DataFrame) : list tracking_record :=
  List.filter
    (fun r => negb (bool_decide (status r ∈ [u "downloaded"; u "failed"])))
    (rows company_batches).

Definition reconcile_all (rm : remote) (date_string : pystr)
    (pending : list tracking_record) (w : world) : world :=
  List.fold_left (fun w row => reconcile_record rm date_string row w) pending w.

(** [check_and_download_openai_batches] *)
Definition check_and_download_openai_batches (rm : remote) (date_string : pystr)
    (company_batches : DataFrame) (w : world) : world :=
  match openai_login rm with
  | Raise _ => w
  | Ok _ => reconcile_all rm date_string (pending_batches company_batches) w
  end.

(** [check_and_download_pending_batches]: one reconciliation pass.  The
    table always has its six columns, so [df.empty] is the absence of
    rows. *)
Definition check_and_download_pending_batches (rm : remote) (date_string : pystr)
    (w : world) : world :=
  if negb (exists_file (tracking w)) then w
  else
    let df := loaded (tracking w) in
    match rows df with
    | [] => w
    | _ :: _ =>
        let w := check_and_download_openai_batches rm date_string df w in
        with_tracking (fst (cleanup_empty_tracking_file (tracking w))) w
    end.

End Poller.

(** ** The fragment of [re] the two patterns of the program need *)

Module Regex.

(** One element of a pattern: a character class, alone or repeated, or
    the opening or closing parenthesis of the capturing group. *)
Inductive item : Type :=
| One (p : N -> bool)
| Star (p : N -> bool)
| Plus (p : N -> bool)
| PlusLazy (p : N -> bool)
| GroupOpen
| GroupClose.

(** The position reached in the text and the bounds of group 1. *)
Record mstate : Type := {
  pos : nat;
  group_start : nat;
  group_end : nat
}.

Definition advance (st : mstate) : mstate :=
  {| pos := S (pos st); group_start := group_start st; group_end := group_end st |}.

Definition cont := pystr -> mstate -> option mstate.

(** [p*] followed by [k]: the longest repetition is tried first. *)
Fixpoint star_greedy (p : N -> bool) (k : cont) (s : pystr) (st : mstate)
  : option mstate :=
  match s with
  | c :: s' =>
      if p c then
        match star_greedy p k s' (advance st) with
        | Some r => Some r
        | None => k s st
        end
      else k s st
  | [] => k s st
  end.

(** [p*?] followed by [k]: the shortest repetition is tried first. *)
Fixpoint star_lazy (p : N -> bool) (k : cont) (s : pystr) (st : mstate)
  : option mstate :=
  match k s st with
  | Some r => Some r
  | None =>
      match s with
      | c :: s' => if p c then star_lazy p k s' (advance st) else None
      | [] => None
      end
  end.

Definition one (p : N -> bool) (k : cont) : cont :=
  fun s st =>
    match s with
    | c :: s' => if p c then k s' (advance st) else None
    | [] => None
    end.

(** Backtracking match of a pattern at the start of [s]. *)
Fixpoint run (its : list item) : cont :=
  match its with
  | [] => fun _ st => Some st
  | it :: rest =>
      let k := run rest in
      match it with
      | One p => one p k
      | Star p => star_greedy p k
      | Plus p => one p (star_greedy p k)
      | PlusLazy p => one p (star_lazy p k)
      | GroupOpen =>
          fun s st => k s {| pos := pos st; group_start := pos st;
                             group_end := group_end st |}
      | GroupClose =>
          fun s st => k s {| pos := pos st; group_start := group_start st;
                             group_end := pos st |}
      end
  end.

(** [re.search]: the match at the leftmost position where one exists.
    The result is the start of the match and the final state. *)
Fixpoint search_from (its : list item) (s : pystr) (start : nat)
  : option (nat * mstate) :=
  match run its s {| pos := start; group_start := start; group_end := start |} with
  | Some r => Some (start, r)
  | None =>
      match s with
      | [] => None
      | _ :: s' => search_from its s' (S start)
      end
  end.

Definition search (its : list item) (s : pystr) : option (nat * mstate) :=
  search_from its s 0.

(** [text[i:j]] *)
Definition slice {A} (l : list A) (i j : nat) : list A :=
  firstn (j - i) (skipn i l).

(** [match.group(1)] *)
Definition group1 (s : pystr) (m : nat * mstate) : pystr :=
  slice s (group_start (snd m)) (group_end (snd m)).

(** Lower case of the letters a pattern of this program contains: the
    ASCII letters and the accented Latin-1 letters. *)
Definition lower (c : N) : N :=
  if (65 <=? c) && (c <=? 90) then c + 32
  else if (192 <=? c) && (c <=? 222) && negb (c =? 215) then c + 32
  else c.

(** A literal under [re.IGNORECASE]: a character matches when its lower
    case is that of the literal; the dotted and dotless I match [i], the
    long s matches [s] and the Kelvin sign matches [k]. *)
Definition literal_ignorecase (l c : N) : bool :=
  (lower c =? lower l)
  || (lower l =? 105) && ((c =? 304) || (c =? 305))
  || (lower l =? 115) && (c =? 383)
  || (lower l =? 107) && (c =? 8490).

Definition literal (l c : N) : bool := c =? l.

(** [.] without [re.DOTALL] *)
Definition dot (c : N) : bool := negb (c =? 10).

End Regex.

(** ** The task builder ([prepare_experiment.py]) *)

Module Prepare.
Import Regex.

(** An entry of [config.yaml]: the fields of one experiment, as text. *)
Abbreviation config := (gmap pystr pystr).

Record message : Type := { role : pystr; content : pystr }.

Record body : Type := {
  model : pystr;
  temperature : Z;
  logprobs : bool;
  top_logprobs : Z;
  response_format_type : pystr;
  messages : list message
}.

Record task : Type := {
  custom_id : pystr;
  method : pystr;
  url : pystr;
  task_body : body
}.

(** A dataset file: whether it may be read, and what [pd.read_csv] or
    [pd.read_excel] makes of it: the columns by name, a cell being
    [None] where pandas has [NaN]. *)
Record data_file : Type := {
  readable : bool;
  parsed : result (gmap pystr (list (option pystr)))
}.

(** The folders the prepare stage reads, and the clock. *)
Record prep_env : Type := {
  data_dir : gmap pystr data_file;
  prompts_dir : gmap pystr pystr;
  clock : nat -> pystr
}.

(** The folders and files the prepare stage writes; [ticks] counts the
    readings of the clock. *)
Record prep_state : Type := {
  batches : gmap pystr (list task);
  failed_prepare : option pystr;
  ticks : nat
}.

(** [df[column_name].dropna().astype(str).tolist()] *)
Definition dropna (cells : list (option pystr)) : list pystr :=
  omap (fun cell => cell) cells.

Definition load_word_list (env : prep_env) (file_path column_name : pystr)
  : result (list pystr) :=
  match data_dir env !! file_path with
  | None => Raise FileNotFoundError
  | Some f =>
      if negb (readable f) then Raise PermissionError
      else if endswith (u ".csv") file_path
              || endswith (u ".xlsx") file_path || endswith (u ".xls") file_path
      then
        let! df := parsed f in
        match df !! column_name with
        | None => Raise ValueError
        | Some cells => Ok (dropna cells)
        end
      else Raise ValueError
  end.

Definition load_prompt_from_file (env : prep_env) (prompt_file : pystr)
  : result pystr :=
  match prompts_dir env !! prompt_file with
  | None => Raise FileNotFoundError
  | Some text =>
      let prompt_content := strip text in
      match prompt_content with
      | [] => Raise ValueError
      | _ :: _ => Ok prompt_content
      end
  end.

(** [r'\[([^\]]+)\]'] *)
Definition placeholder_pattern : list item :=
  [One (literal 91); GroupOpen; Plus (fun c => negb (c =? 93)); GroupClose;
   One (literal 93)].

(** The default of [config.get('prompt_key', ...)]:
    "[insertar expresión aquí]". *)
Definition default_prompt_key : pystr :=
  u "[insertar expresi" ++ [243] ++ u "n aqu" ++ [237] ++ u "]".

Definition find_prompt_key (cfg : config) (prompt_template : pystr) : pystr :=
  match search placeholder_pattern prompt_template with
  | Some m => u "[" ++ group1 prompt_template m ++ u "]"
  | None => default default_prompt_key (cfg !! u "prompt_key")
  end.

Definition make_task (experiment model_name : pystr) (counter : nat)
    (prompt_content : pystr) : task :=
  {| custom_id := experiment ++ u "_task_" ++ str_of_nat counter;
     method := u "POST";
     url := u "/v1/chat/completions";
     task_body := {| model := model_name;
                     temperature := 0;
                     logprobs := true;
                     top_logprobs := 10;
                     response_format_type := u "text";
                     messages := [ {| role := u "user"; content := prompt_content |} ] |} |}.

(** The loop over [enumerate(word_list, start=1)]. *)
Fixpoint tasks_loop (experiment model_name prompt_template prompt_key : pystr)
    (counter : nat) (word_list : list pystr) : list task :=
  match word_list with
  | [] => []
  | expression :: rest =>
      let prompt_content := replace prompt_key (strip expression) prompt_template in
      make_task experiment model_name counter prompt_content
      :: tasks_loop experiment model_name prompt_template prompt_key (S counter) rest
  end.

Definition create_openai_tasks (env : prep_env) (word_list : list pystr)
    (cfg : config) (experiment : pystr) : result (list task) :=
  let prompt_file := default [] (cfg !! u "prompt") in
  match prompt_file with
  | [] => Raise ValueError
  | _ :: _ =>
      let! prompt_template := load_prompt_from_file env prompt_file in
      let model_name := default (u "gpt-4o-mini") (cfg !! u "model_name") in
      let prompt_key := find_prompt_key cfg prompt_template in
      Ok (tasks_loop experiment model_name prompt_template prompt_key 1 word_list)
  end.

(** [range(0, stop, step)] for a positive step. *)
Fixpoint range_steps (count start step : nat) : list nat :=
  match count with
  | O => []
  | S k => start :: range_steps k (start + step) step
  end.

Definition range0 (stop step : nat) : list nat :=
  range_steps ((stop + step - 1) / step) 0 step.

(** [[tasks[i:i + chunk_size] for i in range(0, len(tasks), chunk_size)]] *)
Definition task_chunks {A} (tasks : list A) (chunk_size : nat) : list (list A) :=
  List.map (fun i => slice tasks i (i + chunk_size))
           (range0 (List.length tasks) chunk_size).

(** [f"{experiment_name}_batch_{index}_{date_string}.jsonl"] *)
Definition batch_name (experiment : pystr) (index : nat) (date_string : pystr) : pystr :=
  experiment ++ u "_batch_" ++ str_of_nat index ++ u "_" ++ date_string ++ u ".jsonl".

(** The loop over [enumerate(task_chunks)]: it writes one file per chunk
    and collects the names. *)
Fixpoint write_chunks (experiment date_string : pystr) (index : nat)
    (chunks : list (list task)) (dir : gmap pystr (list task))
  : list pystr * gmap pystr (list task) :=
  match chunks with
  | [] => ([], dir)
  | chunk :: rest =>
      let name := batch_name experiment index date_string in
      let '(names, dir') :=
        write_chunks experiment date_string (S index) rest (<[name := chunk]> dir) in
      (name :: names, dir')
  end.

Definition default_chunk_size : nat := 50 * 1000.

Definition create_batch_files (date_string : pystr) (tasks : list task)
    (experiment : pystr) (chunk_size : nat) (dir : gmap pystr (list task))
  : result (list pystr * gmap pystr (list task)) :=
  match chunk_size with
  | O => Raise ValueError
  | S _ => Ok (write_chunks experiment date_string 0 (task_chunks tasks chunk_size) dir)
  end.

(** *** The prepare-stage registry ([failed_prepare_exp.txt]) *)

(** [load_failed_experiments] *)
Definition load_failed_experiments (reg : option pystr) : list pystr :=
  match reg with
  | Some text => stripped_lines text
  | None => []
  end.

(** [sep.join(l)] *)
Fixpoint join (sep : pystr) (l : list pystr) : pystr :=
  match l with
  | [] => []
  | x :: rest =>
      match rest with
      | [] => x
      | _ :: _ => x ++ sep ++ join sep rest
      end
  end.

(** [save_failed_experiments]: an empty list removes the file. *)
Definition save_failed_experiments (failed_list : list pystr) : option pystr :=
  match failed_list with
  | [] => None
  | _ :: _ => Some (join [10] failed_list ++ [10])
  end.

(** [list.remove(x)]: the first occurrence goes. *)
Fixpoint list_remove (x : pystr) (l : list pystr) : list pystr :=
  match l with
  | [] => []
  | y :: rest => if str_eqb y x then rest else y :: list_remove x rest
  end.

Definition update_failed_experiments (experiment : pystr) (success : bool)
    (reg : option pystr) : option pystr :=
  let failed_experiments := load_failed_experiments reg in
  let failed_experiments :=
    if success && bool_decide (experiment ∈ failed_experiments)
    then list_remove experiment failed_experiments
    else if negb success && negb (bool_decide (experiment ∈ failed_experiments))
    then failed_experiments ++ [experiment]
    else failed_experiments in
  save_failed_experiments failed_experiments.

Definition required_fields : list pystr :=
  [u "dataset_name"; u "prompt"; u "model_name"].

(** The [try] block of [process_experiment]. *)
Definition process_experiment_body (env : prep_env) (experiment : pystr)
    (cfg : config) (st : prep_state) : result (bool * prep_state) :=
  let missing_fields :=
    List.filter (fun field => negb (bool_decide (is_Some (cfg !! field))))
                required_fields in
  match missing_fields with
  | _ :: _ => Raise ValueError
  | [] =>
      match cfg !! u "dataset_name" with
      | None => Raise KeyError
      | Some dataset_filename =>
          let column_name := default (u "expression") (cfg !! u "dataset_column") in
          let! word_list := load_word_list env dataset_filename column_name in
          let! tasks := create_openai_tasks env word_list cfg experiment in
          let date_string := clock env (ticks st) in
          let! written :=
            create_batch_files date_string tasks experiment default_chunk_size
                               (batches st) in
          let st' := {| batches := snd written;
                        failed_prepare := failed_prepare st;
                        ticks := S (ticks st) |} in
          match fst written with
          | _ :: _ => Ok (true, st')
          | [] => Ok (false, st')
          end
      end
  end.

(** [process_experiment]: every exception turns into [False]. *)
Definition process_experiment (env : prep_env) (experiment : pystr)
    (cfg : config) (st : prep_state) : bool * prep_state :=
  match try_except (process_experiment_body env experiment cfg st)
                   (fun _ => Ok (false, st)) with
  | Ok r => r
  | Raise _ => (false, st)
  end.

Definition with_failed_prepare (reg : option pystr) (st : prep_state) : prep_state :=
  {| batches := batches st; failed_prepare := reg; ticks := ticks st |}.

(** The summary of a run and the state it leaves. *)
Record run_summary : Type := {
  successful_count : nat;
  failed_count : nat;
  final : prep_state
}.

(** [process_multiple_experiments] *)
Fixpoint process_multiple_experiments (env : prep_env)
    (all_configs : gmap pystr config) (experiment_names : list pystr)
    (successful failed : nat) (st : prep_state) : run_summary :=
  match experiment_names with
  | [] => {| successful_count := successful; failed_count := failed; final := st |}
  | experiment :: rest =>
      match all_configs !! experiment with
      | None =>
          process_multiple_experiments env all_configs rest successful failed st
      | Some cfg =>
          let '(success, st) := process_experiment env experiment cfg st in
          let st := with_failed_prepare
                      (update_failed_experiments experiment success (failed_prepare st))
                      st in
          if success
          then process_multiple_experiments env all_configs rest (S successful) failed st
          else process_multiple_experiments env all_configs rest successful (S failed) st
      end
  end.

End Prepare.

(** ** The result extractor ([generateResults.py]) *)

Module Results.
Import Regex.

(** [r'La expresión es:\s*(.+?)\.'] under [re.IGNORECASE] *)
Definition expression_pattern : list item :=
  List.map (fun l => One (literal_ignorecase l))
           (u "La expresi" ++ [243] ++ u "n es:")
  ++ [Star is_space; GroupOpen; PlusLazy dot; GroupClose;
      One (literal_ignorecase 46)].

(** The characters of [expression.strip(...)]: the two ASCII quotes and
    the low double quote. *)
Definition quote_chars : pystr := [34; 39; 34; 34; 8222].

Definition extract_word_input (text : pystr) : option pystr :=
  match search expression_pattern text with
  | Some m =>
      let expression := strip (group1 text m) in
      let expression := strip_chars quote_chars expression in
      Some expression
  | None => None
  end.

(** The floating point of the interpreter and of numpy, and the part
    of the Unicode tables outside ASCII. *)
Record runtime : Type := {
  F : Type;
  of_int : Z -> F;
  fexp : F -> F;
  fadd : F -> F -> F;
  fmul : F -> F -> F;
  parse_float : pystr -> option F;
  float_str : F -> pystr;
  unicode_isdigit : N -> bool;
  unicode_decimal : N -> option Z
}.

Section Scoring.
Variable rt : runtime.

(** A value of a decoded JSON document; a list or an object that
    stands where a scalar is expected is given by its [str()]. *)
Inductive value : Type :=
| VNone
| VBool (b : bool)
| VInt (z : Z)
| VFloat (x : F rt)
| VStr (s : pystr)
| VContainer (text : pystr).

(** An element of [top_logprobs_list]: an object, or anything else. *)
Inductive entry : Type :=
| EDict (fields : gmap pystr value)
| ENotDict.

(** The accumulator starts as the integer [0] and becomes a float
    with the first contribution. *)
Inductive number : Type :=
| Int (z : Z)
| Float (x : F rt).

Definition str_of_Z (z : Z) : pystr :=
  match z with
  | Z0 => [48]
  | Zpos p => str_of_nat (Pos.to_nat p)
  | Zneg p => 45 :: str_of_nat (Pos.to_nat p)
  end.

(** [str(v)] *)
Definition py_str (v : value) : pystr :=
  match v with
  | VNone => u "None"
  | VBool true => u "True"
  | VBool false => u "False"
  | VInt z => str_of_Z z
  | VFloat x => float_str rt x
  | VStr s => s
  | VContainer text => text
  end.

(** [float(v)] *)
Definition py_float (v : value) : result (F rt) :=
  match v with
  | VNone => Raise TypeError
  | VBool b => Ok (of_int rt (if b then 1 else 0)%Z)
  | VInt z => Ok (of_int rt z)
  | VFloat x => Ok x
  | VStr s =>
      match parse_float rt s with
      | Some x => Ok x
      | None => Raise ValueError
      end
  | VContainer _ => Raise TypeError
  end.

(** [top_logprob[key]] *)
Definition getitem (e : entry) (key : pystr) : result value :=
  match e with
  | EDict fields =>
      match fields !! key with
      | Some v => Ok v
      | None => Raise KeyError
      end
  | ENotDict => Raise TypeError
  end.

Definition char_isdigit (c : N) : bool :=
  if c <? 128 then is_ascii_digit c else unicode_isdigit rt c.

(** [s.isdigit()] *)
Definition isdigit (s : pystr) : bool :=
  nonempty s && forallb char_isdigit s.

(** [int(s)] for a text of one character. *)
Definition int_of_char (c : N) : result Z :=
  if is_ascii_digit c then Ok (Z.of_N c - 48)%Z
  else if c <? 128 then Raise ValueError
  else match unicode_decimal rt c with
       | Some v => Ok v
       | None => Raise ValueError
       end.

Definition to_float (n : number) : F rt :=
  match n with
  | Int z => of_int rt z
  | Float x => x
  end.

Definition caught (e : exn) : bool :=
  match e with
  | ValueError | KeyError => true
  | _ => false
  end.

(** The body of the loop; the state is the running sum and the set of
    the numbers seen. *)
Definition score_entry (top_logprob : entry) (acc : number * gset Z)
  : result (number * gset Z) :=
  let '(weighted_sum, seen_numbers) := acc in
  try_except_only caught
    (let! token := getitem top_logprob (u "token") in
     let token_str := strip (py_str token) in
     if isdigit token_str && (List.length token_str =? 1)%nat then
       match token_str with
       | [c] =>
           let! token_value := int_of_char c in
           if (1 <=? token_value)%Z && (token_value <=? 7)%Z
              && bool_decide (token_value ∉ seen_numbers)
           then
             let! logprob_value := getitem top_logprob (u "logprob") in
             let! x := py_float logprob_value in
             let probability := fexp rt x in
             Ok (Float (fadd rt (to_float weighted_sum)
                                (fmul rt (of_int rt token_value) probability)),
                 {[token_value]} ∪ seen_numbers)
           else Ok acc
       | _ => Ok acc
       end
     else Ok acc)
    (fun _ => Ok acc).

Fixpoint score_loop (top_logprobs_list : list entry) (acc : number * gset Z)
  : result (number * gset Z) :=
  match top_logprobs_list with
  | [] => Ok acc
  | e :: rest =>
      let! acc' := score_entry e acc in
      score_loop rest acc'
  end.

Definition calculate_weighted_sum_1_to_7 (top_logprobs_list : list entry)
  : result number :=
  let! final := score_loop top_logprobs_list (Int 0, ∅) in
  Ok (fst final).

(** *** The score as the specification words it *)

(** The digit a token stands for: its text without the white space
    around it is one decimal digit whose value is from 1 to 7. *)
Definition digit_of_token (token : value) : option Z :=
  match strip (py_str token) with
  | [c] =>
      if char_isdigit c then
        match int_of_char c with
        | Ok v => if (1 <=? v)%Z && (v <=? 7)%Z then Some v else None
        | Raise _ => None
        end
      else None
  | _ => None
  end.

(** The alternative an element gives: a digit and a log-probability,
    when both fields are there and well formed. *)
Definition counted (e : entry) : option (Z * F rt) :=
  match e with
  | EDict fields =>
      match fields !! u "token", fields !! u "logprob" with
      | Some token, Some logprob_value =>
          match digit_of_token token, py_float logprob_value with
          | Some d, Ok x => Some (d, x)
          | _, _ => None
          end
      | _, _ => None
      end
  | ENotDict => None
  end.

(** The sum of [digit * exp(logprob)] over the first occurrence of
    each digit, in the order of the list. *)
Fixpoint sum_first_occurrences (seen : gset Z) (acc : number)
    (alternatives : list (Z * F rt)) : number :=
  match alternatives with
  | [] => acc
  | (d, x) :: rest =>
      if bool_decide (d ∈ seen) then sum_first_occurrences seen acc rest
      else sum_first_occurrences ({[d]} ∪ seen)
             (Float (fadd rt (to_float acc) (fmul rt (of_int rt d) (fexp rt x))))
             rest
  end.

Definition weighted_sum_spec (top_logprobs_list : list entry) : number :=
  sum_first_occurrences ∅ (Int 0) (omap counted top_logprobs_list).

(** An element on which the loop raises no [TypeError]: an object
    whose log-probability, if it has one, is a number, a boolean or a
    text. *)
Definition well_typed (e : entry) : Prop :=
  match e with
  | EDict fields =>
      match fields !! u "logprob" with
      | Some VNone | Some (VContainer _) => False
      | _ => True
      end
  | ENotDict => False
  end.

(** The element [{"token": token, "logprob": logprob}]. *)
Definition alternative (token logprob_value : value) : entry :=
  EDict {[ u "token" := token; u "logprob" := logprob_value ]}.

End Scoring.

End Results.

(** ** Vocabulary of the statements *)

Module Vocabulary.
Import Tracking.

(** A text that a registry line can hold and give back: not empty, no
    white space at either end, no line terminator inside. *)
Definition valid_line (e : pystr) : bool :=
  nonempty e && str_eqb (strip e) e && forallb (fun c => negb (is_newline c)) e.

(** A text whose last line is closed by its terminator. *)
Fixpoint terminated (s : pystr) : bool :=
  match s with
  | [] => true
  | c :: s' =>
      match s' with
      | [] => is_newline c
      | _ :: _ => terminated s'
      end
  end.

(** How many entries of a registry are this name. *)
Definition occurrences (e : pystr) (l : list pystr) : nat :=
  List.length (List.filter (str_eqb e) l).

(** A registry as the program leaves it: every line closed, no name
    twice. *)
Definition wf_registry (reg : option pystr) : Prop :=
  match reg with
  | None => True
  | Some text => terminated text = true /\ List.NoDup (stripped_lines text)
  end.

(** The position of the first closing bracket of a text. *)
Fixpoint find_close (s : pystr) : option nat :=
  match s with
  | [] => None
  | c :: s' => if c =? 93 then Some 0%nat else option_map S (find_close s')
  end.

(** The end of the placeholder pattern: the group closes and the
    closing bracket follows. *)
Definition close_group : Regex.cont :=
  Regex.run [Regex.GroupClose; Regex.One (Regex.literal 93)].

(** Whether [key] occurs somewhere in [s]. *)
Fixpoint occurs (key s : pystr) : bool :=
  startswith key s
  || match s with
     | [] => false
     | _ :: s' => occurs key s'
     end.

(** The prompt a task carries. *)
Definition prompts_of (t : Prepare.task) : list pystr :=
  List.map Prepare.content (Prepare.messages (Prepare.task_body t)).

(** The missing-input errors of the prepare stage for an experiment
    that has a configuration: a required field is absent, the dataset
    file is absent, may not be read or cannot be parsed, or the prompt
    file holds nothing but white space. *)
Definition missing_input (env : Prepare.prep_env) (cfg : gmap pystr pystr) : Prop :=
  (exists field, In field Prepare.required_fields /\ cfg !! field = None)
  \/ (exists dataset, cfg !! u "dataset_name" = Some dataset
       /\ (Prepare.data_dir env !! dataset = None
           \/ exists f, Prepare.data_dir env !! dataset = Some f
                        /\ (Prepare.readable f = false
                            \/ exists e, Prepare.parsed f = Raise e)))
  \/ (exists prompt_file text,
        cfg !! u "prompt" = Some prompt_file
        /\ Prepare.prompts_dir env !! prompt_file = Some text
        /\ strip text = []).

(** The part of [process_experiment] that reads: the check of the
    fields, the word list and the tasks. *)
Definition prepared_tasks (env : Prepare.prep_env) (experiment : pystr)
    (cfg : gmap pystr pystr) : result (list Prepare.task) :=
  match List.filter (fun field => negb (bool_decide (is_Some (cfg !! field))))
                    Prepare.required_fields with
  | _ :: _ => Raise ValueError
  | [] =>
      match cfg !! u "dataset_name" with
      | None => Raise KeyError
      | Some dataset_filename =>
          let column_name := default (u "expression") (cfg !! u "dataset_column") in
          let! word_list := Prepare.load_word_list env dataset_filename column_name in
          Prepare.create_openai_tasks env word_list cfg experiment
      end
  end.

(** The state after the batch files of an experiment are written. *)
Definition state_after_write (env : Prepare.prep_env) (experiment : pystr)
    (tasks : list Prepare.task) (st : Prepare.prep_state) : Prepare.prep_state :=
  {| Prepare.batches :=
       snd (Prepare.write_chunks experiment (Prepare.clock env (Prepare.ticks st)) 0
              (Prepare.task_chunks tasks Prepare.default_chunk_size)
              (Prepare.batches st));
     Prepare.failed_prepare := Prepare.failed_prepare st;
     Prepare.ticks := S (Prepare.ticks st) |}.

(** One turn of the loop of [process_multiple_experiments] for a name
    that has a configuration. *)
Definition turn (env : Prepare.prep_env) (n : pystr) (cfg : gmap pystr pystr)
    (st : Prepare.prep_state) : Prepare.prep_state :=
  Prepare.with_failed_prepare
    (Prepare.update_failed_experiments n
       (fst (Prepare.process_experiment env n cfg st))
       (Prepare.failed_prepare (snd (Prepare.process_experiment env n cfg st))))
    (snd (Prepare.process_experiment env n cfg st)).

(** A prepare-stage state with nothing written yet. *)
Definition fresh_state : Prepare.prep_state :=
  {| Prepare.batches := ∅; Prepare.failed_prepare := None; Prepare.ticks := 0 |}.

(** What a run makes of a name: nothing without a configuration,
    otherwise the verdict of [process_experiment]. *)
Definition outcome (env : Prepare.prep_env) (all_configs : gmap pystr (gmap pystr pystr))
    (experiment : pystr) : option bool :=
  match all_configs !! experiment with
  | None => None
  | Some cfg => Some (fst (Prepare.process_experiment env experiment cfg fresh_state))
  end.

Definition count_outcome (env : Prepare.prep_env)
    (all_configs : gmap pystr (gmap pystr pystr)) (verdict : bool)
    (names : list pystr) : nat :=
  List.length
    (List.filter (fun n => match outcome env all_configs n with
                           | Some v => Bool.eqb v verdict
                           | None => false
                           end) names).

(** The second tracking file holds no job that the first does not. *)
Definition no_new_jobs (f f' : tracking_file) : Prop :=
  forall r', In r' (rows (loaded f')) ->
             exists r, In r (rows (loaded f)) /\ batch_id r = batch_id r'.

End Vocabulary.

(** ** Sample data *)

Module Samples.
Import Tracking FailedExecute Poller.

Definition sample_row : tracking_record :=
  {| experiment_name := u "exp1_prompt";
     batch_file := u "exp1_prompt_batch_0_2025-01-01-10-00.jsonl";
     batch_id := u "batch_abc";
     status := u "completed";
     timestamp := u "2025-01-01 10:00:00";
     file_hash := u "0f343b0931126a20f133d67c2b018a3b" |}.

Definition sample_date : pystr := u "2025-01-02-08-30".

Definition sample_output : bytes := [123; 125; 10].

Definition completed_info : batch_info :=
  {| info_status := u "completed"; output_file_id := u "file-out" |}.

Definition failed_info : batch_info :=
  {| info_status := u "failed"; output_file_id := [] |}.

(** A remote that reports every job completed and serves its output. *)
Definition remote_completed : remote :=
  {| openai_login := Ok tt;
     batches_retrieve := fun _ => Ok completed_info;
     files_content := fun _ => Ok sample_output |}.

(** A remote that reports every job completed but fails to serve the
    output file. *)
Definition remote_fetch_fails : remote :=
  {| openai_login := Ok tt;
     batches_retrieve := fun _ => Ok completed_info;
     files_content := fun _ => Raise RemoteError |}.

(** A remote that reports every job failed. *)
Definition remote_failed : remote :=
  {| openai_login := Ok tt;
     batches_retrieve := fun _ => Ok failed_info;
     files_content := fun _ => Raise RemoteError |}.

(** One tracked job, whose experiment is in the registry. *)
Definition sample_world : world :=
  {| tracking := Stored [sample_row];
     failed_execute := Some (u "exp1_prompt" ++ newline);
     results_dir := ∅ |}.

(** A stand-in for MD5 that is injective: the content itself. *)
Definition sample_md5 (content : bytes) : pystr := content.

(** Two batch files, the first tracked with its present content, the
    second tracked with an older content. *)
Definition dedup_fs : file_system :=
  {| cwd_files := ∅;
     batches_dir := {[ u "e_batch_0.jsonl" := [1; 2]; u "e_batch_1.jsonl" := [3; 4] ]} |}.

Definition dedup_table : tracking_file :=
  Stored [ {| experiment_name := u "e"; batch_file := u "e_batch_0.jsonl";
              batch_id := u "batch_0"; status := u "submitted";
              timestamp := u "2025-01-01 10:00:00"; file_hash := [1; 2] |};
           {| experiment_name := u "e"; batch_file := u "e_batch_1.jsonl";
              batch_id := u "batch_1"; status := u "submitted";
              timestamp := u "2025-01-01 10:00:00"; file_hash := [3; 5] |} ].

(** "La expresión es: [palabra]." *)
Definition expression_template : pystr :=
  u "La expresi" ++ [243] ++ u "n es: [palabra].".

(** "La expresión es: correr." *)
Definition expression_prompt : pystr :=
  u "La expresi" ++ [243] ++ u "n es: correr.".

(** A scale prompt with three bracketed spans, all different. *)
Definition scale_template : pystr := u "Rate [word] from [1] to [7].".

(** A prompt that names its placeholder twice. *)
Definition twice_template : pystr := u "[x] y [x]".

Definition words_table : gmap pystr (list (option pystr)) :=
  {[ u "expression" := [Some (u "correr"); None; Some (u " casa ")] ]}.

Definition sample_env : Prepare.prep_env :=
  {| Prepare.data_dir :=
       {[ u "words.csv" := {| Prepare.readable := true;
                              Prepare.parsed := Ok words_table |} ]};
     Prepare.prompts_dir :=
       {[ u "expression.txt" := expression_template;
          u "scale.txt" := scale_template;
          u "twice.txt" := twice_template;
          u "blank.txt" := u "  " ]};
     Prepare.clock := fun _ => u "2025-01-01-10-00" |}.

Definition config_with_prompt (prompt_file : pystr) : gmap pystr pystr :=
  {[ u "dataset_name" := u "words.csv";
     u "prompt" := prompt_file;
     u "model_name" := u "gpt-4o-mini" ]}.

(** Two configured experiments: the prompt file of the first is blank,
    the second is complete. *)
Definition sample_configs : gmap pystr (gmap pystr pystr) :=
  {[ u "blank_exp" := config_with_prompt (u "blank.txt");
     u "good_exp" := config_with_prompt (u "expression.txt") ]}.

(** Real arithmetic in the place of floating point; texts are not
    parsed as numbers and no character outside ASCII is a digit. *)
Definition real_runtime : Results.runtime :=
  {| Results.F := Rdefinitions.R;
     Results.of_int := Rdefinitions.IZR;
     Results.fexp := Rtrigo_def.exp;
     Results.fadd := Rdefinitions.Rplus;
     Results.fmul := Rdefinitions.Rmult;
     Results.parse_float := fun _ => None;
     Results.float_str := fun _ => [];
     Results.unicode_isdigit := fun _ => false;
     Results.unicode_decimal := fun _ => None |}.

(** Two tracked jobs of an experiment whose name begins with a space,
    and no registry yet. *)
Definition padded_row (job : pystr) : tracking_record :=
  {| experiment_name := u " exp1";
     batch_file := u " exp1_batch_0_2025-01-01-10-00.jsonl";
     batch_id := job;
     status := u "in_progress";
     timestamp := u "2025-01-01 10:00:00";
     file_hash := u "0f343b0931126a20f133d67c2b018a3b" |}.

Definition padded_world : world :=
  {| tracking := Stored [padded_row (u "batch_1"); padded_row (u "batch_2")];
     failed_execute := None;
     results_dir := ∅ |}.

(** A tracking file that exists and holds no record. *)
Definition empty_table_world : world :=
  {| tracking := Stored []; failed_execute := None; results_dir := ∅ |}.

End Samples.

(** ** Discovery and submission of batches ([execute_experiment.py]) *)

Module Execute.
Import Tracking FailedExecute Poller.

(** [sep in s] *)
Fixpoint contains (sep s : pystr) : bool :=
  startswith sep s
  || match s with
     | [] => false
     | _ :: s' => contains sep s'
     end.

(** [s.split(sep)[0]] for a separator that is not empty: the text before
    the first occurrence of [sep], all of [s] when there is none. *)
Fixpoint before_first (sep s : pystr) : pystr :=
  if startswith sep s then []
  else match s with
       | [] => []
       | c :: s' => c :: before_first sep s'
       end.

(** [os.listdir] of the batches folder; the order is that of the map, the
    order of the operating system being arbitrary.  A folder that is not
    there is an empty one: both give no name. *)
Definition listdir (dir : gmap pystr bytes) : list pystr :=
  (map_to_list dir).*1.

(** [get_experiment_prefixes_from_batches] *)
Definition get_experiment_prefixes_from_batches (fs : file_system) : list pystr :=
  let prefixes : gset pystr :=
    list_to_set
      (List.map (fun fname => before_first (u "_prompt") fname ++ u "_prompt")
         (List.filter (fun fname => contains (u "_prompt") fname)
            (listdir (batches_dir fs)))) in
  elements prefixes.

(** [get_batches_for_experiment] *)
Definition get_batches_for_experiment (prefix : pystr) (fs : file_system) : list pystr :=
  List.filter (fun f => startswith prefix f) (listdir (batches_dir fs)).

(** [create_batch_tracking_file]: an empty table is written only when
    nothing is at the path. *)
Definition create_batch_tracking_file (f : tracking_file) : tracking_file :=
  if negb (exists_file f) then save_batch_tracking empty_tracking else f.

(** The calls of the submission: the login, the upload of a file and the
    creation of a batch job from the identifier of the upload. *)
Record submitter : Type := {
  submit_login : result unit;
  files_create : bytes -> result pystr;
  batches_create : pystr -> result pystr
}.

(** The durable state of the submission and the number of clock
    readings made for the timestamps. *)
Record exec_state : Type := {
  store : world;
  stamps : nat
}.

Section Submission.
Variable md5 : bytes -> pystr.
Variable sub : submitter.
Variable fs : file_system.
Variable clock : nat -> pystr.

(** The [try] block of the loop over [batches_to_send]. *)
Definition send_batch (prefix file_name : pystr) (st : exec_state) : result exec_state :=
  let! content := match batches_dir fs !! file_name with
                  | Some content => Ok content
                  | None => Raise FileNotFoundError
                  end in
  let! file_id := files_create sub content in
  let! job_id := batches_create sub file_id in
  let! f := add_batch_to_tracking md5 fs (clock (stamps st)) prefix file_name job_id
              (tracking (store st)) in
  Ok {| store := with_tracking f (store st); stamps := S (stamps st) |}.

(** The loop over [batches_to_send]; the flag is
    [experiment_processed_successfully].  The text handed to
    [save_failed_experiment_info] stands for [f"Error de envío: {str(e)}"],
    which the callee does not read. *)
Fixpoint send_batches (prefix : pystr) (batches_to_send : list pystr)
    (processed : bool) (st : exec_state) : bool * exec_state :=
  match batches_to_send with
  | [] => (processed, st)
  | file_name :: rest =>
      match send_batch prefix file_name st with
      | Ok st' => send_batches prefix rest true st'
      | Raise _ =>
          let w := store st in
          let w := with_failed
                     (save_failed_experiment_info (u "ERROR_SENDING") prefix file_name
                        (u "Error de envio") (failed_execute w)) w in
          send_batches prefix rest processed {| store := w; stamps := stamps st |}
      end
  end.

(** The body of the loop of [execute_openai] over the prefixes. *)
Definition submit_experiment (prefix : pystr) (st : exec_state) : result exec_state :=
  let batch_files := get_batches_for_experiment prefix fs in
  let! batches_to_send :=
    get_batches_to_send md5 fs prefix batch_files (tracking (store st)) in
  match batches_to_send with
  | [] =>
      match batch_files with
      | _ :: _ =>
          Ok {| store := with_failed
                           (remove_experiment_from_failed_list prefix
                              (failed_execute (store st))) (store st);
                stamps := stamps st |}
      | [] => Ok st
      end
  | _ :: _ =>
      let '(processed, st) := send_batches prefix batches_to_send false st in
      if processed
      then Ok {| store := with_failed
                            (remove_experiment_from_failed_list prefix
                               (failed_execute (store st))) (store st);
                 stamps := stamps st |}
      else Ok st
  end.

Fixpoint submit_experiments (experiment_prefixes : list pystr) (st : exec_state)
  : result exec_state :=
  match experiment_prefixes with
  | [] => Ok st
  | prefix :: rest =>
      let! st' := submit_experiment prefix st in
      submit_experiments rest st'
  end.

(** [execute_openai] up to the polling loop: the login and the creation
    of the tracking file come first, and an exception of the login is not
    caught. *)
Definition execute_openai_submit (experiment_prefixes : list pystr) (st : exec_state)
  : result exec_state :=
  let! _ := submit_login sub in
  let st := {| store := with_tracking (create_batch_tracking_file (tracking (store st)))
                          (store st);
               stamps := stamps st |} in
  submit_experiments experiment_prefixes st.

End Submission.

(** The polling loop of [execute_openai] and of
    [check_and_download_pending_batches_loop]: a pass, then the end when
    the table is empty, else a sleep and the next pass.  The remote and
    the date are given for each pass; [None] is a loop still running
    after [fuel] passes. *)
Fixpoint polling_loop (fuel : nat) (remotes : nat -> remote) (dates : nat -> pystr)
    (pass : nat) (w : world) : option world :=
  match fuel with
  | O => None
  | S fuel' =>
      let w := check_and_download_pending_batches (remotes pass) (dates pass) w in
      match rows (loaded (tracking w)) with
      | [] => Some w
      | _ :: _ => polling_loop fuel' remotes dates (S pass) w
      end
  end.

(** [check_and_download_pending_batches_loop]: nothing is done without a
    tracking file. *)
Definition check_and_download_pending_batches_loop (fuel : nat)
    (remotes : nat -> remote) (dates : nat -> pystr) (w : world) : option world :=
  if negb (exists_file (tracking w)) then Some w
  else polling_loop fuel remotes dates 0 w.

End Execute.

(** ** The registry of the results stage ([generateResults.py],
    [failed_generateResults.txt]) *)

Module FailedGenerate.

(** [get_failed_experiments] *)
Definition get_failed_experiments (reg : option pystr) : list pystr :=
  match reg with
  | None => []
  | Some text => stripped_lines text
  end.

(** [add_failed_experiment]: the whole file is written again, one name
    per line. *)
Definition add_failed_experiment (experiment : pystr) (reg : option pystr)
  : option pystr :=
  let failed_experiments :=
    match reg with
    | Some text => stripped_lines text
    | None => []
    end in
  if negb (bool_decide (experiment ∈ failed_experiments))
  then Some (FailedExecute.write_lines (failed_experiments ++ [experiment]))
  else reg.

(** [remove_failed_experiment] *)
Definition remove_failed_experiment (experiment : pystr) (reg : option pystr)
  : option pystr :=
  match reg with
  | None => None
  | Some text =>
      let failed_experiments :=
        List.filter (fun e => negb (str_eqb e experiment)) (stripped_lines text) in
      match failed_experiments with
      | [] => None
      | _ :: _ => Some (FailedExecute.write_lines failed_experiments)
      end
  end.

End FailedGenerate.

(** ** The order of a full run of the prepare stage ([main], "all") *)

Module PrepareMain.

(** [failed_experiments + [name for name in all_configs.keys()
    if name not in failed_experiments]]; the keys come in the order of
    the configuration file. *)
Definition execution_order (failed_experiments config_keys : list pystr) : list pystr :=
  failed_experiments
  ++ List.filter (fun name => negb (bool_decide (name ∈ failed_experiments))) config_keys.

End PrepareMain.

(** ** Further sample data *)

Module Examples.
Import Samples.

(** A prompt without any bracket. *)
Definition plain_template : pystr := u "Rate the word.".

Definition plain_env : Prepare.prep_env :=
  {| Prepare.data_dir := Prepare.data_dir sample_env;
     Prepare.prompts_dir := {[ u "plain.txt" := plain_template ]};
     Prepare.clock := Prepare.clock sample_env |}.

(** A service that accepts every upload and every job. *)
Definition accepting : Execute.submitter :=
  {| Execute.submit_login := Ok tt;
     Execute.files_create := fun content => Ok (u "file-" ++ content);
     Execute.batches_create := fun file_id => Ok (u "batch_" ++ file_id) |}.

(** A service that refuses every upload. *)
Definition service_down : Execute.submitter :=
  {| Execute.submit_login := Ok tt;
     Execute.files_create := fun _ => Raise RemoteError;
     Execute.batches_create := fun _ => Raise RemoteError |}.

Definition sample_clock (n : nat) : pystr := u "2025-01-01 10:00:00".

(** Nothing tracked, nothing recorded, nothing downloaded. *)
Definition fresh_exec : Execute.exec_state :=
  {| Execute.store := {| Poller.tracking := Tracking.Missing;
                         Poller.failed_execute := None;
                         Poller.results_dir := ∅ |};
     Execute.stamps := 0 |}.

End Examples.

(** * Properties *)

Import Tracking Vocabulary Samples.

Lemma str_eqb_true (a b : pystr) : str_eqb a b = true <-> a = b.
Proof. unfold str_eqb. apply bool_decide_eq_true. Qed.

Lemma str_eqb_false (a b : pystr) : str_eqb a b = false <-> a <> b.
Proof. unfold str_eqb. apply bool_decide_eq_false. Qed.

Lemma str_eqb_refl (a : pystr) : str_eqb a a = true.
Proof. by apply str_eqb_true. Qed.

(** ** Loading the tracking table *)

Lemma load_batch_tracking_total (f : tracking_file) :
  load_batch_tracking f = Ok (loaded f).
Proof. unfold loaded. by destruct f. Qed.

Lemma loaded_columns (f : tracking_file) : columns (loaded f) = tracking_columns.
Proof. by destruct f. Qed.

(** C7: when the tracking file does not exist, or reading it raises, the
    load returns, without raising, the empty table with the six tracking
    columns. *)
Theorem load_batch_tracking_degrades_to_empty (f : tracking_file)
    (Hbroken : exists_file f = false \/ exists e, read_excel f = Raise e) :
  load_batch_tracking f
  = Ok {| columns := [u "experiment_name"; u "batch_file"; u "batch_id";
                      u "status"; u "timestamp"; u "file_hash"];
          rows := [] |}.
Proof.
  destruct Hbroken as [Habsent | [e Hraise]].
  - unfold load_batch_tracking. by rewrite Habsent.
  - unfold load_batch_tracking.
    destruct (exists_file f); [|done].
    by rewrite Hraise.
Qed.

Lemma load_batch_tracking_degrades_to_empty_witness :
  load_batch_tracking (Unreadable OtherError) = Ok empty_tracking
  /\ load_batch_tracking Missing = Ok empty_tracking.
Proof.
  split.
  - apply (load_batch_tracking_degrades_to_empty (Unreadable OtherError)).
    right. exists OtherError. reflexivity.
  - apply (load_batch_tracking_degrades_to_empty Missing).
    left. reflexivity.
Defined.

(** ** Deduplication of submissions *)

Section Dedup.
Variable md5 : bytes -> pystr.

Lemma batches_to_send_loop_filter fs existing files acc :
  (forall bf, In bf files -> exists h, get_file_hash md5 fs bf = Ok h) ->
  batches_to_send_loop md5 fs existing files acc
  = Ok (acc ++ List.filter (fun bf => negb (is_tracked md5 fs existing bf)) files).
Proof.
  revert acc. induction files as [|bf rest IH]; intros acc Hread; simpl.
  - by rewrite app_nil_r.
  - destruct (Hread bf (or_introl eq_refl)) as [h Hh].
    unfold is_tracked at 1. rewrite Hh. simpl.
    destruct (List.filter _ existing) eqn:Hex; simpl;
      rewrite IH by (intros; apply Hread; by right).
    + by rewrite <- app_assoc.
    + done.
Qed.

Lemma is_tracked_spec fs existing bf :
  is_tracked md5 fs existing bf = true
  <-> exists r, In r existing /\ batch_file r = bf
                /\ get_file_hash md5 fs bf = Ok (file_hash r).
Proof.
  unfold is_tracked. destruct (get_file_hash md5 fs bf) as [h|e] eqn:Hh.
  - destruct (List.filter _ existing) as [|r l] eqn:Hf; simpl.
    + split; [done|]. intros (r & Hin & Hbf & Heq).
      assert (In r (List.filter (fun r => str_eqb (batch_file r) bf
                                          && str_eqb (file_hash r) h) existing)) as Hr.
      { apply filter_In. split; [done|]. apply andb_true_iff.
        split; apply str_eqb_true; congruence. }
      rewrite Hf in Hr. destruct Hr.
    + split; [intros _|done].
      assert (In r (r :: l)) as Hr by (by left). rewrite <- Hf in Hr.
      apply filter_In in Hr as [Hin Hb]. apply andb_true_iff in Hb as [H1 H2].
      apply str_eqb_true in H1, H2. exists r. by rewrite H2.
  - split; [done|]. by intros (r & _ & _ & ?).
Qed.


End Dedup.


(** ** Text lines and the registry file *)

Section Lines.

Lemma lines_nonempty (s : pystr) : s <> [] -> lines s <> [].
Proof.
  destruct s as [|c s]; [done|]. intros _. simpl.
  destruct (is_newline c); [done|]. by destruct (lines s).
Qed.

Lemma terminated_cons (c : N) (s : pystr) :
  s <> [] -> terminated (c :: s) = terminated s.
Proof. by destruct s. Qed.

Lemma lines_app (a b : pystr) :
  terminated a = true -> lines (a ++ b) = lines a ++ lines b.
Proof.
  induction a as [|c a IH]; intros Hterm; [done|].
  destruct a as [|d a].
  - simpl in *. by rewrite Hterm.
  - rewrite terminated_cons in Hterm by done.
    specialize (IH Hterm).
    pose proof (lines_nonempty (d :: a)) as Hne.
    remember (d :: a) as t eqn:Ht.
    change ((c :: t) ++ b) with (c :: (t ++ b)).
    cbn [lines]. rewrite IH.
    destruct (is_newline c); [done|].
    destruct (lines t) as [|l ls]; [|done].
    exfalso. apply Hne; [by subst|done].
Qed.

Lemma lines_single (e : pystr) :
  forallb (fun c => negb (is_newline c)) e = true ->
  lines (e ++ [10]) = [e].
Proof.
  induction e as [|c e IH]; intros Hnl; [done|].
  simpl in Hnl. apply andb_true_iff in Hnl as [Hc He].
  simpl. rewrite IH by done.
  apply negb_true_iff in Hc. by rewrite Hc.
Qed.

Lemma terminated_app (a b : pystr) :
  b <> [] -> terminated b = true -> terminated (a ++ b) = true.
Proof.
  intros Hb Hterm. induction a as [|c a IH]; [done|].
  change ((c :: a) ++ b) with (c :: (a ++ b)).
  rewrite terminated_cons; [done|]. by destruct a, b.
Qed.

Lemma terminated_line (e : pystr) : terminated (e ++ [10]) = true.
Proof. by apply terminated_app. Qed.

Lemma lines_no_newline (s : pystr) :
  Forall (fun l => forallb (fun c => negb (is_newline c)) l = true) (lines s).
Proof.
  induction s as [|c s IH]; simpl; [constructor|].
  destruct (is_newline c) eqn:Hc.
  - by constructor.
  - destruct (lines s) as [|l ls]; constructor.
    + simpl. by rewrite Hc.
    + constructor.
    + inversion IH; subst. simpl. by rewrite Hc.
    + by inversion IH.
Qed.

Variable p : N -> bool.

Lemma rstrip_by_idem (s : pystr) : rstrip_by p (rstrip_by p s) = rstrip_by p s.
Proof.
  induction s as [|c s IH]; [done|]. simpl.
  destruct (rstrip_by p s) as [|d r] eqn:Hr.
  - destruct (p c) eqn:Hc; simpl; [done|]. by rewrite Hc.
  - simpl in *. by rewrite IH.
Qed.

Lemma lstrip_by_head (s : pystr) :
  match lstrip_by p s with [] => True | c :: _ => p c = false end.
Proof.
  induction s as [|c s IH]; simpl; [done|].
  by destruct (p c) eqn:Hc.
Qed.

Lemma rstrip_by_head (c : N) (s : pystr) :
  p c = false -> exists r, rstrip_by p (c :: s) = c :: r.
Proof.
  intros Hc. simpl. destruct (rstrip_by p s); rewrite ?Hc; eauto.
Qed.

Lemma strip_by_idem (s : pystr) : strip_by p (strip_by p s) = strip_by p s.
Proof.
  unfold strip_by.
  pose proof (lstrip_by_head s) as Hhead.
  destruct (lstrip_by p s) as [|c t]; [done|].
  destruct (rstrip_by_head c t Hhead) as [r Hr].
  rewrite Hr. cbn [lstrip_by]. rewrite Hhead, <- Hr. apply rstrip_by_idem.
Qed.

Lemma lstrip_by_forallb (q : N -> bool) (s : pystr) :
  forallb q s = true -> forallb q (lstrip_by p s) = true.
Proof.
  induction s as [|c s IH]; [done|]. intros Hq. simpl.
  destruct (p c); [|done]. simpl in Hq.
  apply andb_true_iff in Hq as [_ Hq]. by apply IH.
Qed.

Lemma rstrip_by_forallb (q : N -> bool) (s : pystr) :
  forallb q s = true -> forallb q (rstrip_by p s) = true.
Proof.
  induction s as [|c s IH]; [done|]. intros Hq. simpl in *.
  apply andb_true_iff in Hq as [Hc Hq]. specialize (IH Hq).
  destruct (rstrip_by p s) as [|d r].
  - destruct (p c); simpl; [done|]. by rewrite Hc.
  - change (forallb q (c :: d :: r)) with (q c && forallb q (d :: r)).
    by rewrite Hc, IH.
Qed.

Lemma strip_by_forallb (q : N -> bool) (s : pystr) :
  forallb q s = true -> forallb q (strip_by p s) = true.
Proof. intros Hq. by apply rstrip_by_forallb, lstrip_by_forallb. Qed.

End Lines.

Lemma valid_line_spec (e : pystr) :
  valid_line e = true
  <-> e <> [] /\ strip e = e /\ forallb (fun c => negb (is_newline c)) e = true.
Proof.
  unfold valid_line. rewrite !andb_true_iff, str_eqb_true.
  destruct e; simpl; intuition congruence.
Qed.

Lemma stripped_lines_valid (text : pystr) :
  Forall (fun e => valid_line e = true) (stripped_lines text).
Proof.
  unfold stripped_lines. apply List.Forall_forall. intros e He.
  apply filter_In in He as [He Hne]. apply in_map_iff in He as (l & <- & Hl).
  apply valid_line_spec. split; [by destruct (strip l)|]. split.
  - apply strip_by_idem.
  - apply strip_by_forallb.
    pose proof (lines_no_newline text) as Hall.
    rewrite List.Forall_forall in Hall. by apply Hall.
Qed.

Lemma stripped_lines_app (a b : pystr) :
  terminated a = true -> stripped_lines (a ++ b) = stripped_lines a ++ stripped_lines b.
Proof.
  intros Hterm. unfold stripped_lines.
  by rewrite lines_app, List.map_app, List.filter_app.
Qed.

Lemma stripped_lines_single (e : pystr) :
  valid_line e = true -> stripped_lines (e ++ [10]) = [e].
Proof.
  intros (Hne & Hstrip & Hnl)%valid_line_spec. unfold stripped_lines.
  rewrite lines_single by done. simpl. rewrite Hstrip. by destruct e.
Qed.

(** ** The execute-stage registry *)

Import FailedExecute.

Lemma stripped_lines_write_lines (l : list pystr) :
  Forall (fun e => valid_line e = true) l -> stripped_lines (write_lines l) = l.
Proof.
  induction 1 as [|e l He Hl IH]; [done|].
  unfold write_lines, newline in *. simpl.
  rewrite stripped_lines_app by apply terminated_line.
  by rewrite stripped_lines_single, IH.
Qed.

Lemma terminated_write_lines (l : list pystr) : terminated (write_lines l) = true.
Proof.
  induction l as [|e l IH]; [done|].
  unfold write_lines, newline in *. simpl.
  destruct (concat (List.map (fun e => e ++ [10]) l)) as [|c t] eqn:Hrest.
  - rewrite app_nil_r. apply terminated_line.
  - apply terminated_app; [done|exact IH].
Qed.

Lemma occurrences_app (e : pystr) (l1 l2 : list pystr) :
  occurrences e (l1 ++ l2) = (occurrences e l1 + occurrences e l2)%nat.
Proof. unfold occurrences. by rewrite List.filter_app, length_app. Qed.

Lemma occurrences_zero (e : pystr) (l : list pystr) :
  ~ In e l -> occurrences e l = 0%nat.
Proof.
  unfold occurrences. induction l as [|x l IH]; [done|]. intros Hnot. simpl.
  destruct (str_eqb e x) eqn:Heq.
  - apply str_eqb_true in Heq. exfalso. apply Hnot. by left.
  - apply IH. intros Hin. apply Hnot. by right.
Qed.

Lemma occurrences_NoDup (e : pystr) (l : list pystr) :
  List.NoDup l -> In e l -> occurrences e l = 1%nat.
Proof.
  induction 1 as [|x l Hx Hnd IH]; [done|]. intros [->|Hin].
  - change (e :: l) with ([e] ++ l). rewrite occurrences_app, (occurrences_zero e l Hx).
    unfold occurrences. simpl. by rewrite str_eqb_refl.
  - change (x :: l) with ([x] ++ l). rewrite occurrences_app, IH by done.
    unfold occurrences. simpl. destruct (str_eqb e x) eqn:Heq; [|done].
    apply str_eqb_true in Heq. by subst.
Qed.

Lemma remove_experiment_absent (e : pystr) (reg : registry) :
  ~ In e (get_failed_experiments_list (remove_experiment_from_failed_list e reg)).
Proof.
  destruct reg as [text|]; simpl; [|tauto].
  destruct (List.filter _ (stripped_lines text)) as [|x l] eqn:Hf; simpl; [tauto|].
  rewrite stripped_lines_write_lines.
  - rewrite <- Hf. intros [_ Hne]%filter_In.
    apply negb_true_iff, str_eqb_false in Hne. done.
  - rewrite <- Hf. apply List.Forall_forall. intros y [Hy _]%filter_In.
    pose proof (stripped_lines_valid text) as Hall.
    rewrite List.Forall_forall in Hall. by apply Hall.
Qed.

Lemma remove_experiment_wf (e : pystr) (reg : registry) :
  wf_registry reg -> wf_registry (remove_experiment_from_failed_list e reg).
Proof.
  destruct reg as [text|]; simpl; [|done]. intros [_ Hnd].
  destruct (List.filter _ (stripped_lines text)) as [|x l] eqn:Hf; simpl; [done|].
  split; [apply terminated_write_lines|].
  rewrite stripped_lines_write_lines; rewrite <- Hf.
  - by apply List.NoDup_filter.
  - apply List.Forall_forall. intros y [Hy _]%filter_In.
    pose proof (stripped_lines_valid text) as Hall.
    rewrite List.Forall_forall in Hall. by apply Hall.
Qed.

Lemma add_failed_experiment_lines (e : pystr) (reg : registry) :
  valid_line e = true -> wf_registry reg ->
  get_failed_experiments_list (add_failed_experiment_to_list e reg)
  = if bool_decide (e ∈ get_failed_experiments_list reg)
    then get_failed_experiments_list reg
    else get_failed_experiments_list reg ++ [e].
Proof.
  intros He Hwf. unfold add_failed_experiment_to_list.
  destruct reg as [text|]; simpl.
  - destruct Hwf as [Hterm _].
    case_bool_decide as Hin; case_bool_decide as Hin'; simpl.
    + exfalso. apply Hin. by rewrite elem_of_list_to_set.
    + by rewrite stripped_lines_app, stripped_lines_single.
    + done.
    + exfalso. apply Hin'. by rewrite elem_of_list_to_set in Hin.
  - case_bool_decide as Hin; [|set_solver].
    simpl. by rewrite stripped_lines_single.
Qed.

Lemma add_failed_experiment_wf (e : pystr) (reg : registry) :
  valid_line e = true -> wf_registry reg ->
  wf_registry (add_failed_experiment_to_list e reg).
Proof.
  intros He Hwf. pose proof (add_failed_experiment_lines e reg He Hwf) as Hl.
  unfold add_failed_experiment_to_list in *.
  destruct (bool_decide (e ∉ _)) eqn:Hd; [|done].
  simpl. split.
  - rewrite app_assoc. by apply terminated_app.
  - simpl in Hl. rewrite Hl.
    destruct reg as [text|]; simpl in *.
    + destruct Hwf as [_ Hnd].
      apply bool_decide_eq_true in Hd. rewrite elem_of_list_to_set in Hd.
      case_bool_decide as Hin; [done|].
      apply NoDup_ListNoDup, NoDup_app. split; [by apply NoDup_ListNoDup|].
      split; [|apply NoDup_singleton].
      intros x Hx ->%list_elem_of_singleton. done.
    + repeat constructor. by intros [].
Qed.

Lemma add_failed_experiment_once (e : pystr) (reg : registry) :
  valid_line e = true -> wf_registry reg ->
  occurrences e (get_failed_experiments_list (add_failed_experiment_to_list e reg)) = 1%nat.
Proof.
  intros He Hwf. rewrite add_failed_experiment_lines by done.
  case_bool_decide as Hin.
  - apply occurrences_NoDup; [|by apply list_elem_of_In].
    destruct reg; simpl in *; [tauto|constructor].
  - rewrite occurrences_app, occurrences_zero by (by rewrite <- list_elem_of_In).
    unfold occurrences. simpl. by rewrite str_eqb_refl.
Qed.

(** ** The tracking table under the poller *)

Import Poller.

Lemma rows_remove_batch (job : pystr) (f : tracking_file) :
  rows (loaded (remove_batch_from_tracking job f))
  = List.filter (fun r => negb (str_eqb (batch_id r) job)) (rows (loaded f)).
Proof. reflexivity. Qed.

Lemma rows_update_status (job new_status : pystr) (f : tracking_file) :
  rows (loaded (update_batch_status job new_status f))
  = List.map (fun r => if str_eqb (batch_id r) job then set_status new_status r else r)
             (rows (loaded f)).
Proof. reflexivity. Qed.

Lemma remove_batch_gone (job : pystr) (f : tracking_file) (r : tracking_record) :
  In r (rows (loaded (remove_batch_from_tracking job f))) -> batch_id r <> job.
Proof.
  rewrite rows_remove_batch. intros [_ Hne]%filter_In.
  by apply negb_true_iff, str_eqb_false in Hne.
Qed.

Lemma no_new_jobs_refl (f : tracking_file) : no_new_jobs f f.
Proof. intros r Hr. by exists r. Qed.

Lemma no_new_jobs_trans (f g h : tracking_file) :
  no_new_jobs f g -> no_new_jobs g h -> no_new_jobs f h.
Proof.
  intros Hfg Hgh r Hr. destruct (Hgh r Hr) as (r1 & Hr1 & <-).
  destruct (Hfg r1 Hr1) as (r0 & Hr0 & <-). by exists r0.
Qed.

Lemma no_new_jobs_remove (job : pystr) (f : tracking_file) :
  no_new_jobs f (remove_batch_from_tracking job f).
Proof.
  intros r. rewrite rows_remove_batch. intros [Hr _]%filter_In. by exists r.
Qed.

Lemma no_new_jobs_update (job new_status : pystr) (f : tracking_file) :
  no_new_jobs f (update_batch_status job new_status f).
Proof.
  intros r'. rewrite rows_update_status. intros (r & <- & Hr)%in_map_iff.
  exists r. split; [done|]. by destruct (str_eqb (batch_id r) job).
Qed.

Lemma reconcile_record_no_new_jobs rm date row w :
  no_new_jobs (tracking w) (tracking (reconcile_record rm date row w)).
Proof.
  unfold reconcile_record.
  destruct (batches_retrieve rm (batch_id row)) as [info|e]; [|apply no_new_jobs_refl].
  set (w1 := if negb (str_eqb (info_status info) (status row)) then _ else w).
  assert (no_new_jobs (tracking w) (tracking w1)) as H1.
  { subst w1. destruct (negb _); [apply no_new_jobs_update|apply no_new_jobs_refl]. }
  destruct (str_eqb (info_status info) (u "completed")).
  - unfold download_completed.
    destruct (files_content rm (output_file_id info)); [|done]. simpl.
    eapply no_new_jobs_trans; [exact H1|apply no_new_jobs_remove].
  - destruct (bool_decide _); [|done]. simpl.
    eapply no_new_jobs_trans; [exact H1|apply no_new_jobs_remove].
Qed.

Lemma reconcile_all_no_new_jobs rm date pending w :
  no_new_jobs (tracking w) (tracking (reconcile_all rm date pending w)).
Proof.
  revert w. induction pending as [|row rest IH]; intros w; [apply no_new_jobs_refl|].
  simpl. eapply no_new_jobs_trans; [apply reconcile_record_no_new_jobs|apply IH].
Qed.

Lemma reconcile_all_app rm date l1 l2 w :
  reconcile_all rm date (l1 ++ l2) w
  = reconcile_all rm date l2 (reconcile_all rm date l1 w).
Proof. unfold reconcile_all. apply fold_left_app. Qed.

Lemma reconcile_record_keeps_results rm date row w (name : pystr) :
  is_Some (results_dir w !! name) ->
  is_Some (results_dir (reconcile_record rm date row w) !! name).
Proof.
  intros Hsome. unfold reconcile_record.
  destruct (batches_retrieve rm (batch_id row)) as [info|e]; [|done].
  set (w1 := if negb (str_eqb (info_status info) (status row)) then _ else w).
  assert (results_dir w1 = results_dir w) as H1 by (subst w1; by destruct (negb _)).
  destruct (str_eqb (info_status info) (u "completed")).
  - unfold download_completed.
    destruct (files_content rm (output_file_id info)); simpl; rewrite H1; [|done].
    rewrite lookup_insert. by case_decide.
  - destruct (bool_decide _); simpl; by rewrite H1.
Qed.

Lemma reconcile_all_keeps_results rm date pending w (name : pystr) :
  is_Some (results_dir w !! name) ->
  is_Some (results_dir (reconcile_all rm date pending w) !! name).
Proof.
  revert w. induction pending as [|row rest IH]; intros w Hsome; [done|].
  simpl. by apply IH, reconcile_record_keeps_results.
Qed.

(** What one step does for a job reported completed whose output can be
    fetched. *)
Lemma reconcile_record_completed rm date row info art w :
  batches_retrieve rm (batch_id row) = Ok info ->
  info_status info = u "completed" ->
  files_content rm (output_file_id info) = Ok art ->
  let w' := reconcile_record rm date row w in
  results_dir w' !! results_file_name (experiment_name row) (batch_id row) date = Some art
  /\ (forall r, In r (rows (loaded (tracking w'))) -> batch_id r <> batch_id row)
  /\ ~ In (experiment_name row) (get_failed_experiments_list (failed_execute w')).
Proof.
  intros Hq Hc Hf. unfold reconcile_record. rewrite Hq, Hc.
  set (w1 := if negb _ then _ else w). simpl.
  unfold download_completed. rewrite Hf. simpl.
  split; [apply lookup_insert_eq|]. split.
  - intros r. apply remove_batch_gone.
  - apply remove_experiment_absent.
Qed.

Lemma pending_batches_In (row : tracking_record) (df : DataFrame) :
  In row (pending_batches df) -> In row (rows df).
Proof. unfold pending_batches. by intros [? _]%filter_In. Qed.

Lemma pass_unfold rm date w :
  rows (loaded (tracking w)) <> [] ->
  openai_login rm = Ok tt ->
  check_and_download_pending_batches rm date w
  = let w1 := reconcile_all rm date (pending_batches (loaded (tracking w))) w in
    with_tracking (fst (cleanup_empty_tracking_file (tracking w1))) w1.
Proof.
  intros Hrows Hlogin. unfold check_and_download_pending_batches.
  destruct (exists_file (tracking w)) eqn:Hex; simpl.
  - destruct (rows (loaded (tracking w))); [done|].
    unfold check_and_download_openai_batches. by rewrite Hlogin.
  - exfalso. apply Hrows. by destruct (tracking w).
Qed.

Lemma cleanup_no_new_jobs (f : tracking_file) :
  no_new_jobs f (fst (cleanup_empty_tracking_file f)).
Proof.
  unfold cleanup_empty_tracking_file.
  destruct (exists_file f); [|apply no_new_jobs_refl].
  destruct (_ =? _)%nat; [|apply no_new_jobs_refl].
  intros r []. 
Qed.




(** ** Failure transitions *)

Lemma reconcile_record_failed rm date row info w :
  batches_retrieve rm (batch_id row) = Ok info ->
  info_status info = u "failed" \/ info_status info = u "cancelled" ->
  failed_execute (reconcile_record rm date row w)
  = add_failed_experiment_to_list (experiment_name row) (failed_execute w)
  /\ (forall r, In r (rows (loaded (tracking (reconcile_record rm date row w))))
                -> batch_id r <> batch_id row).
Proof.
  intros Hq Hs. unfold reconcile_record. rewrite Hq.
  set (w1 := if negb _ then _ else w).
  assert (failed_execute w1 = failed_execute w) as H1 by (subst w1; by destruct (negb _)).
  assert (str_eqb (info_status info) (u "completed") = false) as ->.
  { apply str_eqb_false. by destruct Hs as [-> | ->]. }
  assert (bool_decide (info_status info ∈ [u "failed"; u "cancelled"]) = true) as ->.
  { apply bool_decide_eq_true. destruct Hs as [-> | ->]; set_solver. }
  simpl. rewrite H1. split; [done|]. intros r. apply remove_batch_gone.
Qed.




(** ** Cleanup of the tracking file *)

Lemma cleanup_empty_tracking_file_spec (f : tracking_file) :
  exists_file f = true ->
  (rows (loaded f) = [] -> cleanup_empty_tracking_file f = (Missing, true))
  /\ (rows (loaded f) <> [] -> cleanup_empty_tracking_file f = (f, false)).
Proof.
  intros Hex. unfold cleanup_empty_tracking_file. rewrite Hex.
  destruct (rows (loaded f)) eqn:Hrows; simpl; split; done.
Qed.

(** C8 (as amended): a reconciliation pass that finds at least one
    record in the tracking table ends with the cleanup: when the table
    the pass leaves has no record the tracking file is removed, and when
    it has at least one the file is kept as it is; so after such a pass
    there is never a tracking file without records. *)
Theorem pass_removes_empty_tracking_file
    (rm : remote) (date : pystr) (w : world)
    (Hrecords : rows (loaded (tracking w)) <> []) :
  let before_cleanup :=
    check_and_download_openai_batches rm date (loaded (tracking w)) w in
  let w' := check_and_download_pending_batches rm date w in
  (rows (loaded (tracking before_cleanup)) = [] -> tracking w' = Missing)
  /\ (rows (loaded (tracking before_cleanup)) <> [] ->
      tracking w' = tracking before_cleanup /\ exists_file (tracking w') = true)
  /\ (exists_file (tracking w') = true -> rows (loaded (tracking w')) <> []).
Proof.
  intros w1 w'.
  assert (w' = with_tracking (fst (cleanup_empty_tracking_file (tracking w1))) w1) as ->.
  { subst w' w1. unfold check_and_download_pending_batches.
    destruct (exists_file (tracking w)) eqn:Hex; simpl.
    - by destruct (rows (loaded (tracking w))).
    - exfalso. apply Hrecords. by destruct (tracking w). }
  simpl. unfold cleanup_empty_tracking_file.
  destruct (exists_file (tracking w1)) eqn:Hex1.
  - destruct (rows (loaded (tracking w1))) as [|r rs] eqn:Hrows; simpl.
    + repeat split; done.
    + rewrite Hex1, Hrows. repeat split; done.
  - simpl. rewrite Hex1.
    assert (tracking w1 = Missing) as -> by (by destruct (tracking w1)).
    repeat split; done.
Qed.

Lemma pass_removes_empty_tracking_file_witness :
  tracking (check_and_download_pending_batches remote_completed sample_date sample_world)
  = Missing.
Proof.
  refine (proj1 (pass_removes_empty_tracking_file remote_completed sample_date
                   sample_world _) _).
  - discriminate.
  - vm_compute. reflexivity.
Defined.

(** C8 as first stated fails for a pass that finds the tracking file
    without records: the pass returns at once and the file stays. *)
Lemma pass_keeps_empty_tracking_file :
  let w' := check_and_download_pending_batches remote_completed sample_date
              empty_table_world in
  rows (loaded (tracking w')) = [] /\ exists_file (tracking w') = true.
Proof. vm_compute. done. Qed.

(** ** Chunking the tasks into batch files *)

Import Regex Prepare.

Section Chunks.
Context {A : Type}.

Lemma range_steps_seq (count start step : nat) :
  range_steps count start step
  = List.map (fun i => (start + i * step)%nat) (seq 0 count).
Proof.
  revert start. induction count as [|n IH]; intros start; [done|].
  simpl. f_equal; [lia|]. rewrite IH, <- seq_shift, List.map_map.
  apply List.map_ext. intros i. lia.
Qed.

Lemma firstn_plus (a b : nat) (l : list A) :
  firstn (a + b) l = firstn a l ++ firstn b (skipn a l).
Proof.
  revert l. induction a as [|a IH]; intros l; [done|].
  destruct l as [|x l]; simpl; [by rewrite firstn_nil|]. by rewrite IH.
Qed.

Lemma task_chunks_seq (tasks : list A) (cs : nat) :
  task_chunks tasks cs
  = List.map (fun i => slice tasks (i * cs) (i * cs + cs))
             (seq 0 ((List.length tasks + cs - 1) / cs)).
Proof.
  unfold task_chunks, range0. rewrite range_steps_seq, List.map_map.
  apply List.map_ext. intros i. done.
Qed.

Lemma concat_slices (l : list A) (cs n : nat) :
  List.concat (List.map (fun i => slice l (i * cs) (i * cs + cs)) (seq 0 n))
  = firstn (n * cs) l.
Proof.
  induction n as [|n IH]; [done|].
  rewrite seq_S, List.map_app, List.concat_app, IH. simpl.
  rewrite app_nil_r. unfold slice.
  replace (n * cs + cs - n * cs)%nat with cs by lia.
  replace (cs + n * cs)%nat with (n * cs + cs)%nat by lia.
  by rewrite firstn_plus.
Qed.

Lemma chunk_count_covers (len cs : nat) :
  (0 < cs)%nat -> (len <= (len + cs - 1) / cs * cs)%nat.
Proof.
  intros Hcs.
  pose proof (Nat.div_mod_eq (len + cs - 1) cs) as Hdm.
  pose proof (Nat.mod_upper_bound (len + cs - 1) cs) as Hmod.
  nia.
Qed.

Lemma chunk_count_tight (len cs i : nat) :
  (0 < cs)%nat -> (S i < (len + cs - 1) / cs)%nat -> (S i * cs <= len)%nat.
Proof.
  intros Hcs Hi.
  pose proof (Nat.div_mod_eq (len + cs - 1) cs) as Hdm.
  nia.
Qed.

Lemma chunk_count_last (len cs i : nat) :
  (0 < cs)%nat -> (i < (len + cs - 1) / cs)%nat -> (i * cs < len)%nat.
Proof.
  intros Hcs Hi.
  pose proof (Nat.div_mod_eq (len + cs - 1) cs) as Hdm.
  nia.
Qed.

Lemma task_chunks_concat (tasks : list A) (cs : nat) :
  (0 < cs)%nat -> List.concat (task_chunks tasks cs) = tasks.
Proof.
  intros Hcs. rewrite task_chunks_seq, concat_slices.
  apply firstn_all2. by apply chunk_count_covers.
Qed.

Lemma task_chunks_length (tasks : list A) (cs : nat) :
  List.length (task_chunks tasks cs) = ((List.length tasks + cs - 1) / cs)%nat.
Proof. by rewrite task_chunks_seq, length_map, length_seq. Qed.

Lemma task_chunks_nth (tasks : list A) (cs i : nat) :
  (i < List.length (task_chunks tasks cs))%nat ->
  nth i (task_chunks tasks cs) [] = slice tasks (i * cs) (i * cs + cs).
Proof.
  rewrite task_chunks_length. intros Hi. rewrite task_chunks_seq.
  set (f := fun i => slice tasks (i * cs) (i * cs + cs)).
  rewrite (nth_indep _ [] (f 0%nat)) by (by rewrite length_map, length_seq).
  rewrite (List.map_nth f). by rewrite seq_nth.
Qed.

Lemma slice_length (l : list A) (i j : nat) :
  List.length (slice l i j) = Nat.min (j - i) (List.length l - i).
Proof. unfold slice. by rewrite length_firstn, length_skipn. Qed.

End Chunks.

Lemma digits_of_uint_inj (d1 d2 : Decimal.uint) :
  digits_of_uint d1 = digits_of_uint d2 -> d1 = d2.
Proof.
  revert d2. induction d1 as [|d1 IH|d1 IH|d1 IH|d1 IH|d1 IH|d1 IH|d1 IH|d1 IH|d1 IH|d1 IH];
    intros d2 Heq; destruct d2; simpl in Heq; try discriminate;
    try reflexivity; f_equal; apply IH; congruence.
Qed.

Lemma str_of_nat_inj (i j : nat) : str_of_nat i = str_of_nat j -> i = j.
Proof.
  unfold str_of_nat. intros Heq%digits_of_uint_inj.
  by apply Unsigned.to_uint_inj.
Qed.

Lemma batch_name_inj (experiment date : pystr) (i j : nat) :
  batch_name experiment i date = batch_name experiment j date -> i = j.
Proof.
  unfold batch_name. intros Heq.
  apply app_inv_head in Heq. apply app_inv_head in Heq.
  apply app_inv_tail in Heq. by apply str_of_nat_inj.
Qed.

Lemma write_chunks_names experiment date index chunks dir :
  fst (write_chunks experiment date index chunks dir)
  = List.map (fun k => batch_name experiment (index + k) date)
             (seq 0 (List.length chunks)).
Proof.
  revert index dir. induction chunks as [|chunk rest IH]; intros index dir; [done|].
  simpl. specialize (IH (S index) (<[batch_name experiment index date := chunk]> dir)).
  destruct (write_chunks experiment date (S index) rest _) as [names dir'].
  simpl in *. rewrite IH. f_equal; [f_equal; lia|].
  rewrite <- seq_shift, List.map_map. apply List.map_ext. intros k. f_equal. lia.
Qed.

Lemma write_chunks_other experiment date index chunks dir (name : pystr) :
  (forall k, (k < List.length chunks)%nat -> batch_name experiment (index + k) date <> name) ->
  snd (write_chunks experiment date index chunks dir) !! name = dir !! name.
Proof.
  revert index dir. induction chunks as [|chunk rest IH]; intros index dir Hother; [done|].
  simpl. specialize (IH (S index) (<[batch_name experiment index date := chunk]> dir)).
  destruct (write_chunks experiment date (S index) rest _) as [names dir'].
  simpl in *. rewrite IH.
  - apply lookup_insert_ne. specialize (Hother 0%nat).
    rewrite Nat.add_0_r in Hother. apply Hother. lia.
  - intros k Hk. replace (S (index + k))%nat with (index + S k)%nat by lia.
    apply Hother. lia.
Qed.

Lemma write_chunks_lookup experiment date index chunks dir (k : nat) :
  (k < List.length chunks)%nat ->
  snd (write_chunks experiment date index chunks dir)
  !! batch_name experiment (index + k) date
  = Some (nth k chunks []).
Proof.
  revert index dir k. induction chunks as [|chunk rest IH]; intros index dir k Hk;
    [simpl in Hk; lia|].
  simpl. pose proof (IH (S index) (<[batch_name experiment index date := chunk]> dir)) as IH'.
  pose proof (write_chunks_other experiment date (S index) rest
                (<[batch_name experiment index date := chunk]> dir)
                (batch_name experiment index date)) as Hother.
  destruct (write_chunks experiment date (S index) rest _) as [names dir'].
  simpl in *. destruct k as [|k].
  - rewrite Nat.add_0_r, Hother; [apply lookup_insert_eq|].
    intros j _ Heq%batch_name_inj. lia.
  - replace (index + S k)%nat with (S (index + k))%nat by lia. apply IH'. lia.
Qed.

Lemma write_chunks_dom experiment date index chunks dir (name : pystr) :
  is_Some (dir !! name) ->
  is_Some (snd (write_chunks experiment date index chunks dir) !! name).
Proof.
  revert index dir. induction chunks as [|chunk rest IH]; intros index dir Hsome; [done|].
  simpl. specialize (IH (S index) (<[batch_name experiment index date := chunk]> dir)).
  destruct (write_chunks experiment date (S index) rest _) as [names dir'].
  simpl in *. apply IH. rewrite lookup_insert. by case_decide.
Qed.

Lemma default_chunk_size_pos : (0 < default_chunk_size)%nat.
Proof. unfold default_chunk_size. apply Nat.mul_pos_pos; lia. Qed.

(** C10: with the default chunk size of 50000 (written [50 * 1000]),
    [create_batch_files] writes one file per chunk; file [i] holds the
    tasks at the positions from [50000 * i] up to [50000 * (i + 1)] of the
    input, no file holds more than 50000 tasks, every file but the last
    holds exactly 50000, and the files read back in the order of their
    indices concatenate to the input. *)
Theorem create_batch_files_partitions
    (date experiment : pystr) (tasks : list task) (dir : gmap pystr (list task)) :
  default_chunk_size = (50 * 1000)%nat
  /\ exists names dir',
    create_batch_files date tasks experiment default_chunk_size dir = Ok (names, dir')
    /\ names = List.map (fun i => batch_name experiment i date)
                        (seq 0 (List.length names))
    /\ (forall i, (i < List.length names)%nat ->
          exists chunk,
            dir' !! batch_name experiment i date = Some chunk
            /\ chunk = slice tasks (default_chunk_size * i) (default_chunk_size * (i + 1))
            /\ (List.length chunk <= default_chunk_size)%nat
            /\ ((S i < List.length names)%nat -> List.length chunk = default_chunk_size)
            /\ chunk <> [])
    /\ List.concat (List.map (fun name => default [] (dir' !! name)) names) = tasks.
Proof.
  split; [reflexivity|].
  pose proof default_chunk_size_pos as Hpos.
  remember default_chunk_size as cs eqn:Hcs. clear Hcs.
  unfold create_batch_files. destruct cs as [|cs']; [lia|].
  set (cs := S cs') in *.
  pose proof (write_chunks_names experiment date 0 (task_chunks tasks cs) dir) as Hnames.
  pose proof (write_chunks_lookup experiment date 0 (task_chunks tasks cs) dir) as Hlookup.
  destruct (write_chunks experiment date 0 (task_chunks tasks cs) dir) as [names dir'].
  simpl in Hnames, Hlookup.
  assert (List.length names = List.length (task_chunks tasks cs)) as Hlen.
  { by rewrite Hnames, length_map, length_seq. }
  exists names, dir'. split; [done|]. split; [by rewrite Hlen|]. split.
  - intros i Hi. rewrite Hlen in Hi. exists (nth i (task_chunks tasks cs) []).
    split; [by apply Hlookup|].
    rewrite task_chunks_nth by done.
    replace (cs * i)%nat with (i * cs)%nat by lia.
    replace (cs * (i + 1))%nat with (i * cs + cs)%nat by lia.
    split; [done|]. rewrite slice_length.
    rewrite task_chunks_length in Hi, Hlen.
    pose proof (chunk_count_last (List.length tasks) cs i Hpos Hi) as Hlast.
    split; [lia|]. split.
    + rewrite Hlen. intros Hsi.
      pose proof (chunk_count_tight (List.length tasks) cs i Hpos Hsi). lia.
    + intros Hnil. apply (f_equal (@List.length task)) in Hnil.
      rewrite slice_length in Hnil. simpl in Hnil. lia.
  - transitivity (List.concat (task_chunks tasks cs));
      [|by apply task_chunks_concat].
    f_equal. rewrite Hnames, List.map_map.
    apply nth_ext with (d := []) (d' := []).
    + by rewrite !length_map, length_seq.
    + intros i. rewrite length_map, length_seq. intros Hi.
      set (f := fun k => default [] (dir' !! batch_name experiment k date)).
      rewrite (nth_indep _ [] (f 0%nat)) by (by rewrite length_map, length_seq).
      rewrite (List.map_nth f), seq_nth by done. subst f. simpl.
      by rewrite Hlookup.
Qed.

(** ** The placeholder of a prompt template *)

Lemma startswith_spec (p s : pystr) :
  startswith p s = true <-> exists x, s = p ++ x.
Proof.
  revert s. induction p as [|a p IH]; intros s; simpl.
  - split; [intros _; by exists s|done].
  - destruct s as [|b s].
    + split; [done|]. by intros [x Hx].
    + rewrite andb_true_iff, N.eqb_eq, IH. split.
      * intros [-> [x ->]]. by exists x.
      * intros [x Hx]. injection Hx as -> ->. split; [done|by exists x].
Qed.

Lemma startswith_app (p x : pystr) : startswith p (p ++ x) = true.
Proof. apply startswith_spec. by exists x. Qed.

Lemma find_close_app (g rest : pystr) :
  forallb (fun c => negb (c =? 93)) g = true ->
  find_close (g ++ 93 :: rest) = Some (List.length g).
Proof.
  induction g as [|c g IH]; intros Hg; [done|].
  simpl in *. apply andb_true_iff in Hg as [Hc Hg].
  apply negb_true_iff in Hc. by rewrite Hc, IH.
Qed.

Lemma find_close_split (s : pystr) (n : nat) :
  find_close s = Some n ->
  exists g rest, s = g ++ 93 :: rest /\ List.length g = n
                 /\ forallb (fun c => negb (c =? 93)) g = true.
Proof.
  revert n. induction s as [|c s IH]; intros n; [done|]. simpl.
  destruct (c =? 93) eqn:Hc.
  - intros [= <-]. apply N.eqb_eq in Hc as ->. by exists [], s.
  - destruct (find_close s) as [k|]; [|done]. intros [= <-].
    destruct (IH k eq_refl) as (g & rest & -> & <- & Hg).
    exists (c :: g), rest. simpl. by rewrite Hc, Hg.
Qed.

Lemma mstate_ext (a b : mstate) :
  pos a = pos b -> group_start a = group_start b -> group_end a = group_end b -> a = b.
Proof. destruct a, b; simpl; congruence. Qed.

Ltac mstate_eq :=
  unfold advance; cbn; try apply (f_equal Some); apply mstate_ext; cbn; lia.

Lemma star_greedy_to_close (s : pystr) (st : mstate) :
  star_greedy (fun c => negb (c =? 93)) close_group s st
  = match find_close s with
    | Some n => Some {| pos := pos st + n + 1; group_start := group_start st;
                        group_end := pos st + n |}
    | None => None
    end.
Proof.
  revert st. induction s as [|c s IH]; intros st; [done|].
  cbn [star_greedy find_close]. destruct (c =? 93) eqn:Hc; cbn [negb].
  - unfold close_group. cbn. unfold literal. rewrite Hc. cbn.
    mstate_eq.
  - rewrite IH. destruct (find_close s) as [n|]; cbn.
    + mstate_eq.
    + unfold close_group. cbn. unfold literal. by rewrite Hc.
Qed.

Lemma run_placeholder (s : pystr) (st : mstate) :
  run placeholder_pattern s st
  = match s with
    | b :: c :: s' =>
        if (b =? 91) && negb (c =? 93) then
          match find_close s' with
          | Some n => Some {| pos := pos st + n + 3; group_start := pos st + 1;
                              group_end := pos st + n + 2 |}
          | None => None
          end
        else None
    | _ => None
    end.
Proof.
  unfold placeholder_pattern.
  change (run (One (literal 91) :: GroupOpen :: Plus (fun c => negb (c =? 93))
               :: [GroupClose; One (literal 93)]) s st)
    with (one (literal 91)
            (fun s st => one (fun c => negb (c =? 93))
                           (star_greedy (fun c => negb (c =? 93)) close_group) s
                           {| pos := pos st; group_start := pos st;
                              group_end := group_end st |}) s st).
  destruct s as [|b [|c s']]; cbn; unfold literal.
  - done.
  - by destruct (b =? 91).
  - destruct (b =? 91); [|done]. cbn. destruct (c =? 93); [done|]. cbn.
    rewrite star_greedy_to_close. cbn.
    destruct (find_close s') as [n|]; [|done]. mstate_eq.
Qed.

Lemma run_placeholder_at_key (g x : pystr) (st : mstate) :
  g <> [] -> forallb (fun c => negb (c =? 93)) g = true ->
  run placeholder_pattern ([91] ++ g ++ [93] ++ x) st
  = Some {| pos := pos st + List.length g + 2; group_start := pos st + 1;
            group_end := pos st + List.length g + 1 |}.
Proof.
  intros Hne Hg. rewrite run_placeholder. destruct g as [|c g]; [done|].
  simpl in Hg. apply andb_true_iff in Hg as [Hc Hg].
  cbn [app]. rewrite N.eqb_refl, Hc. cbn [andb].
  change (g ++ 93 :: x) with (g ++ 93 :: x).
  rewrite find_close_app by done. simpl. mstate_eq.
Qed.

Lemma run_placeholder_None_indep (s : pystr) (st st' : mstate) :
  run placeholder_pattern s st = None -> run placeholder_pattern s st' = None.
Proof.
  rewrite !run_placeholder. destruct s as [|b [|c s']]; try done.
  destruct (_ && _); [|done]. by destruct (find_close s').
Qed.

(** What [re.search] finds for the placeholder pattern: the leftmost
    bracketed span, with no match starting before it. *)
Lemma search_placeholder_spec (t : pystr) (start : nat) (m : nat * mstate) :
  search_from placeholder_pattern t start = Some m ->
  exists pre g post,
    t = pre ++ [91] ++ g ++ [93] ++ post
    /\ g <> [] /\ forallb (fun c => negb (c =? 93)) g = true
    /\ fst m = (start + List.length pre)%nat
    /\ group_start (snd m) = (start + List.length pre + 1)%nat
    /\ group_end (snd m) = (start + List.length pre + 1 + List.length g)%nat
    /\ (forall pre1 pre2 st, pre = pre1 ++ pre2 -> pre2 <> [] ->
          run placeholder_pattern (pre2 ++ [91] ++ g ++ [93] ++ post) st = None).
Proof.
  revert start. induction t as [|a t IH]; intros start.
  - cbn. done.
  - cbn [search_from].
    destruct (run placeholder_pattern (a :: t) _) as [r|] eqn:Hrun.
    + intros [= <-]. rewrite run_placeholder in Hrun.
      destruct t as [|c s']; [done|].
      destruct ((a =? 91) && negb (c =? 93)) eqn:Hhead; [|done].
      apply andb_true_iff in Hhead as [Ha Hc]. apply N.eqb_eq in Ha as ->.
      destruct (find_close s') as [n|] eqn:Hclose; [|done].
      injection Hrun as <-.
      destruct (find_close_split s' n Hclose) as (g & rest & -> & <- & Hg).
      exists [], (c :: g), rest. cbn.
      repeat split; try done; try lia.
      * by rewrite Hc, Hg.
      * intros pre1 pre2 st Hnil Hne. by destruct pre1, pre2.
    + intros Hsearch. destruct (IH (S start) Hsearch)
        as (pre & g & post & -> & Hne & Hg & Hfst & Hgs & Hge & Hearly).
      exists (a :: pre), g, post. cbn [List.length app].
      repeat split; try done; try lia.
      intros pre1 pre2 st Hsplit Hne2.
      destruct pre1 as [|a1 pre1].
      * cbn in Hsplit. subst pre2. eapply run_placeholder_None_indep. exact Hrun.
      * injection Hsplit as -> ->. by apply (Hearly pre1 pre2).
Qed.

Lemma replace_go_skip (old new t post : pystr) :
  replace_go old new (List.length t) (t ++ post) = replace_go old new 0 post.
Proof. induction t as [|c t IH]; [by destruct post|]. simpl. exact IH. Qed.

Lemma replace_go_at (old new post : pystr) :
  old <> [] ->
  replace_go old new 0 (old ++ post) = new ++ replace_go old new 0 post.
Proof.
  intros Hne. destruct old as [|c old]; [done|].
  cbn [app replace_go].
  change (c :: old ++ post) with ((c :: old) ++ post). rewrite startswith_app.
  f_equal. cbn [List.length]. rewrite Nat.sub_succ, Nat.sub_0_r.
  apply replace_go_skip.
Qed.

Lemma replace_go_before (old new pre rest : pystr) :
  (forall pre1 pre2, pre = pre1 ++ pre2 -> pre2 <> [] ->
     startswith old (pre2 ++ rest) = false) ->
  replace_go old new 0 (pre ++ rest) = pre ++ replace_go old new 0 rest.
Proof.
  induction pre as [|c pre IH]; intros Hearly; [done|].
  cbn [app replace_go].
  change (c :: pre ++ rest) with ((c :: pre) ++ rest).
  rewrite (Hearly [] (c :: pre)) by done.
  f_equal. apply IH. intros pre1 pre2 -> Hne.
  by apply (Hearly (c :: pre1) pre2).
Qed.

Lemma replace_go_absent (old new s : pystr) :
  occurs old s = false -> replace_go old new 0 s = s.
Proof.
  induction s as [|c s IH]; [done|]. cbn [occurs replace_go].
  intros [Hhere Hlater]%orb_false_iff. rewrite Hhere. f_equal. by apply IH.
Qed.

Lemma tasks_loop_prompts experiment model_name prompt_template prompt_key counter words :
  List.map prompts_of
    (tasks_loop experiment model_name prompt_template prompt_key counter words)
  = List.map (fun w => [replace prompt_key (strip w) prompt_template]) words.
Proof.
  revert counter. induction words as [|w words IH]; intros counter; [done|].
  simpl. by rewrite IH.
Qed.

Lemma group1_of_span (pre g post : pystr) (m : nat * mstate) :
  group_start (snd m) = (List.length pre + 1)%nat ->
  group_end (snd m) = (List.length pre + 1 + List.length g)%nat ->
  group1 (pre ++ [91] ++ g ++ [93] ++ post) m = g.
Proof.
  intros Hs He. unfold group1, slice. rewrite Hs, He.
  replace (List.length pre + 1 + List.length g - (List.length pre + 1))%nat
    with (List.length g) by lia.
  replace (pre ++ [91] ++ g ++ [93] ++ post) with ((pre ++ [91]) ++ g ++ [93] ++ post)
    by (by rewrite <- app_assoc).
  rewrite skipn_app, skipn_all2 by (rewrite length_app; simpl; lia).
  rewrite length_app. simpl.
  replace (List.length pre + 1 - (List.length pre + 1))%nat with 0%nat by lia.
  rewrite skipn_O, firstn_app, firstn_all, Nat.sub_diag. simpl. by rewrite app_nil_r.
Qed.

(** C5 (as amended): when the template has a bracketed span, the key is
    the text of the first one, and every prompt of the task builder is
    the template in which the key is replaced by the word without the
    white space around it; the text before the first span is kept, and
    in the text after it every further occurrence of the key is replaced
    as well; only when the key does not occur again is all the text after
    the first span, with its later bracketed spans, left as it is. *)
Theorem first_placeholder_substituted
    (env : prep_env) (cfg : config) (experiment prompt_file raw : pystr)
    (words : list pystr) (m : nat * mstate)
    (Hprompt : cfg !! u "prompt" = Some prompt_file)
    (Hnamed : prompt_file <> [])
    (Hfile : prompts_dir env !! prompt_file = Some raw)
    (Hspan : search placeholder_pattern (strip raw) = Some m) :
  exists pre key post tasks,
    strip raw = pre ++ key ++ post
    /\ key = u "[" ++ group1 (strip raw) m ++ u "]"
    /\ List.length pre = fst m
    /\ occurs key pre = false
    /\ create_openai_tasks env words cfg experiment = Ok tasks
    /\ List.map prompts_of tasks
       = List.map (fun w => [pre ++ strip w ++ replace key (strip w) post]) words
    /\ (occurs key post = false ->
        List.map prompts_of tasks
        = List.map (fun w => [pre ++ strip w ++ post]) words).
Proof.
  destruct (search_placeholder_spec (strip raw) 0 m Hspan)
    as (pre & g & post & Ht & Hne & Hg & Hfst & Hgs & Hge & Hearly).
  set (key := [91] ++ g ++ [93]).
  assert (Hkey : find_prompt_key cfg (strip raw) = key).
  { unfold find_prompt_key. rewrite Hspan, Ht.
    by rewrite (group1_of_span pre g post m Hgs Hge). }
  assert (Hkeyne : key <> []) by done.
  assert (Hrun : forall pre1 pre2, pre = pre1 ++ pre2 -> pre2 <> [] ->
                 startswith key (pre2 ++ key ++ post) = false).
  { intros pre1 pre2 Hsplit Hne2.
    apply not_true_iff_false. intros [y Hy]%startswith_spec.
    pose proof (Hearly pre1 pre2 {| pos := 0; group_start := 0; group_end := 0 |}
                  Hsplit Hne2) as Hnone.
    replace (pre2 ++ [91] ++ g ++ [93] ++ post) with (pre2 ++ key ++ post) in Hnone
      by (subst key; by rewrite <- !app_assoc).
    rewrite Hy in Hnone. subst key.
    replace (([91] ++ g ++ [93]) ++ y) with ([91] ++ g ++ [93] ++ y) in Hnone
      by (by rewrite <- !app_assoc).
    by rewrite run_placeholder_at_key in Hnone. }
  assert (Htext : strip raw = pre ++ key ++ post).
  { rewrite Ht. subst key. by rewrite <- !app_assoc. }
  assert (Hrender : forall w,
            replace key (strip w) (strip raw)
            = pre ++ strip w ++ replace key (strip w) post).
  { intros w. rewrite Htext. unfold replace.
    destruct key as [|k0 key'] eqn:Hk; [done|]. rewrite <- Hk in *.
    rewrite replace_go_before by exact Hrun.
    by rewrite replace_go_at. }
  assert (Hload : load_prompt_from_file env prompt_file = Ok (strip raw)).
  { unfold load_prompt_from_file. rewrite Hfile.
    destruct (strip raw) eqn:Hs; [by destruct pre|done]. }
  exists pre, key, post.
  exists (tasks_loop experiment (default (u "gpt-4o-mini") (cfg !! u "model_name"))
            (strip raw) key 1 words).
  split; [exact Htext|]. split.
  { rewrite Ht, (group1_of_span pre g post m Hgs Hge). done. }
  split; [simpl in Hfst; lia|]. split.
  { apply not_true_iff_false. intros Hocc.
    assert (exists pre1 pre2, pre = pre1 ++ pre2 /\ pre2 <> []
                              /\ startswith key pre2 = true) as (p1 & p2 & Hsp & Hn2 & Hst).
    { clear -Hocc Hkeyne. clearbody key. induction pre as [|c pre IH].
      - by destruct key.
      - cbn [occurs] in Hocc. apply orb_true_iff in Hocc as [Hhere|Hlater].
        + by exists [], (c :: pre).
        + destruct (IH Hlater) as (p1 & p2 & -> & Hn2 & Hst).
          by exists (c :: p1), p2. }
    apply startswith_spec in Hst as [y ->].
    specialize (Hrun p1 (key ++ y) Hsp Hn2).
    rewrite <- app_assoc, startswith_app in Hrun. done. }
  split.
  { unfold create_openai_tasks. rewrite Hprompt. simpl.
    destruct prompt_file; [done|]. rewrite Hload. simpl. by rewrite Hkey. }
  split.
  { rewrite tasks_loop_prompts. apply List.map_ext. intros w. by rewrite Hrender. }
  intros Habsent. rewrite tasks_loop_prompts. apply List.map_ext. intros w.
  rewrite Hrender. unfold replace.
  destruct key as [|k0 key'] eqn:Hk; [done|]. rewrite <- Hk in *.
  by rewrite replace_go_absent.
Qed.

Lemma first_placeholder_substituted_witness :
  exists tasks,
    create_openai_tasks sample_env [u " casa "] (config_with_prompt (u "scale.txt"))
                        (u "exp1")
    = Ok tasks
    /\ List.map prompts_of tasks = [[u "Rate casa from [1] to [7]."]].
Proof.
  destruct (first_placeholder_substituted sample_env
              (config_with_prompt (u "scale.txt")) (u "exp1") (u "scale.txt")
              scale_template [u " casa "]
              (5%nat, {| pos := 11; group_start := 6; group_end := 10 |}))
    as (pre & key & post & tasks & _ & _ & _ & _ & Hrun & _ & _).
  - vm_compute. reflexivity.
  - discriminate.
  - vm_compute. reflexivity.
  - vm_compute. reflexivity.
  - exists tasks. split; [exact Hrun|].
    vm_compute in Hrun. injection Hrun as <-. vm_compute. reflexivity.
Defined.

(** C5 as first stated fails when a later bracketed span has the text of
    the first: the template "[x] y [x]" has the span "[x]" at its start
    and another in the text " y [x]" after it, and with the word "w" the
    prompt is "w y w", not "w y [x]". *)
Lemma later_span_with_same_text_is_substituted :
  search placeholder_pattern twice_template
  = Some (0%nat, {| pos := 3; group_start := 1; group_end := 2 |})
  /\ twice_template = [] ++ u "[x]" ++ u " y [x]"
  /\ search placeholder_pattern (u " y [x]")
     = Some (3%nat, {| pos := 6; group_start := 4; group_end := 5 |})
  /\ (List.map prompts_of
        (match create_openai_tasks sample_env [u "w"]
                 (config_with_prompt (u "twice.txt")) (u "exp1") with
         | Ok tasks => tasks
         | Raise _ => []
         end)
      = [[u "w y w"]])
  /\ u "w y w" <> [] ++ u "w" ++ u " y [x]".
Proof. vm_compute. repeat split; done. Qed.

(** ** Rendering a prompt and extracting the word *)

Import Results.

(** C6: for the template "La expresión es: [palabra]." and the word
    "correr", the task builder renders "La expresión es: correr." and
    [extract_word_input] gives back "correr" from it. *)
Theorem render_then_extract_recovers_word
    (env : prep_env) (cfg : config) (experiment prompt_file : pystr)
    (Hprompt : cfg !! u "prompt" = Some prompt_file)
    (Hnamed : prompt_file <> [])
    (Hfile : prompts_dir env !! prompt_file = Some expression_template) :
  exists t,
    create_openai_tasks env [u "correr"] cfg experiment = Ok [t]
    /\ prompts_of t = [expression_prompt]
    /\ extract_word_input expression_prompt = Some (u "correr").
Proof.
  assert (Hload : load_prompt_from_file env prompt_file = Ok expression_template).
  { unfold load_prompt_from_file. rewrite Hfile.
    replace (strip expression_template) with expression_template
      by (vm_compute; reflexivity).
    reflexivity. }
  assert (Hkey : find_prompt_key cfg expression_template = u "[palabra]").
  { unfold find_prompt_key.
    replace (search placeholder_pattern expression_template)
      with (Some (17%nat, {| pos := 26; group_start := 18; group_end := 25 |}))
      by (vm_compute; reflexivity).
    vm_compute. reflexivity. }
  eexists. split; [|split].
  - unfold create_openai_tasks. rewrite Hprompt. cbv [default from_option id].
    destruct prompt_file; [done|]. rewrite Hload. cbv [bind]. rewrite Hkey.
    reflexivity.
  - vm_compute. reflexivity.
  - vm_compute. reflexivity.
Qed.

Lemma render_then_extract_recovers_word_witness :
  exists t,
    create_openai_tasks sample_env [u "correr"]
      (config_with_prompt (u "expression.txt")) (u "exp1") = Ok [t]
    /\ prompts_of t = [expression_prompt]
    /\ extract_word_input expression_prompt = Some (u "correr").
Proof.
  apply (render_then_extract_recovers_word sample_env
           (config_with_prompt (u "expression.txt")) (u "exp1") (u "expression.txt")).
  - vm_compute. reflexivity.
  - discriminate.
  - vm_compute. reflexivity.
Defined.

(** ** The prepare stage and its registry *)

Lemma join_newline (l : list pystr) :
  l <> [] -> join [10] l ++ [10] = FailedExecute.write_lines l.
Proof.
  intros Hne. unfold FailedExecute.write_lines, FailedExecute.newline.
  induction l as [|x l IH]; [done|].
  destruct l as [|y l]; [simpl; by rewrite app_nil_r|].
  change (join [10] (x :: y :: l)) with (x ++ [10] ++ join [10] (y :: l)).
  change (concat (List.map (fun e => e ++ [10]) (x :: y :: l)))
    with ((x ++ [10]) ++ concat (List.map (fun e => e ++ [10]) (y :: l))).
  rewrite <- IH by done. by rewrite <- !app_assoc.
Qed.

Lemma load_save_failed (l : list pystr) :
  Forall (fun e => valid_line e = true) l ->
  load_failed_experiments (save_failed_experiments l) = l.
Proof.
  intros Hall. destruct l as [|x l]; [done|].
  unfold save_failed_experiments, load_failed_experiments.
  rewrite join_newline by done. by apply stripped_lines_write_lines.
Qed.

Lemma load_failed_valid (reg : option pystr) :
  Forall (fun e => valid_line e = true) (load_failed_experiments reg).
Proof. destruct reg; [apply stripped_lines_valid|constructor]. Qed.

Lemma list_remove_valid (x : pystr) (l : list pystr) :
  Forall (fun e => valid_line e = true) l ->
  Forall (fun e => valid_line e = true) (list_remove x l).
Proof.
  induction 1 as [|y l Hy Hl IH]; [constructor|]. simpl.
  destruct (str_eqb y x); [done|by constructor].
Qed.

Lemma list_remove_other (x e : pystr) (l : list pystr) :
  e <> x -> In e (list_remove x l) <-> In e l.
Proof.
  intros Hne. induction l as [|y l IH]; [done|]. simpl.
  destruct (str_eqb y x) eqn:Hy.
  - apply str_eqb_true in Hy as ->. split; [by right|]. by intros [?|?].
  - simpl. by rewrite IH.
Qed.

Lemma update_failed_experiments_load (n : pystr) (success : bool) (reg : option pystr) :
  load_failed_experiments (update_failed_experiments n success reg)
  = (if success && bool_decide (n ∈ load_failed_experiments reg)
     then list_remove n (load_failed_experiments reg)
     else if negb success && negb (bool_decide (n ∈ load_failed_experiments reg))
          then load_failed_experiments reg ++ stripped_lines (n ++ [10])
          else load_failed_experiments reg).
Proof.
  unfold update_failed_experiments.
  pose proof (load_failed_valid reg) as Hall.
  destruct (success && _).
  - by apply load_save_failed, list_remove_valid.
  - destruct (negb success && _); [|by apply load_save_failed].
    unfold save_failed_experiments, load_failed_experiments at 1.
    destruct (load_failed_experiments reg ++ [n]) as [|x l] eqn:Hl;
      [by destruct (load_failed_experiments reg)|].
    rewrite <- Hl, join_newline by (by destruct (load_failed_experiments reg)).
    assert (FailedExecute.write_lines (load_failed_experiments reg ++ [n])
            = FailedExecute.write_lines (load_failed_experiments reg) ++ n ++ [10]) as ->.
    { unfold FailedExecute.write_lines.
      rewrite List.map_app, List.concat_app. simpl. by rewrite app_nil_r. }
    rewrite stripped_lines_app by apply terminated_write_lines.
    by rewrite stripped_lines_write_lines.
Qed.

Lemma update_failed_records (n : pystr) (reg : option pystr) :
  valid_line n = true ->
  In n (load_failed_experiments (update_failed_experiments n false reg)).
Proof.
  intros Hn. rewrite update_failed_experiments_load. simpl.
  case_bool_decide as Hin; simpl.
  - by apply list_elem_of_In.
  - rewrite stripped_lines_single by done. apply in_or_app. right. by left.
Qed.

Lemma update_failed_other (n e : pystr) (success : bool) (reg : option pystr) :
  valid_line n = true -> e <> n ->
  In e (load_failed_experiments (update_failed_experiments n success reg))
  <-> In e (load_failed_experiments reg).
Proof.
  intros Hn Hne. rewrite update_failed_experiments_load.
  destruct (success && _).
  - by apply list_remove_other.
  - destruct (negb success && _); [|done].
    rewrite stripped_lines_single by done.
    rewrite in_app_iff. simpl. intuition congruence.
Qed.

(** A name that is in the registry stays there through the update for
    any name, unless the update is the success of that very name. *)
Lemma update_failed_keeps (n e : pystr) (success : bool) (reg : option pystr) :
  success = false \/ e <> n ->
  In e (load_failed_experiments reg) ->
  In e (load_failed_experiments (update_failed_experiments n success reg)).
Proof.
  intros Hcase Hin. rewrite update_failed_experiments_load.
  destruct (success && _) eqn:Hs.
  - apply andb_true_iff in Hs as [-> _].
    destruct Hcase as [?|Hne]; [done|]. by apply list_remove_other.
  - destruct (negb success && _); [|done]. apply in_or_app. by left.
Qed.

Lemma required_field_missing (cfg : config) (field : pystr) :
  In field required_fields -> cfg !! field = None ->
  List.filter (fun field => negb (bool_decide (is_Some (cfg !! field)))) required_fields
  <> [].
Proof.
  intros Hin Hnone Hnil.
  assert (In field (List.filter
                      (fun field => negb (bool_decide (is_Some (cfg !! field))))
                      required_fields)) as Hf.
  { apply filter_In. split; [done|]. apply negb_true_iff, bool_decide_eq_false.
    rewrite Hnone. by intros [? ?]. }
  by rewrite Hnil in Hf.
Qed.

(** A missing input makes [process_experiment] answer [False] and leave
    the state as it was. *)
Lemma process_experiment_missing_input env experiment cfg st :
  missing_input env cfg -> process_experiment env experiment cfg st = (false, st).
Proof.
  intros Hmiss. unfold process_experiment.
  assert (exists e, process_experiment_body env experiment cfg st = Raise e) as [e ->];
    [|done].
  unfold process_experiment_body.
  destruct (List.filter _ required_fields) as [|f fs] eqn:Hfields; [|by eexists].
  destruct (cfg !! u "dataset_name") as [dataset|] eqn:Hds; [|by eexists].
  destruct Hmiss as [(field & Hin & Hnone)|[(ds & Hds' & Hbad)|(pf & text & Hpf & Htext & Hblank)]].
  - exfalso. by apply (required_field_missing cfg field Hin Hnone).
  - rewrite Hds in Hds'. injection Hds' as <-.
    unfold load_word_list.
    destruct Hbad as [->|(f0 & -> & [Hread|[e He]])]; [by eexists| |].
    + rewrite Hread. by eexists.
    + destruct (negb (readable f0)); [by eexists|].
      destruct (_ || _); [|by eexists]. rewrite He. by eexists.
  - destruct (load_word_list env dataset _) as [word_list|e]; [|by eexists].
    cbn [bind]. unfold create_openai_tasks. rewrite Hpf. cbv [default from_option id].
    destruct pf; [by eexists|].
    unfold load_prompt_from_file. rewrite Htext, Hblank. by eexists.
Qed.

Lemma process_experiment_unfold env experiment cfg st :
  process_experiment env experiment cfg st
  = match prepared_tasks env experiment cfg with
    | Raise _ => (false, st)
    | Ok tasks =>
        (match task_chunks tasks default_chunk_size with
         | [] => false
         | _ :: _ => true
         end,
         state_after_write env experiment tasks st)
    end.
Proof.
  unfold process_experiment, process_experiment_body, prepared_tasks.
  destruct (List.filter _ required_fields); [|done].
  destruct (cfg !! u "dataset_name"); [|done].
  destruct (load_word_list env _ _) as [word_list|]; [|done]. cbn [bind].
  destruct (create_openai_tasks env word_list cfg experiment) as [tasks|]; [|done].
  cbn [bind]. unfold create_batch_files.
  pose proof default_chunk_size_pos as Hpos.
  destruct default_chunk_size as [|cs] eqn:Hcs; [lia|]. rewrite <- Hcs.
  cbn [bind try_except]. unfold state_after_write.
  pose proof (write_chunks_names experiment (clock env (ticks st)) 0
                (task_chunks tasks default_chunk_size) (batches st)) as Hnames.
  destruct (write_chunks _ _ _ _ _) as [names dir']. cbn [fst snd] in *.
  rewrite Hnames. by destruct (task_chunks tasks default_chunk_size).
Qed.

Lemma process_experiment_verdict env experiment cfg st st' :
  fst (process_experiment env experiment cfg st)
  = fst (process_experiment env experiment cfg st').
Proof.
  rewrite !process_experiment_unfold. by destruct (prepared_tasks _ _ _).
Qed.

Lemma process_experiment_registry env experiment cfg st :
  failed_prepare (snd (process_experiment env experiment cfg st)) = failed_prepare st.
Proof.
  rewrite process_experiment_unfold. by destruct (prepared_tasks _ _ _).
Qed.

Lemma process_experiment_keeps_files env experiment cfg st (name : pystr) :
  is_Some (batches st !! name) ->
  is_Some (batches (snd (process_experiment env experiment cfg st)) !! name).
Proof.
  intros Hsome. rewrite process_experiment_unfold.
  destruct (prepared_tasks _ _ _); [|done]. simpl. by apply write_chunks_dom.
Qed.

Lemma process_experiment_writes env experiment cfg st :
  fst (process_experiment env experiment cfg st) = true ->
  is_Some (batches (snd (process_experiment env experiment cfg st))
           !! batch_name experiment 0 (clock env (ticks st))).
Proof.
  rewrite process_experiment_unfold.
  destruct (prepared_tasks _ _ _) as [tasks|]; [|done]. simpl.
  destruct (task_chunks tasks default_chunk_size) as [|chunk rest] eqn:Hchunks; [done|].
  intros _.
  pose proof (write_chunks_lookup experiment (clock env (ticks st)) 0
                (chunk :: rest) (batches st) 0) as Hl.
  rewrite Nat.add_0_r in Hl. rewrite Hl; [done|simpl; lia].
Qed.

Section Run.
Variable env : prep_env.
Variable all_configs : gmap pystr config.

Lemma outcome_verdict (n : pystr) (cfg : config) (st : prep_state) :
  all_configs !! n = Some cfg ->
  outcome env all_configs n = Some (fst (process_experiment env n cfg st)).
Proof.
  intros Hcfg. unfold outcome. rewrite Hcfg. f_equal.
  apply process_experiment_verdict.
Qed.

Lemma run_cons_config n cfg rest s f st :
  all_configs !! n = Some cfg ->
  process_multiple_experiments env all_configs (n :: rest) s f st
  = if fst (process_experiment env n cfg st)
    then process_multiple_experiments env all_configs rest (S s) f (turn env n cfg st)
    else process_multiple_experiments env all_configs rest s (S f) (turn env n cfg st).
Proof.
  intros Hcfg. cbn [process_multiple_experiments]. rewrite Hcfg. unfold turn.
  by destruct (process_experiment env n cfg st) as [[] st1].
Qed.

Lemma run_cons_skip n rest s f st :
  all_configs !! n = None ->
  process_multiple_experiments env all_configs (n :: rest) s f st
  = process_multiple_experiments env all_configs rest s f st.
Proof. intros Hcfg. cbn [process_multiple_experiments]. by rewrite Hcfg. Qed.

Lemma turn_registry n cfg st :
  failed_prepare (turn env n cfg st)
  = update_failed_experiments n (fst (process_experiment env n cfg st))
      (failed_prepare st).
Proof. unfold turn. simpl. by rewrite process_experiment_registry. Qed.

Lemma turn_keeps_files n cfg st (name : pystr) :
  is_Some (batches st !! name) -> is_Some (batches (turn env n cfg st) !! name).
Proof. intros Hsome. unfold turn. simpl. by apply process_experiment_keeps_files. Qed.

Lemma run_counts names s f st :
  successful_count (process_multiple_experiments env all_configs names s f st)
  = (s + count_outcome env all_configs true names)%nat
  /\ failed_count (process_multiple_experiments env all_configs names s f st)
     = (f + count_outcome env all_configs false names)%nat.
Proof.
  revert s f st. induction names as [|n rest IH]; intros s f st.
  - unfold count_outcome. simpl. lia.
  - unfold count_outcome in *. cbn [List.filter].
    destruct (all_configs !! n) as [cfg|] eqn:Hcfg.
    + rewrite (run_cons_config n cfg) by done.
      rewrite !(outcome_verdict n cfg st Hcfg).
      destruct (fst (process_experiment env n cfg st)).
      * destruct (IH (S s) f (turn env n cfg st)) as [-> ->]. simpl. lia.
      * destruct (IH s (S f) (turn env n cfg st)) as [-> ->]. simpl. lia.
    + rewrite run_cons_skip by done.
      assert (outcome env all_configs n = None) as ->
        by (unfold outcome; by rewrite Hcfg).
      apply IH.
Qed.

Lemma run_keeps_files names s f st (name : pystr) :
  is_Some (batches st !! name) ->
  is_Some (batches (final (process_multiple_experiments env all_configs names s f st))
           !! name).
Proof.
  revert s f st. induction names as [|n rest IH]; intros s f st Hsome; [done|].
  destruct (all_configs !! n) as [cfg|] eqn:Hcfg.
  - rewrite (run_cons_config n cfg) by done.
    destruct (fst _); by apply IH, turn_keeps_files.
  - rewrite run_cons_skip by done. by apply IH.
Qed.

Lemma run_writes names s f st (n : pystr) :
  In n names -> outcome env all_configs n = Some true ->
  exists date,
    is_Some (batches (final (process_multiple_experiments env all_configs names s f st))
             !! batch_name n 0 date).
Proof.
  revert s f st. induction names as [|n0 rest IH]; intros s f st Hin Hout; [done|].
  destruct (all_configs !! n0) as [cfg|] eqn:Hcfg.
  - rewrite (run_cons_config n0 cfg) by done.
    destruct (decide (n0 = n)) as [->|Hne].
    + rewrite (outcome_verdict n cfg st Hcfg) in Hout. injection Hout as Hout.
      rewrite Hout. exists (clock env (ticks st)).
      apply run_keeps_files. unfold turn. simpl.
      by apply process_experiment_writes.
    + destruct Hin as [?|Hin]; [done|].
      destruct (fst _); by apply IH.
  - rewrite run_cons_skip by done. destruct Hin as [->|Hin].
    + unfold outcome in Hout. by rewrite Hcfg in Hout.
    + by apply IH.
Qed.

Lemma run_keeps_record names s f st (e : pystr) :
  outcome env all_configs e <> Some true ->
  In e (load_failed_experiments (failed_prepare st)) ->
  In e (load_failed_experiments
          (failed_prepare
             (final (process_multiple_experiments env all_configs names s f st)))).
Proof.
  intros Hout. revert s f st.
  induction names as [|n rest IH]; intros s f st Hin; [done|].
  destruct (all_configs !! n) as [cfg|] eqn:Hcfg.
  - rewrite (run_cons_config n cfg) by done.
    assert (In e (load_failed_experiments (failed_prepare (turn env n cfg st)))) as Hin'.
    { rewrite turn_registry. apply update_failed_keeps; [|done].
      destruct (decide (e = n)) as [->|Hne]; [|by right]. left.
      rewrite (outcome_verdict n cfg st Hcfg) in Hout.
      by destruct (fst (process_experiment env n cfg st)). }
    destruct (fst _); by apply IH.
  - rewrite run_cons_skip by done. by apply IH.
Qed.

Lemma run_records names s f st (e : pystr) :
  valid_line e = true ->
  In e names -> outcome env all_configs e = Some false ->
  In e (load_failed_experiments
          (failed_prepare
             (final (process_multiple_experiments env all_configs names s f st)))).
Proof.
  intros Hvalid Hin Hout. revert s f st.
  induction names as [|n rest IH]; intros s f st; [done|].
  destruct (all_configs !! n) as [cfg|] eqn:Hcfg.
  - rewrite (run_cons_config n cfg) by done.
    destruct (decide (n = e)) as [->|Hne].
    + rewrite (outcome_verdict e cfg st Hcfg) in Hout. injection Hout as Hout.
      rewrite Hout. apply run_keeps_record.
      * rewrite (outcome_verdict e cfg st Hcfg), Hout. done.
      * rewrite turn_registry, Hout. by apply update_failed_records.
    + destruct Hin as [?|Hin]; [done|]. destruct (fst _); by apply IH.
  - rewrite run_cons_skip by done. destruct Hin as [->|Hin].
    + unfold outcome in Hout. by rewrite Hcfg in Hout.
    + by apply IH.
Qed.

Lemma run_skips names s f st (e : pystr) :
  Forall (fun n => valid_line n = true) names ->
  all_configs !! e = None ->
  In e (load_failed_experiments
          (failed_prepare
             (final (process_multiple_experiments env all_configs names s f st))))
  <-> In e (load_failed_experiments (failed_prepare st)).
Proof.
  intros Hvalid Hnone. revert s f st.
  induction Hvalid as [|n rest Hn Hrest IH]; intros s f st; [done|].
  destruct (all_configs !! n) as [cfg|] eqn:Hcfg.
  - rewrite (run_cons_config n cfg) by done.
    assert (e <> n) as Hne by (intros ->; congruence).
    destruct (fst (process_experiment env n cfg st)) eqn:Hv;
      rewrite IH, turn_registry; by apply update_failed_other.
  - rewrite run_cons_skip by done. apply IH.
Qed.

End Run.




(** ** The weighted sum *)

Section Score.
Variable rt : runtime.

Lemma score_entry_spec (e : entry rt) (acc : number rt) (seen : gset Z) :
  well_typed rt e ->
  score_entry rt e (acc, seen)
  = Ok (match counted rt e with
        | Some (d, x) =>
            if bool_decide (d ∈ seen) then (acc, seen)
            else (Float rt (fadd rt (to_float rt acc)
                              (fmul rt (of_int rt d) (fexp rt x))),
                  {[d]} ∪ seen)
        | None => (acc, seen)
        end).
Proof.
  intros Hwt. destruct e as [fields|]; [|done].
  unfold score_entry, counted, getitem, digit_of_token. simpl in Hwt.
  destruct (fields !! u "token") as [token|]; [|done]. cbn [bind].
  destruct (strip (py_str rt token)) as [|c [|c' s]] eqn:Htext.
  - simpl. by destruct (fields !! u "logprob").
  - unfold isdigit. cbn [nonempty forallb List.length andb]. rewrite andb_true_r.
    destruct (char_isdigit rt c); cbn [andb Nat.eqb];
      [|by destruct (fields !! u "logprob")].
    destruct (int_of_char rt c) as [v|err] eqn:Hint.
    + cbn [bind]. destruct ((1 <=? v)%Z && (v <=? 7)%Z) eqn:Hrange; cbn [andb].
      * destruct (decide (v ∈ seen)) as [Hseen|Hseen].
        -- rewrite (bool_decide_eq_false_2 (v ∉ seen)) by tauto.
           destruct (fields !! u "logprob") as [lp|]; [|done].
           destruct (py_float rt lp); [|done].
           by rewrite (bool_decide_eq_true_2 (v ∈ seen)).
        -- rewrite (bool_decide_eq_true_2 (v ∉ seen)) by done.
           destruct (fields !! u "logprob") as [lp|]; [|done]. cbn [bind].
           destruct lp as [|b|z|x|s|text]; try done; cbn [py_float bind];
             rewrite ?(bool_decide_eq_false_2 (v ∈ seen)) by done; try done.
           destruct (parse_float rt s); [|done]. cbn [bind try_except_only].
           by rewrite (bool_decide_eq_false_2 (v ∈ seen)).
      * by destruct (fields !! u "logprob").
    + assert (err = ValueError) as ->.
      { unfold int_of_char in Hint. destruct (is_ascii_digit c); [done|].
        destruct (c <? 128); [congruence|].
        destruct (unicode_decimal rt c); congruence. }
      simpl. by destruct (fields !! u "logprob").
  - unfold isdigit. cbn [List.length Nat.eqb]. rewrite andb_false_r.
    simpl. by destruct (fields !! u "logprob").
Qed.

Lemma score_loop_spec (entries : list (entry rt)) (acc : number rt) (seen : gset Z) :
  Forall (well_typed rt) entries ->
  exists seen',
    score_loop rt entries (acc, seen)
    = Ok (sum_first_occurrences rt seen acc (omap (counted rt) entries), seen').
Proof.
  intros Hall. revert acc seen.
  induction Hall as [|e rest He Hrest IH]; intros acc seen; [by eexists|].
  cbn [score_loop]. rewrite score_entry_spec by done. cbn [bind].
  change (omap (counted rt) (e :: rest))
    with (match counted rt e with
          | Some y => y :: omap (counted rt) rest
          | None => omap (counted rt) rest
          end).
  destruct (counted rt e) as [[d x]|]; cbn [sum_first_occurrences]; [|apply IH].
  destruct (bool_decide (d ∈ seen)); apply IH.
Qed.

End Score.

Lemma three_alternatives_score (rt : runtime) (x1 x2 x3 : F rt) :
  calculate_weighted_sum_1_to_7 rt
    [alternative rt (VStr rt (u "3")) (VFloat rt x1);
     alternative rt (VStr rt (u "3")) (VFloat rt x2);
     alternative rt (VStr rt (u "5")) (VFloat rt x3)]
  = Ok (Float rt (fadd rt (fadd rt (of_int rt 0) (fmul rt (of_int rt 3) (fexp rt x1)))
                          (fmul rt (of_int rt 5) (fexp rt x3)))).
Proof. vm_compute. reflexivity. Qed.

Lemma null_logprob_raises (rt : runtime) :
  calculate_weighted_sum_1_to_7 rt [alternative rt (VStr rt (u "3")) (VNone rt)]
  = Raise TypeError.
Proof. vm_compute. reflexivity. Qed.

Lemma padded_token_counts (rt : runtime) (x : F rt) :
  calculate_weighted_sum_1_to_7 rt [alternative rt (VStr rt (u " 3")) (VFloat rt x)]
  = Ok (Float rt (fadd rt (of_int rt 0) (fmul rt (of_int rt 3) (fexp rt x)))).
Proof. vm_compute. reflexivity. Qed.

Section RealScore.
Import Stdlib.Reals.Reals Stdlib.micromega.Lra.
Local Open Scope R_scope.




End RealScore.

(** * Further properties of the tracking store *)

Import Execute Examples.

Lemma set_status_same (r : tracking_record) : set_status (status r) r = r.
Proof. by destruct r. Qed.

Lemma set_status_twice (s1 s2 : pystr) (r : tracking_record) :
  set_status s2 (set_status s1 r) = set_status s2 r.
Proof. done. Qed.

Lemma filter_other_jobs (job : pystr) (rs : list tracking_record) :
  (forall r, In r rs -> batch_id r <> job) ->
  List.filter (fun r => negb (str_eqb (batch_id r) job)) rs = rs.
Proof.
  induction rs as [|r rs IH]; intros Hother; [done|]. simpl.
  assert (str_eqb (batch_id r) job = false) as ->
    by (apply str_eqb_false, Hother; by left).
  simpl. f_equal. apply IH. intros r' Hr'. apply Hother. by right.
Qed.



(** X2: [update_batch_status] changes nothing but the status of the
    records of the job: the table keeps its length, the records of other
    jobs are the same, and every record of the job has the new status;
    when the new status is "completed", "downloaded" or "failed", the job
    is no longer among the pending batches of any experiment. *)
Theorem update_batch_status_marks_job (job new_status : pystr) (f : tracking_file) :
  List.length (rows (loaded (update_batch_status job new_status f)))
  = List.length (rows (loaded f))
  /\ (forall r, batch_id r <> job ->
        (In r (rows (loaded (update_batch_status job new_status f)))
         <-> In r (rows (loaded f))))
  /\ (forall r, In r (rows (loaded (update_batch_status job new_status f))) ->
        batch_id r = job -> status r = new_status)
  /\ (forall r, In r (rows (loaded f)) -> batch_id r = job ->
        In (set_status new_status r) (rows (loaded (update_batch_status job new_status f))))
  /\ (In new_status [u "completed"; u "downloaded"; u "failed"] ->
      forall experiment r,
        In r (get_pending_batches_for_experiment experiment
                (update_batch_status job new_status f)) ->
        batch_id r <> job).
Proof.
  rewrite rows_update_status.
  split; [by rewrite length_map|]. split; [|split; [|split]].
  - intros r Hne. rewrite in_map_iff. split.
    + intros (r0 & Heq & Hin). destruct (str_eqb (batch_id r0) job) eqn:Hjob.
      * apply str_eqb_true in Hjob. subst r. simpl in Hne. done.
      * by subst.
    + intros Hin. exists r. split; [|done].
      by apply str_eqb_false in Hne as ->.
  - intros r (r0 & Heq & Hin)%in_map_iff Hjob.
    destruct (str_eqb (batch_id r0) job) eqn:Hjob0.
    + by subst r.
    + subst r. by apply str_eqb_false in Hjob0.
  - intros r Hin Hjob. apply in_map_iff. exists r. split; [|done].
    by apply str_eqb_true in Hjob as ->.
  - intros Hterminal experiment r Hpending Hjob.
    unfold get_pending_batches_for_experiment in Hpending.
    apply filter_In in Hpending as [Hin Hkeep].
    rewrite rows_update_status in Hin.
    apply in_map_iff in Hin as (r0 & Heq & Hin).
    apply andb_true_iff in Hkeep as [_ Hstatus].
    apply negb_true_iff, bool_decide_eq_false in Hstatus. apply Hstatus.
    destruct (str_eqb (batch_id r0) job) eqn:Hjob0.
    + subst r. simpl. by apply list_elem_of_In.
    + subst r. by apply str_eqb_false in Hjob0.
Qed.

(** X3: when nothing readable is at the path of the tracking file (no
    file, or a file that [pd.read_excel] rejects), [update_batch_status]
    and [remove_batch_from_tracking] write an empty table there and
    [cleanup_empty_tracking_file] leaves no file: what an unreadable file
    held is lost; [create_batch_tracking_file] leaves such a file as it
    is. *)
Theorem mutation_replaces_unreadable_table
    (f : tracking_file) (e : exn) (job new_status : pystr)
    (Hunreadable : read_excel f = Raise e) :
  update_batch_status job new_status f = Stored []
  /\ remove_batch_from_tracking job f = Stored []
  /\ cleanup_empty_tracking_file f = (Missing, true)
  /\ (exists_file f = true -> create_batch_tracking_file f = f).
Proof. destruct f; try done. Qed.

Lemma mutation_replaces_unreadable_table_witness :
  update_batch_status (u "batch_1") (u "completed") (Unreadable OtherError) = Stored [].
Proof.
  exact (proj1 (mutation_replaces_unreadable_table (Unreadable OtherError) OtherError
                  (u "batch_1") (u "completed") eq_refl)).
Defined.

(** * Further properties of the poller *)

(** The rows a step of the poller leaves, from the rows it finds. *)
Lemma reconcile_record_rows rm date row w :
  rows (loaded (tracking (reconcile_record rm date row w)))
  = match batches_retrieve rm (batch_id row) with
    | Raise _ => rows (loaded (tracking w))
    | Ok info =>
        let rs :=
          if negb (str_eqb (info_status info) (status row))
          then List.map (fun r => if str_eqb (batch_id r) (batch_id row)
                                  then set_status (info_status info) r else r)
                        (rows (loaded (tracking w)))
          else rows (loaded (tracking w)) in
        if str_eqb (info_status info) (u "completed") then
          match files_content rm (output_file_id info) with
          | Ok _ => List.filter (fun r => negb (str_eqb (batch_id r) (batch_id row))) rs
          | Raise _ => rs
          end
        else if bool_decide (info_status info ∈ [u "failed"; u "cancelled"])
        then List.filter (fun r => negb (str_eqb (batch_id r) (batch_id row))) rs
        else rs
    end.
Proof.
  unfold reconcile_record.
  destruct (batches_retrieve rm (batch_id row)) as [info|e]; [|done].
  cbv zeta. destruct (negb (str_eqb (info_status info) (status row)));
    destruct (str_eqb (info_status info) (u "completed"));
    unfold download_completed;
    try destruct (files_content rm (output_file_id info));
    try destruct (bool_decide (info_status info ∈ [u "failed"; u "cancelled"]));
    reflexivity.
Qed.

(** A step for one job leaves the records of the other jobs as they are. *)
Lemma reconcile_record_other_jobs rm date row w (r : tracking_record) :
  batch_id r <> batch_id row ->
  (In r (rows (loaded (tracking (reconcile_record rm date row w))))
   <-> In r (rows (loaded (tracking w)))).
Proof.
  intros Hne. rewrite reconcile_record_rows.
  destruct (batches_retrieve rm (batch_id row)) as [info|e]; [|done]. cbv zeta.
  set (rs := if negb _ then _ else _).
  assert (In r rs <-> In r (rows (loaded (tracking w)))) as Hrs.
  { subst rs. destruct (negb _); [|done]. rewrite in_map_iff. split.
    - intros (r0 & Heq & Hin). destruct (str_eqb (batch_id r0) (batch_id row)) eqn:Hj.
      + apply str_eqb_true in Hj. subst r. simpl in Hne. done.
      + by subst.
    - intros Hin. exists r. split; [|done]. by apply str_eqb_false in Hne as ->. }
  assert (In r (List.filter (fun r => negb (str_eqb (batch_id r) (batch_id row))) rs)
          <-> In r rs) as Hfilter.
  { rewrite filter_In. apply str_eqb_false in Hne. rewrite Hne. simpl. tauto. }
  destruct (str_eqb (info_status info) (u "completed")).
  - destruct (files_content rm (output_file_id info)); by rewrite ?Hfilter.
  - destruct (bool_decide _); by rewrite ?Hfilter.
Qed.

(** Every record a step leaves is a record it found, but for the status. *)
Lemma reconcile_record_same_records rm date row w (r' : tracking_record) :
  In r' (rows (loaded (tracking (reconcile_record rm date row w)))) ->
  exists r, In r (rows (loaded (tracking w))) /\ r' = set_status (status r') r.
Proof.
  rewrite reconcile_record_rows.
  destruct (batches_retrieve rm (batch_id row)) as [info|e].
  - cbv zeta. set (rs := if negb _ then _ else _).
    assert (In r' rs -> exists r, In r (rows (loaded (tracking w)))
                                  /\ r' = set_status (status r') r) as Hrs.
    { subst rs. destruct (negb _).
      - intros (r0 & Heq & Hin)%in_map_iff. exists r0. split; [done|].
        destruct (str_eqb (batch_id r0) (batch_id row)); subst r'; [done|].
        by rewrite set_status_same.
      - intros Hin. exists r'. by rewrite set_status_same. }
    destruct (str_eqb (info_status info) (u "completed")).
    + destruct (files_content rm (output_file_id info)); [|done].
      intros [Hin _]%filter_In. by apply Hrs.
    + destruct (bool_decide _); [|done]. intros [Hin _]%filter_In. by apply Hrs.
  - intros Hin. exists r'. by rewrite set_status_same.
Qed.

Lemma reconcile_all_same_records rm date pending w (r' : tracking_record) :
  In r' (rows (loaded (tracking (reconcile_all rm date pending w)))) ->
  exists r, In r (rows (loaded (tracking w))) /\ r' = set_status (status r') r.
Proof.
  revert w. induction pending as [|row rest IH]; intros w Hin.
  - exists r'. by rewrite set_status_same.
  - simpl in Hin. destruct (IH _ Hin) as (r1 & Hr1 & Heq1).
    destruct (reconcile_record_same_records rm date row w r1 Hr1) as (r0 & Hr0 & Heq0).
    exists r0. split; [done|]. rewrite Heq1, Heq0. done.
Qed.

Lemma pass_cases rm date w :
  check_and_download_pending_batches rm date w = w
  \/ (rows (loaded (tracking w)) <> []
      /\ exists w1,
           w1 = check_and_download_openai_batches rm date (loaded (tracking w)) w
           /\ check_and_download_pending_batches rm date w
              = with_tracking (fst (cleanup_empty_tracking_file (tracking w1))) w1).
Proof.
  unfold check_and_download_pending_batches.
  destruct (negb (exists_file (tracking w))); [by left|].
  destruct (rows (loaded (tracking w))) eqn:Hrows; [by left|].
  right. split; [done|]. by eexists.
Qed.

(** X4: a reconciliation pass adds nothing: every record it leaves in
    the tracking table is a record it found, with at most another
    status, and every results file that was there is still there. *)
Theorem pass_adds_no_record (rm : remote) (date : pystr) (w : world) :
  let w' := check_and_download_pending_batches rm date w in
  (forall r', In r' (rows (loaded (tracking w'))) ->
     exists r, In r (rows (loaded (tracking w))) /\ r' = set_status (status r') r)
  /\ (List.length (rows (loaded (tracking w'))) <= List.length (rows (loaded (tracking w))))%nat
  /\ (forall name, is_Some (results_dir w !! name) -> is_Some (results_dir w' !! name)).
Proof.
  cbv zeta.
  assert (forall pending,
            (List.length (rows (loaded (tracking (reconcile_all rm date pending w))))
             <= List.length (rows (loaded (tracking w))))%nat) as Hlen.
  { intros pending. revert w. induction pending as [|row rest IH]; intros w; [done|].
    simpl. etransitivity; [apply IH|]. rewrite reconcile_record_rows.
    destruct (batches_retrieve rm (batch_id row)) as [info|e]; [|done]. cbv zeta.
    set (rs := if negb _ then _ else _).
    assert (List.length rs = List.length (rows (loaded (tracking w)))) as <-.
    { subst rs. destruct (negb _); [by rewrite length_map|done]. }
    destruct (str_eqb (info_status info) (u "completed"));
      [destruct (files_content rm (output_file_id info))
      |destruct (bool_decide (info_status info ∈ [u "failed"; u "cancelled"]))];
      try done; apply List.filter_length_le. }
  destruct (pass_cases rm date w) as [->|(Hrows & w1 & Hw1 & ->)].
  - split; [|split; [done|done]]. intros r' Hin. exists r'. by rewrite set_status_same.
  - assert (w1 = w \/ w1 = reconcile_all rm date (pending_batches (loaded (tracking w))) w)
      as Hcase.
    { subst w1. unfold check_and_download_openai_batches.
      destruct (openai_login rm); [by right|by left]. }
    assert (forall r', In r' (rows (loaded (tracking w1))) ->
              exists r, In r (rows (loaded (tracking w))) /\ r' = set_status (status r') r)
      as Hsame.
    { destruct Hcase as [->| ->].
      - intros r' Hin. exists r'. by rewrite set_status_same.
      - intros r'. apply reconcile_all_same_records. }
    assert (List.length (rows (loaded (tracking w1)))
            <= List.length (rows (loaded (tracking w))))%nat as Hlen1.
    { destruct Hcase as [->| ->]; [done|apply Hlen]. }
    assert (forall name, is_Some (results_dir w !! name) ->
                         is_Some (results_dir w1 !! name)) as Hres.
    { destruct Hcase as [->| ->]; [done|]. intros name.
      apply reconcile_all_keeps_results. }
    simpl. unfold cleanup_empty_tracking_file.
    destruct (exists_file (tracking w1)); [|done].
    destruct (List.length (rows (loaded (tracking w1))) =? 0)%nat eqn:Hz; [|done].
    simpl. split; [done|]. split; [lia|done].
Qed.

Lemma with_tracking_same (w : world) : with_tracking (tracking w) w = w.
Proof. by destruct w. Qed.

Lemma reconcile_all_In rm date pending w (P : world -> Prop) :
  (forall row w0, In row pending -> P w0 -> P (reconcile_record rm date row w0)) ->
  P w -> P (reconcile_all rm date pending w).
Proof.
  revert w. induction pending as [|row rest IH]; intros w Hstep Hw; [done|].
  simpl. apply IH.
  - intros row' w0 Hin. apply Hstep. by right.
  - apply Hstep; [by left|done].
Qed.

(** X5: when the login fails, or the status query of every pending
    record raises, a reconciliation pass leaves the tracking file, the
    registry and the results folder exactly as they were. *)
Theorem pass_without_answers_changes_nothing
    (rm : remote) (date : pystr) (w : world)
    (Hsilent : (exists e, openai_login rm = Raise e)
               \/ forall row, In row (pending_batches (loaded (tracking w))) ->
                              exists e, batches_retrieve rm (batch_id row) = Raise e) :
  check_and_download_pending_batches rm date w = w.
Proof.
  destruct (pass_cases rm date w) as [Hsame|(Hrows & w1 & Hw1 & Heq)]; [done|].
  rewrite Heq. assert (w1 = w) as ->.
  { subst w1. unfold check_and_download_openai_batches.
    destruct (openai_login rm) as [[]|e] eqn:Hlogin; [|done].
    destruct Hsilent as [[e He]|Hquery]; [done|].
    apply (reconcile_all_In rm date _ w (fun w0 => w0 = w)); [|done].
    intros row w0 Hin ->. destruct (Hquery row Hin) as [e He].
    unfold reconcile_record. by rewrite He. }
  unfold cleanup_empty_tracking_file.
  destruct (exists_file (tracking w)); [|apply with_tracking_same].
  destruct (rows (loaded (tracking w))); [done|]. apply with_tracking_same.
Qed.

Lemma pass_without_answers_changes_nothing_witness :
  check_and_download_pending_batches
    {| openai_login := Raise RemoteError;
       batches_retrieve := fun _ => Ok completed_info;
       files_content := fun _ => Ok sample_output |}
    sample_date sample_world
  = sample_world.
Proof.
  apply pass_without_answers_changes_nothing. left. by exists RemoteError.
Defined.

(** X6: a pending record whose job the remote reports with a status
    other than "completed", "failed" and "cancelled" is still in the
    table after the pass, with that status, and the tracking file is
    kept. *)
Theorem pass_updates_status_of_running_job
    (rm : remote) (date : pystr) (w : world) (row : tracking_record)
    (info : batch_info)
    (Hlogin : openai_login rm = Ok tt)
    (Hpending : In row (pending_batches (loaded (tracking w))))
    (Hreported : batches_retrieve rm (batch_id row) = Ok info)
    (Hrunning : ~ In (info_status info) [u "completed"; u "failed"; u "cancelled"]) :
  let w' := check_and_download_pending_batches rm date w in
  In (set_status (info_status info) row) (rows (loaded (tracking w')))
  /\ exists_file (tracking w') = true.
Proof.
  cbv zeta.
  assert (str_eqb (info_status info) (u "completed") = false) as Hnc.
  { apply str_eqb_false. intros Heq. apply Hrunning. rewrite Heq. by left. }
  assert (bool_decide (info_status info ∈ [u "failed"; u "cancelled"]) = false) as Hnf.
  { apply bool_decide_eq_false. intros Hin%list_elem_of_In. apply Hrunning.
    by right. }
  set (t := set_status (info_status info) row).
  (* a step keeps the updated record, and turns the record into it *)
  assert (Hstep : forall row' w0,
            (In t (rows (loaded (tracking w0))) ->
             In t (rows (loaded (tracking (reconcile_record rm date row' w0)))))
            /\ (In row (rows (loaded (tracking w0))) ->
                In row (rows (loaded (tracking (reconcile_record rm date row' w0))))
                \/ In t (rows (loaded (tracking (reconcile_record rm date row' w0)))))).
  { intros row' w0.
    destruct (decide (batch_id row' = batch_id row)) as [Hid|Hid].
    - rewrite reconcile_record_rows, Hid, Hreported. cbv zeta. rewrite Hnc, Hnf.
      destruct (negb (str_eqb (info_status info) (status row'))).
      + split; intros Hin; [|right]; apply in_map_iff.
        * exists t. split; [|done]. subst t. simpl. by rewrite str_eqb_refl.
        * exists row. split; [|done]. by rewrite str_eqb_refl.
      + split; [done|by left].
    - split; intros Hin; [|left]; apply reconcile_record_other_jobs; try done.
      all: simpl; congruence. }
  assert (Hown : forall w0,
            In row (rows (loaded (tracking w0))) \/ In t (rows (loaded (tracking w0))) ->
            In t (rows (loaded (tracking (reconcile_record rm date row w0))))).
  { intros w0 [Hin|Hin]; [|by apply Hstep].
    rewrite reconcile_record_rows, Hreported. cbv zeta. rewrite Hnc, Hnf.
    destruct (negb (str_eqb (info_status info) (status row))) eqn:Hs.
    - apply in_map_iff. exists row. split; [|done]. by rewrite str_eqb_refl.
    - apply negb_false_iff, str_eqb_true in Hs. subst t. rewrite Hs.
      by rewrite set_status_same. }
  assert (Hrows : rows (loaded (tracking w)) <> []).
  { apply pending_batches_In in Hpending. by destruct (rows (loaded (tracking w))). }
  rewrite pass_unfold by done. cbv zeta.
  assert (In t (rows (loaded (tracking
            (reconcile_all rm date (pending_batches (loaded (tracking w))) w)))))
    as Hfinal.
  { pose proof (pending_batches_In _ _ Hpending) as Hin.
    apply in_split in Hpending as (l1 & l2 & ->).
    change (l1 ++ row :: l2) with (l1 ++ [row] ++ l2).
    rewrite !reconcile_all_app.
    apply (reconcile_all_In rm date l2 _
             (fun w0 => In t (rows (loaded (tracking w0))))).
    { intros row' w0 _. apply Hstep. }
    change (reconcile_all rm date [row] ?x) with (reconcile_record rm date row x).
    apply Hown.
    apply (reconcile_all_In rm date l1 w
             (fun w0 => In row (rows (loaded (tracking w0)))
                        \/ In t (rows (loaded (tracking w0))))).
    - intros row' w0 _ [H|H]; [by apply Hstep|right; by apply Hstep].
    - by left. }
  set (w1 := reconcile_all rm date _ w) in *.
  simpl. unfold cleanup_empty_tracking_file.
  destruct (exists_file (tracking w1)) eqn:Hex.
  - destruct (rows (loaded (tracking w1))) eqn:Hr; [done|]. simpl.
    rewrite Hr. by rewrite Hex.
  - exfalso. destruct (tracking w1); try done.
Qed.

Lemma pass_updates_status_of_running_job_witness :
  In (set_status (u "finalizing") sample_row)
     (rows (loaded (tracking
        (check_and_download_pending_batches
           {| openai_login := Ok tt;
              batches_retrieve :=
                fun _ => Ok {| info_status := u "finalizing"; output_file_id := [] |};
              files_content := fun _ => Raise RemoteError |}
           sample_date sample_world)))).
Proof.
  refine (proj1 (pass_updates_status_of_running_job _ sample_date sample_world
                   sample_row {| info_status := u "finalizing"; output_file_id := [] |}
                   _ _ _ _)).
  - reflexivity.
  - vm_compute. by left.
  - reflexivity.
  - vm_compute. intros [H|[H|[H|[]]]]; discriminate.
Defined.

Lemma pending_batches_spec (r : tracking_record) (df : DataFrame) :
  In r (pending_batches df)
  <-> In r (rows df) /\ ~ In (status r) [u "downloaded"; u "failed"].
Proof.
  unfold pending_batches. rewrite filter_In, negb_true_iff, bool_decide_eq_false.
  by rewrite list_elem_of_In.
Qed.

(** A pass leaves the records of a job that has no pending record as
    they are. *)
Lemma pass_keeps_unpolled_job rm date w (job : pystr) :
  (forall r, In r (pending_batches (loaded (tracking w))) -> batch_id r <> job) ->
  forall r, batch_id r = job ->
    (In r (rows (loaded (tracking (check_and_download_pending_batches rm date w))))
     <-> In r (rows (loaded (tracking w)))).
Proof.
  intros Hunpolled r Hjob.
  destruct (pass_cases rm date w) as [->|(Hrows & w1 & Hw1 & ->)]; [done|].
  assert (In r (rows (loaded (tracking w1))) <-> In r (rows (loaded (tracking w))))
    as Hsame.
  { subst w1. unfold check_and_download_openai_batches.
    destruct (openai_login rm); [|done].
    apply (reconcile_all_In rm date _ w
             (fun w0 => In r (rows (loaded (tracking w0)))
                        <-> In r (rows (loaded (tracking w))))); [|done].
    intros row w0 Hin <-. apply reconcile_record_other_jobs.
    rewrite Hjob. intros Heq. by apply (Hunpolled row Hin). }
  simpl. unfold cleanup_empty_tracking_file.
  destruct (exists_file (tracking w1)) eqn:Hex; [|done].
  destruct (rows (loaded (tracking w1))) eqn:Hr; [|simpl; by rewrite Hr in *].
  simpl. rewrite <- Hsame. done.
Qed.

(** X7: a record marked "downloaded" or "failed" is never polled: when
    all the records of its job are so marked, every pass leaves it in the
    table, whatever the remote answers, and the polling loop does not
    end, however many passes it is given. *)
Theorem polling_never_ends_with_marked_record
    (w : world) (row : tracking_record)
    (Htracked : In row (rows (loaded (tracking w))))
    (Hmarked : forall r, In r (rows (loaded (tracking w))) ->
                         batch_id r = batch_id row ->
                         In (status r) [u "downloaded"; u "failed"]) :
  (forall rm date,
     In row (rows (loaded (tracking (check_and_download_pending_batches rm date w)))))
  /\ (forall fuel remotes dates pass, polling_loop fuel remotes dates pass w = None)
  /\ (forall fuel remotes dates,
        check_and_download_pending_batches_loop fuel remotes dates w = None).
Proof.
  assert (Hpass : forall rm date w0,
            In row (rows (loaded (tracking w0))) ->
            (forall r, In r (rows (loaded (tracking w0))) -> batch_id r = batch_id row ->
                       In (status r) [u "downloaded"; u "failed"]) ->
            let w1 := check_and_download_pending_batches rm date w0 in
            In row (rows (loaded (tracking w1)))
            /\ (forall r, In r (rows (loaded (tracking w1))) ->
                          batch_id r = batch_id row ->
                          In (status r) [u "downloaded"; u "failed"])).
  { intros rm date w0 Hin Hall. cbv zeta.
    assert (forall r, In r (pending_batches (loaded (tracking w0))) ->
                      batch_id r <> batch_id row) as Hunpolled.
    { intros r [Hr Hstatus]%pending_batches_spec Hid. apply Hstatus. by apply Hall. }
    split.
    - by apply (pass_keeps_unpolled_job rm date w0 (batch_id row) Hunpolled).
    - intros r Hr Hid. apply Hall; [|done].
      by apply (pass_keeps_unpolled_job rm date w0 (batch_id row) Hunpolled). }
  assert (Hloop : forall fuel remotes dates pass,
            polling_loop fuel remotes dates pass w = None).
  { intros fuel remotes dates. revert w Htracked Hmarked.
    induction fuel as [|fuel IH]; intros w Htracked Hmarked pass; [done|].
    cbn [polling_loop].
    destruct (Hpass (remotes pass) (dates pass) w Htracked Hmarked) as [Hin Hall].
    destruct (rows (loaded (tracking (check_and_download_pending_batches _ _ w))))
      eqn:Hrows; [done|].
    apply IH; rewrite ?Hrows; done. }
  split; [|split; [exact Hloop|]].
  - intros rm date. by apply Hpass.
  - intros fuel remotes dates. unfold check_and_download_pending_batches_loop.
    destruct (exists_file (tracking w)) eqn:Hex; [apply Hloop|].
    by destruct (tracking w).
Qed.

Lemma polling_never_ends_with_marked_record_witness :
  polling_loop 5 (fun _ => remote_completed) (fun _ => sample_date) 0
    {| tracking := Stored [set_status (u "failed") sample_row];
       failed_execute := None;
       results_dir := ∅ |}
  = None.
Proof.
  refine (proj1 (proj2 (polling_never_ends_with_marked_record
                          {| tracking := Stored [set_status (u "failed") sample_row];
                             failed_execute := None;
                             results_dir := ∅ |}
                          (set_status (u "failed") sample_row) _ _))
            5%nat (fun _ => remote_completed) (fun _ => sample_date) 0%nat).
  - by left.
  - intros r [<-|[]] _. vm_compute. right. by left.
Defined.

(** X8: when no record is marked "downloaded" or "failed" and the remote
    reports every tracked job completed with an output that can be
    fetched, failed or cancelled, one pass empties the tracking table and
    removes the tracking file, and the polling loop ends after that
    pass. *)
Theorem pass_sweeps_finished_jobs
    (rm : remote) (date : pystr) (w : world)
    (Hlogin : openai_login rm = Ok tt)
    (Hrecords : rows (loaded (tracking w)) <> [])
    (Hfinished : forall r, In r (rows (loaded (tracking w))) ->
       ~ In (status r) [u "downloaded"; u "failed"]
       /\ exists info,
            batches_retrieve rm (batch_id r) = Ok info
            /\ ((info_status info = u "completed"
                 /\ exists art, files_content rm (output_file_id info) = Ok art)
                \/ info_status info = u "failed"
                \/ info_status info = u "cancelled")) :
  tracking (check_and_download_pending_batches rm date w) = Missing
  /\ forall fuel remotes dates pass,
       remotes pass = rm -> dates pass = date ->
       polling_loop (S fuel) remotes dates pass w
       = Some (check_and_download_pending_batches rm date w).
Proof.
  assert (Hgone : forall row w0,
            In row (rows (loaded (tracking w))) ->
            forall r, In r (rows (loaded (tracking (reconcile_record rm date row w0)))) ->
                      batch_id r <> batch_id row).
  { intros row w0 Hin. destruct (Hfinished row Hin) as (_ & info & Hq & Hcase).
    destruct Hcase as [(Hc & art & Hf)|Hfail].
    - by apply (reconcile_record_completed rm date row info art w0).
    - by apply (reconcile_record_failed rm date row info w0). }
  assert (Hempty : rows (loaded (tracking
             (reconcile_all rm date (pending_batches (loaded (tracking w))) w))) = []).
  { destruct (rows (loaded (tracking (reconcile_all rm date _ w)))) as [|r' rs] eqn:Hrows;
      [done|]. exfalso.
    assert (In r' (rows (loaded (tracking
              (reconcile_all rm date (pending_batches (loaded (tracking w))) w)))))
      as Hr' by (rewrite Hrows; by left).
    destruct (reconcile_all_no_new_jobs rm date _ w r' Hr') as (r & Hr & Hid).
    assert (In r (pending_batches (loaded (tracking w)))) as Hpending.
    { apply pending_batches_spec. split; [done|]. by apply Hfinished. }
    apply in_split in Hpending as (l1 & l2 & Hsplit). rewrite Hsplit in Hr'.
    change (l1 ++ r :: l2) with (l1 ++ [r] ++ l2) in Hr'.
    rewrite !reconcile_all_app in Hr'.
    destruct (reconcile_all_no_new_jobs rm date l2 _ r' Hr') as (r1 & Hr1 & Hid1).
    apply (Hgone r (reconcile_all rm date l1 w) Hr r1 Hr1). congruence. }
  assert (Hmissing : tracking (check_and_download_pending_batches rm date w) = Missing).
  { rewrite pass_unfold by done. cbv zeta. simpl.
    unfold cleanup_empty_tracking_file. rewrite Hempty.
    destruct (exists_file _) eqn:Hex; [done|]. simpl.
    by destruct (tracking (reconcile_all rm date _ w)). }
  split; [exact Hmissing|].
  intros fuel remotes dates pass Hrm Hdate. cbn [polling_loop].
  rewrite Hrm, Hdate. by rewrite Hmissing.
Qed.

Lemma pass_sweeps_finished_jobs_witness :
  tracking (check_and_download_pending_batches remote_failed sample_date padded_world)
  = Missing.
Proof.
  refine (proj1 (pass_sweeps_finished_jobs remote_failed sample_date padded_world _ _ _)).
  - reflexivity.
  - discriminate.
  - intros r Hr. split.
    + destruct Hr as [<-|[<-|[]]]; vm_compute; intros [H|[H|[]]]; discriminate.
    + exists failed_info. split; [reflexivity|]. right. by left.
Defined.

(** * Further properties of the three registries *)

Import FailedGenerate.

Lemma filter_not_in (e : pystr) (l : list pystr) :
  ~ In e l -> List.filter (fun x => negb (str_eqb x e)) l = l.
Proof.
  induction l as [|x l IH]; intros Hnot; [done|]. simpl.
  assert (str_eqb x e = false) as ->.
  { apply str_eqb_false. intros ->. apply Hnot. by left. }
  simpl. f_equal. apply IH. intros Hin. apply Hnot. by right.
Qed.

Lemma filter_valid (p : pystr -> bool) (text : pystr) :
  Forall (fun e => valid_line e = true) (List.filter p (stripped_lines text)).
Proof.
  apply List.Forall_forall. intros y [Hy _]%filter_In.
  pose proof (stripped_lines_valid text) as Hall.
  rewrite List.Forall_forall in Hall. by apply Hall.
Qed.

(** X9: [remove_experiment_from_failed_list] leaves the other names of
    the registry, in their order, whatever text the file held; the file
    is deleted exactly when no other name is left. *)
Theorem remove_experiment_keeps_other_names (e : pystr) (reg : registry) :
  get_failed_experiments_list (remove_experiment_from_failed_list e reg)
  = List.filter (fun x => negb (str_eqb x e)) (get_failed_experiments_list reg)
  /\ (remove_experiment_from_failed_list e reg = None
      <-> List.filter (fun x => negb (str_eqb x e)) (get_failed_experiments_list reg) = []).
Proof.
  destruct reg as [text|]; simpl; [|done].
  destruct (List.filter _ (stripped_lines text)) as [|x l] eqn:Hf; simpl; [done|].
  split; [|done]. rewrite <- Hf. apply stripped_lines_write_lines, filter_valid.
Qed.

(** X10: for a name that is a registry line and an execute-stage
    registry as the program writes it, adding the name keeps every name
    that was there, adding it twice is adding it once, and removing a name
    that was added to a registry that did not hold it gives back the names
    the registry had. *)
Theorem add_then_remove_failed_experiment (e : pystr) (reg : registry)
    (Hname : valid_line e = true) (Hregistry : wf_registry reg) :
  (forall x, In x (get_failed_experiments_list reg) ->
             In x (get_failed_experiments_list (add_failed_experiment_to_list e reg)))
  /\ add_failed_experiment_to_list e (add_failed_experiment_to_list e reg)
     = add_failed_experiment_to_list e reg
  /\ (~ In e (get_failed_experiments_list reg) ->
      get_failed_experiments_list
        (remove_experiment_from_failed_list e (add_failed_experiment_to_list e reg))
      = get_failed_experiments_list reg).
Proof.
  pose proof (add_failed_experiment_lines e reg Hname Hregistry) as Hlines.
  split; [|split].
  - intros x Hx. rewrite Hlines. destruct (bool_decide _); [done|].
    apply in_or_app. by left.
  - assert (e ∈ get_failed_experiments_list (add_failed_experiment_to_list e reg)) as Hin.
    { rewrite Hlines. case_bool_decide as Hd; [done|]. set_solver. }
    unfold add_failed_experiment_to_list at 1.
    destruct (add_failed_experiment_to_list e reg) as [text|] eqn:Hadd; simpl in *.
    + rewrite bool_decide_eq_false_2; [done|]. rewrite elem_of_list_to_set. tauto.
    + set_solver.
  - intros Hnot.
    destruct (remove_experiment_keeps_other_names e (add_failed_experiment_to_list e reg))
      as [-> _].
    rewrite Hlines, bool_decide_eq_false_2 by (by rewrite list_elem_of_In).
    rewrite List.filter_app. simpl. rewrite str_eqb_refl. simpl.
    rewrite app_nil_r. by apply filter_not_in.
Qed.

Lemma add_then_remove_failed_experiment_witness :
  get_failed_experiments_list
    (remove_experiment_from_failed_list (u "exp2")
       (add_failed_experiment_to_list (u "exp2") (failed_execute sample_world)))
  = get_failed_experiments_list (failed_execute sample_world).
Proof.
  refine (proj2 (proj2 (add_then_remove_failed_experiment (u "exp2")
                          (failed_execute sample_world) _ _)) _).
  - vm_compute. reflexivity.
  - split; [reflexivity|]. vm_compute. repeat constructor. intros [].
  - vm_compute. intros [H|[]]. discriminate.
Defined.

(** X11: the registry of the results stage is written anew at each
    insertion, so for a name that is a registry line, whatever text the
    file held before: the name is appended to the names read when it is
    not among them, the file is left as it is when it is, the names stay
    without repetition when they were, and removing a name just added to a
    registry that did not hold it gives back the names the registry
    had. *)
Theorem add_failed_experiment_records_once (e : pystr) (reg : option pystr)
    (Hname : valid_line e = true) :
  get_failed_experiments (add_failed_experiment e reg)
  = (if bool_decide (e ∈ get_failed_experiments reg)
     then get_failed_experiments reg
     else get_failed_experiments reg ++ [e])
  /\ (e ∈ get_failed_experiments reg -> add_failed_experiment e reg = reg)
  /\ (List.NoDup (get_failed_experiments reg) ->
      List.NoDup (get_failed_experiments (add_failed_experiment e reg)))
  /\ (~ In e (get_failed_experiments reg) ->
      get_failed_experiments (remove_failed_experiment e (add_failed_experiment e reg))
      = get_failed_experiments reg).
Proof.
  assert (Hread : forall l, Forall (fun x => valid_line x = true) l ->
                            get_failed_experiments (Some (FailedExecute.write_lines l)) = l).
  { intros l Hl. simpl. by apply stripped_lines_write_lines. }
  assert (Hvalid : Forall (fun x => valid_line x = true) (get_failed_experiments reg ++ [e])).
  { apply Forall_app. split; [|by constructor].
    destruct reg; [apply stripped_lines_valid|constructor]. }
  assert (Hget : get_failed_experiments (add_failed_experiment e reg)
                 = (if bool_decide (e ∈ get_failed_experiments reg)
                    then get_failed_experiments reg
                    else get_failed_experiments reg ++ [e])).
  { unfold add_failed_experiment.
    change (match reg with Some text => stripped_lines text | None => [] end)
      with (get_failed_experiments reg).
    destruct (bool_decide (e ∈ get_failed_experiments reg)); simpl; [done|].
    by apply stripped_lines_write_lines. }
  split; [exact Hget|]. split; [|split].
  - intros Hin. unfold add_failed_experiment.
    change (match reg with Some text => stripped_lines text | None => [] end)
      with (get_failed_experiments reg).
    by rewrite bool_decide_eq_true_2.
  - intros Hnd. rewrite Hget. case_bool_decide as Hin; [done|].
    apply NoDup_ListNoDup, NoDup_app. split; [by apply NoDup_ListNoDup|].
    split; [|apply NoDup_singleton]. intros x Hx ->%list_elem_of_singleton. done.
  - intros Hnot.
    assert (forall r, get_failed_experiments (remove_failed_experiment e r)
                      = List.filter (fun x => negb (str_eqb x e)) (get_failed_experiments r))
      as Hremove.
    { intros [text|]; simpl; [|done].
      destruct (List.filter _ (stripped_lines text)) as [|x l] eqn:Hf; simpl; [done|].
      rewrite <- Hf. apply stripped_lines_write_lines, filter_valid. }
    rewrite Hremove, Hget, bool_decide_eq_false_2 by (by rewrite list_elem_of_In).
    rewrite List.filter_app. simpl. rewrite str_eqb_refl. simpl.
    rewrite app_nil_r. by apply filter_not_in.
Qed.

Lemma add_failed_experiment_records_once_witness :
  get_failed_experiments (add_failed_experiment (u "exp2") (Some (u "exp1")))
  = [u "exp1"; u "exp2"].
Proof.
  rewrite (proj1 (add_failed_experiment_records_once (u "exp2") (Some (u "exp1")) eq_refl)).
  vm_compute. reflexivity.
Defined.

Lemma list_remove_last (e : pystr) (l : list pystr) :
  ~ In e l -> list_remove e (l ++ [e]) = l.
Proof.
  induction l as [|x l IH]; intros Hnot; simpl.
  - by rewrite str_eqb_refl.
  - assert (str_eqb x e = false) as ->.
    { apply str_eqb_false. intros ->. apply Hnot. by left. }
    f_equal. apply IH. intros Hin. apply Hnot. by right.
Qed.

Lemma list_remove_absent (e : pystr) (l : list pystr) :
  ~ In e l -> list_remove e l = l.
Proof.
  induction l as [|x l IH]; intros Hnot; [done|]. simpl.
  assert (str_eqb x e = false) as ->.
  { apply str_eqb_false. intros ->. apply Hnot. by left. }
  f_equal. apply IH. intros Hin. apply Hnot. by right.
Qed.



(** * Further properties of the prepare stage *)

Import Prepare.

Lemma batch_names_NoDup (experiment date : pystr) (n : nat) :
  List.NoDup (List.map (fun k => batch_name experiment k date) (seq 0 n)).
Proof.
  apply Finite.Injective_map_NoDup; [|apply seq_NoDup].
  intros i j Heq. by apply batch_name_inj in Heq.
Qed.

(** X13: for every positive chunk size, [create_batch_files] writes as
    many files as the tasks need chunks — none for no task — under names
    that differ; every file it writes holds at least one task and at most
    a chunk, the files read back in order concatenate to the tasks, and
    every other file of the folder is as it was.  A chunk size of zero
    raises [ValueError] (from [range]) before anything is written. *)
Theorem create_batch_files_any_chunk_size
    (date experiment : pystr) (tasks : list task) (chunk_size : nat)
    (dir : gmap pystr (list task)) (Hsize : (0 < chunk_size)%nat) :
  create_batch_files date tasks experiment 0 dir = Raise ValueError
  /\ exists names dir',
    create_batch_files date tasks experiment chunk_size dir = Ok (names, dir')
    /\ List.length names = ((List.length tasks + chunk_size - 1) / chunk_size)%nat
    /\ (names = [] <-> tasks = [])
    /\ List.NoDup names
    /\ (forall name, In name names ->
          exists chunk, dir' !! name = Some chunk /\ chunk <> []
                        /\ (List.length chunk <= chunk_size)%nat)
    /\ (forall name, ~ In name names -> dir' !! name = dir !! name)
    /\ List.concat (List.map (fun name => default [] (dir' !! name)) names) = tasks.
Proof.
  split; [done|].
  unfold create_batch_files. destruct chunk_size as [|cs']; [lia|].
  set (cs := S cs') in *.
  pose proof (write_chunks_names experiment date 0 (task_chunks tasks cs) dir) as Hnames.
  pose proof (write_chunks_lookup experiment date 0 (task_chunks tasks cs) dir) as Hlookup.
  pose proof (write_chunks_other experiment date 0 (task_chunks tasks cs) dir) as Hother.
  destruct (write_chunks experiment date 0 (task_chunks tasks cs) dir) as [names dir'].
  simpl in Hnames, Hlookup, Hother.
  assert (List.length names = List.length (task_chunks tasks cs)) as Hlen.
  { by rewrite Hnames, length_map, length_seq. }
  exists names, dir'. split; [done|].
  split; [by rewrite Hlen, task_chunks_length|]. split; [|split; [|split; [|split]]].
  - rewrite <- !length_zero_iff_nil, Hlen, task_chunks_length.
    pose proof (Nat.div_mod_eq (List.length tasks + cs - 1) cs) as Hdm.
    pose proof (Nat.mod_upper_bound (List.length tasks + cs - 1) cs) as Hmod.
    split; intros H0.
    + rewrite H0 in Hdm. lia.
    + rewrite H0. replace (0 + cs - 1)%nat with cs' by lia.
      apply Nat.div_small. lia.
  - rewrite Hnames. apply batch_names_NoDup.
  - intros name Hin. rewrite Hnames in Hin.
    apply in_map_iff in Hin as (i & <- & Hi%in_seq).
    exists (nth i (task_chunks tasks cs) []). split; [apply Hlookup; lia|].
    rewrite task_chunks_nth by lia.
    assert (i < (List.length tasks + cs - 1) / cs)%nat as Hi'
      by (rewrite <- task_chunks_length; lia).
    pose proof (chunk_count_last (List.length tasks) cs i Hsize Hi') as Hlast.
    split.
    + intros Hnil. apply (f_equal (@List.length task)) in Hnil.
      rewrite slice_length in Hnil. simpl in Hnil. lia.
    + rewrite slice_length. lia.
  - intros name Hnot. apply Hother. intros k Hk Heq. apply Hnot.
    rewrite Hnames. apply in_map_iff. exists k. split; [done|].
    apply in_seq. lia.
  - transitivity (List.concat (task_chunks tasks cs));
      [|by apply task_chunks_concat].
    f_equal. rewrite Hnames, List.map_map.
    apply nth_ext with (d := []) (d' := []).
    + by rewrite !length_map, length_seq.
    + intros i. rewrite length_map, length_seq. intros Hi.
      set (f := fun k => default [] (dir' !! batch_name experiment k date)).
      rewrite (nth_indep _ [] (f 0%nat)) by (by rewrite length_map, length_seq).
      rewrite (List.map_nth f), seq_nth by done. subst f. simpl.
      by rewrite Hlookup.
Qed.

Lemma create_batch_files_any_chunk_size_witness :
  exists names dir',
    create_batch_files sample_date
      (tasks_loop (u "exp1") (u "gpt-4o-mini") expression_template (u "[x]") 1
                  [u "a"; u "b"; u "c"])
      (u "exp1") 2 ∅ = Ok (names, dir')
    /\ List.length names = 2%nat.
Proof.
  destruct (create_batch_files_any_chunk_size sample_date (u "exp1")
              (tasks_loop (u "exp1") (u "gpt-4o-mini") expression_template (u "[x]") 1
                          [u "a"; u "b"; u "c"])
              2 ∅ ltac:(lia)) as (_ & names & dir' & Hok & Hlen & _).
  exists names, dir'. split; [exact Hok|]. exact Hlen.
Defined.

Lemma tasks_loop_ids experiment model_name prompt_template prompt_key counter words :
  List.map custom_id
    (tasks_loop experiment model_name prompt_template prompt_key counter words)
  = List.map (fun i => experiment ++ u "_task_" ++ str_of_nat (counter + i))
             (seq 0 (List.length words)).
Proof.
  revert counter. induction words as [|w words IH]; intros counter; [done|].
  cbn [tasks_loop List.map List.length seq]. rewrite IH. f_equal.
  - cbn [make_task custom_id]. by rewrite Nat.add_0_r.
  - rewrite <- seq_shift, List.map_map. apply List.map_ext. intros i.
    by rewrite Nat.add_succ_r.
Qed.

Lemma tasks_loop_models experiment model_name prompt_template prompt_key counter words t :
  In t (tasks_loop experiment model_name prompt_template prompt_key counter words) ->
  model (task_body t) = model_name /\ method t = u "POST"
  /\ url t = u "/v1/chat/completions".
Proof.
  revert counter. induction words as [|w words IH]; intros counter; [done|].
  intros [<-|Hin]; [done|]. by apply (IH (S counter)).
Qed.

(** X14: when [create_openai_tasks] returns, there is one task per word,
    in the order of the words; the task of the word at position [k]
    (from 0) is named [<experiment>_task_<k+1>], so no two tasks of an
    experiment bear the same [custom_id]; and every task asks the model
    of the configuration, [gpt-4o-mini] when it names none. *)
Theorem task_ids_are_distinct (env : prep_env) (words : list pystr) (cfg : config)
    (experiment : pystr) (tasks : list task)
    (Hcreated : create_openai_tasks env words cfg experiment = Ok tasks) :
  List.map custom_id tasks
  = List.map (fun k => experiment ++ u "_task_" ++ str_of_nat (S k))
             (seq 0 (List.length words))
  /\ List.NoDup (List.map custom_id tasks)
  /\ (forall t, In t tasks ->
        model (task_body t) = default (u "gpt-4o-mini") (cfg !! u "model_name")).
Proof.
  unfold create_openai_tasks in Hcreated.
  destruct (default [] (cfg !! u "prompt")) as [|c prompt_file]; [done|].
  destruct (load_prompt_from_file env (c :: prompt_file)) as [template|]; [|done].
  cbn [bind] in Hcreated. injection Hcreated as <-.
  rewrite tasks_loop_ids. split; [done|]. split.
  - apply Finite.Injective_map_NoDup; [|apply seq_NoDup].
    intros i j Heq. apply app_inv_head in Heq. apply app_inv_head in Heq.
    apply str_of_nat_inj in Heq. lia.
  - intros t Hin. by apply tasks_loop_models in Hin as [-> _].
Qed.

Lemma task_ids_are_distinct_witness :
  exists tasks,
    create_openai_tasks sample_env [u "a"; u "b"] (config_with_prompt (u "expression.txt"))
                        (u "exp1") = Ok tasks
    /\ List.NoDup (List.map custom_id tasks).
Proof.
  eexists. split; [vm_compute; reflexivity|].
  refine (proj1 (proj2 (task_ids_are_distinct sample_env [u "a"; u "b"]
                          (config_with_prompt (u "expression.txt")) (u "exp1") _ _))).
  vm_compute. reflexivity.
Defined.

Lemma occurs_head (c : N) (key s : pystr) :
  occurs (c :: key) s = true -> In c s.
Proof.
  induction s as [|a s IH]; [by cbn|]. cbn [occurs startswith].
  intros [Hhere|Hlater]%orb_true_iff.
  - destruct (c =? a) eqn:Hac; [|done]. apply N.eqb_eq in Hac. by left.
  - right. by apply IH.
Qed.

(** X15: a template that holds no opening bracket has no placeholder; when
    the configuration names no [prompt_key] either, the default key is
    looked for, which the template cannot hold, so every task carries the
    template as it is: the words of the list are inserted nowhere and no
    error is raised. *)
Theorem template_without_placeholder_is_sent_verbatim
    (env : prep_env) (words : list pystr) (cfg : config) (experiment : pystr)
    (prompt_file template : pystr)
    (Hfile : cfg !! u "prompt" = Some prompt_file)
    (Hnamed : prompt_file <> [])
    (Hprompt : load_prompt_from_file env prompt_file = Ok template)
    (Hbracket : ~ In 91%N template)
    (Hkey : cfg !! u "prompt_key" = None) :
  exists tasks,
    create_openai_tasks env words cfg experiment = Ok tasks
    /\ List.map prompts_of tasks = List.map (fun _ => [template]) words.
Proof.
  unfold create_openai_tasks. rewrite Hfile. cbn [default from_option].
  destruct prompt_file as [|c prompt_file]; [done|].
  cbn [id]. rewrite Hprompt. cbn [bind]. eexists. split; [reflexivity|].
  rewrite tasks_loop_prompts. apply List.map_ext. intros w. f_equal.
  unfold find_prompt_key.
  destruct (search placeholder_pattern template) as [m|] eqn:Hsearch.
  - apply search_placeholder_spec in Hsearch as (pre & g & post & -> & _).
    exfalso. apply Hbracket. apply in_or_app. right. by left.
  - rewrite Hkey. cbn [default from_option id]. unfold replace, default_prompt_key.
    cbn [u app]. apply replace_go_absent.
    destruct (occurs _ template) eqn:Hocc; [|done].
    exfalso. apply Hbracket. by apply occurs_head in Hocc.
Qed.

Lemma template_without_placeholder_is_sent_verbatim_witness :
  exists tasks,
    create_openai_tasks plain_env [u "correr"; u "casa"]
                        (config_with_prompt (u "plain.txt")) (u "exp1") = Ok tasks
    /\ List.map prompts_of tasks = [[plain_template]; [plain_template]].
Proof.
  apply (template_without_placeholder_is_sent_verbatim plain_env [u "correr"; u "casa"]
           (config_with_prompt (u "plain.txt")) (u "exp1") (u "plain.txt") plain_template).
  - vm_compute. reflexivity.
  - discriminate.
  - vm_compute. reflexivity.
  - vm_compute. intros H. repeat (destruct H as [H|H]; [discriminate H|]). exact H.
  - vm_compute. reflexivity.
Defined.

Lemma task_chunks_nil_iff (tasks : list task) (cs : nat) :
  (0 < cs)%nat -> task_chunks tasks cs = [] <-> tasks = [].
Proof.
  intros Hcs. rewrite <- !length_zero_iff_nil, task_chunks_length.
  pose proof (Nat.div_mod_eq (List.length tasks + cs - 1) cs) as Hdm.
  pose proof (Nat.mod_upper_bound (List.length tasks + cs - 1) cs) as Hmod.
  split; intros H0.
  - rewrite H0 in Hdm. lia.
  - rewrite H0. apply Nat.div_small. lia.
Qed.

Lemma tasks_loop_nil_iff experiment model_name prompt_template prompt_key counter words :
  tasks_loop experiment model_name prompt_template prompt_key counter words = []
  <-> words = [].
Proof. by destruct words. Qed.

Lemma required_fields_present (cfg : config) :
  List.filter (fun field => negb (bool_decide (is_Some (cfg !! field)))) required_fields = []
  <-> is_Some (cfg !! u "dataset_name") /\ is_Some (cfg !! u "prompt")
      /\ is_Some (cfg !! u "model_name").
Proof.
  unfold required_fields. cbn [List.filter].
  repeat case_bool_decide; cbn [negb]; split; try done; try tauto;
    intros (? & ? & ?); tauto.
Qed.

(** X16: [process_experiment] answers [True] exactly when the
    configuration has the three required fields, the prompt file is named
    and holds more than white space, and the dataset gives at least one
    word: a dataset whose column is empty (or holds only missing values)
    makes the experiment fail although nothing raised.  When the answer is
    [False], the batches folder is as it was. *)
Theorem process_experiment_succeeds_iff (env : prep_env) (experiment : pystr)
    (cfg : config) (st : prep_state) :
  (fst (process_experiment env experiment cfg st) = true
   <-> exists dataset prompt_file words template,
         cfg !! u "dataset_name" = Some dataset
         /\ cfg !! u "prompt" = Some prompt_file
         /\ is_Some (cfg !! u "model_name")
         /\ prompt_file <> []
         /\ load_word_list env dataset (default (u "expression") (cfg !! u "dataset_column"))
            = Ok words
         /\ words <> []
         /\ load_prompt_from_file env prompt_file = Ok template)
  /\ (fst (process_experiment env experiment cfg st) = false ->
      batches (snd (process_experiment env experiment cfg st)) = batches st).
Proof.
  rewrite process_experiment_unfold. unfold prepared_tasks.
  pose proof (required_fields_present cfg) as Hfields.
  pose proof default_chunk_size_pos as Hpos.
  destruct (List.filter _ required_fields) as [|f fs].
  - destruct (proj1 Hfields eq_refl) as ([dataset Hd] & [prompt_file Hp] & Hm).
    rewrite Hd.
    destruct (load_word_list env dataset _) as [words|e] eqn:Hwords; cbn [bind].
    + unfold create_openai_tasks. rewrite Hp. cbn [default from_option id].
      destruct prompt_file as [|c prompt_file].
      * split; [|done]. split; [done|].
        intros (d' & p' & w' & t' & Hd' & Hp' & _ & Hne & Hw & Hnew & Ht).
        simplify_eq; congruence.
      * destruct (load_prompt_from_file env (c :: prompt_file)) as [template|e] eqn:Hprompt;
          cbn [bind].
        -- pose proof (task_chunks_nil_iff
                         (tasks_loop experiment (default (u "gpt-4o-mini") (cfg !! u "model_name"))
                            template (find_prompt_key cfg template) 1 words)
                         default_chunk_size Hpos) as Hnil.
           rewrite tasks_loop_nil_iff in Hnil.
           destruct (task_chunks _ default_chunk_size) as [|chunk rest] eqn:Hchunks.
           ++ split.
              ** split; [done|].
                 intros (d' & p' & w' & t' & Hd' & Hp' & _ & Hne & Hw & Hnew & Ht).
                 simplify_eq. rewrite Hwords in Hw. simplify_eq.
                 exfalso. apply Hnew. by apply Hnil.
              ** intros _. unfold state_after_write. cbn [batches snd].
                 by rewrite Hchunks.
           ++ split; [|done]. split; [|done]. intros _.
              exists dataset, (c :: prompt_file), words, template.
              repeat split; try done. intros Hw. by apply Hnil in Hw.
        -- split; [|done]. split; [done|].
           intros (d' & p' & w' & t' & Hd' & Hp' & _ & Hne & Hw & Hnew & Ht).
           simplify_eq; congruence.
    + split; [|done]. split; [done|].
      intros (d' & p' & w' & t' & Hd' & Hp' & _ & Hne & Hw & Hnew & Ht).
      simplify_eq; congruence.
  - split; [|done]. split; [done|].
    intros (d' & p' & w' & t' & Hd & Hp & Hm & _).
    assert (f :: fs = []) as Hnil; [|done].
    apply Hfields. rewrite Hd, Hp. done.
Qed.

Import PrepareMain.

(** X17: the order of a run over "all": when the registry names no
    experiment twice, no experiment is processed twice; the names of the
    registry come first, in their order, then the other configured names in
    the order of the configuration; and when every name of the registry is
    configured, the order is a rearrangement of the configured names. *)
Theorem execution_order_runs_each_once (failed_experiments config_keys : list pystr)
    (Hfailed : List.NoDup failed_experiments) (Hkeys : List.NoDup config_keys) :
  List.NoDup (execution_order failed_experiments config_keys)
  /\ firstn (List.length failed_experiments) (execution_order failed_experiments config_keys)
     = failed_experiments
  /\ (forall n, In n (execution_order failed_experiments config_keys)
                <-> In n failed_experiments \/ In n config_keys)
  /\ (incl failed_experiments config_keys ->
      Permutation (execution_order failed_experiments config_keys) config_keys).
Proof.
  assert (Hin : forall n, In n (execution_order failed_experiments config_keys)
                          <-> In n failed_experiments \/ In n config_keys).
  { intros n. unfold execution_order. rewrite in_app_iff, filter_In.
    split; [tauto|]. intros [Hf|Hk]; [by left|].
    destruct (decide (n ∈ failed_experiments)) as [Hd|Hd].
    - left. by apply list_elem_of_In.
    - right. split; [done|]. by rewrite bool_decide_eq_false_2. }
  assert (Hnd : List.NoDup (execution_order failed_experiments config_keys)).
  { unfold execution_order. apply NoDup_ListNoDup, NoDup_app.
    split; [by apply NoDup_ListNoDup|]. split.
    - intros n Hn [_ Hf]%list_elem_of_In%filter_In.
      rewrite bool_decide_eq_true_2 in Hf; done.
    - apply NoDup_ListNoDup, List.NoDup_filter, Hkeys. }
  split; [exact Hnd|]. split; [|split; [exact Hin|]].
  - unfold execution_order. by rewrite firstn_app, Nat.sub_diag, firstn_all, app_nil_r.
  - intros Hincl. apply NoDup_Permutation; [by apply NoDup_ListNoDup..|].
    intros n. rewrite !list_elem_of_In, Hin. split; [|tauto].
    intros [Hf|Hk]; [by apply Hincl|done].
Qed.

Lemma execution_order_runs_each_once_witness :
  execution_order [u "c"] [u "a"; u "b"; u "c"] = [u "c"; u "a"; u "b"]
  /\ Permutation (execution_order [u "c"] [u "a"; u "b"; u "c"]) [u "a"; u "b"; u "c"].
Proof.
  split; [vm_compute; reflexivity|].
  refine (proj2 (proj2 (proj2 (execution_order_runs_each_once
                                 [u "c"] [u "a"; u "b"; u "c"] _ _))) _).
  - repeat constructor. intros [].
  - repeat constructor; vm_compute; intros H;
      repeat (destruct H as [H|H]; [discriminate H|]); exact H.
  - intros n [<-|[]]. right. right. by left.
Defined.

(** * Further properties of the submission *)

Lemma contains_split (sep s : pystr) :
  contains sep s = true -> exists rest, s = before_first sep s ++ sep ++ rest.
Proof.
  induction s as [|c s IH]; cbn [contains before_first].
  - rewrite orb_false_r. intros Hs. rewrite Hs.
    apply startswith_spec in Hs as [x Hx]. by exists x.
  - destruct (startswith sep (c :: s)) eqn:Hs.
    + intros _. apply startswith_spec in Hs as [x Hx]. by exists x.
    + cbn [orb]. intros [rest Hrest]%IH. exists rest. cbn [app]. by f_equal.
Qed.

Lemma contains_app (a sep rest : pystr) : contains sep (a ++ sep ++ rest) = true.
Proof.
  induction a as [|c a IH].
  - cbn [app]. destruct (sep ++ rest) as [|c s] eqn:Hs.
    + destruct sep; [done|discriminate].
    + cbn [contains]. rewrite <- Hs, startswith_app. done.
  - cbn [app contains]. rewrite IH. apply orb_true_r.
Qed.

Lemma listdir_In (dir : gmap pystr bytes) (fname : pystr) :
  In fname (listdir dir) <-> is_Some (dir !! fname).
Proof.
  unfold listdir. rewrite <- list_elem_of_In, list_elem_of_fmap. split.
  - intros ([k v] & -> & Hkv%elem_of_map_to_list). by exists v.
  - intros [v Hv]. exists (fname, v). split; [done|]. by apply elem_of_map_to_list.
Qed.

Lemma prefixes_In (fs : file_system) (p : pystr) :
  In p (get_experiment_prefixes_from_batches fs)
  <-> exists fname, is_Some (batches_dir fs !! fname)
                    /\ contains (u "_prompt") fname = true
                    /\ p = before_first (u "_prompt") fname ++ u "_prompt".
Proof.
  unfold get_experiment_prefixes_from_batches.
  rewrite <- list_elem_of_In, elem_of_elements, elem_of_list_to_set, list_elem_of_In.
  rewrite in_map_iff. split.
  - intros (fname & <- & [Hin Hc]%filter_In). exists fname.
    by rewrite <- listdir_In.
  - intros (fname & Hsome & Hc & ->). exists fname. split; [done|].
    apply filter_In. by rewrite listdir_In.
Qed.

(** X18: the discovery of the experiments to submit.  The prefixes are
    without repetition; a name is a prefix exactly when some file of the
    batches folder has [_prompt] in its name and the prefix is that name
    up to and including its first [_prompt]; every such file is among the
    batches of its prefix, and the batches of a prefix all have [_prompt]
    in their name: a file without it is never submitted by a run over
    every experiment. *)
Theorem prefixes_cover_prompt_files (fs : file_system) :
  List.NoDup (get_experiment_prefixes_from_batches fs)
  /\ (forall p, In p (get_experiment_prefixes_from_batches fs)
        <-> exists fname, is_Some (batches_dir fs !! fname)
                          /\ contains (u "_prompt") fname = true
                          /\ p = before_first (u "_prompt") fname ++ u "_prompt")
  /\ (forall fname, is_Some (batches_dir fs !! fname) ->
        contains (u "_prompt") fname = true ->
        In (before_first (u "_prompt") fname ++ u "_prompt")
           (get_experiment_prefixes_from_batches fs)
        /\ In fname (get_batches_for_experiment
                       (before_first (u "_prompt") fname ++ u "_prompt") fs))
  /\ (forall p fname, In p (get_experiment_prefixes_from_batches fs) ->
        In fname (get_batches_for_experiment p fs) ->
        contains (u "_prompt") fname = true).
Proof.
  split; [|split; [apply prefixes_In|split]].
  - unfold get_experiment_prefixes_from_batches. apply NoDup_ListNoDup, NoDup_elements.
  - intros fname Hsome Hc. split.
    + apply prefixes_In. by exists fname.
    + unfold get_batches_for_experiment. apply filter_In. split; [by apply listdir_In|].
      apply startswith_spec. destruct (contains_split _ _ Hc) as [rest Hrest].
      exists rest. by rewrite <- app_assoc.
  - intros p fname (f0 & _ & _ & ->)%prefixes_In [_ Hstart]%filter_In.
    apply startswith_spec in Hstart as [x ->]. rewrite <- app_assoc.
    apply contains_app.
Qed.

Section Submit.
Variable md5 : bytes -> pystr.
Variable sub : submitter.
Variable fs : file_system.
Variable clock : nat -> pystr.

Lemma batch_file_hash (bf : pystr) :
  is_Some (batches_dir fs !! bf) -> exists h, get_file_hash md5 fs bf = Ok h.
Proof.
  intros [content Hc]. unfold get_file_hash.
  destruct (cwd_files fs !! bf); [by eexists|]. rewrite Hc. by eexists.
Qed.

Lemma batches_for_experiment_hash (prefix bf : pystr) :
  In bf (get_batches_for_experiment prefix fs) ->
  exists h, get_file_hash md5 fs bf = Ok h.
Proof.
  intros [Hin _]%filter_In. by apply batch_file_hash, listdir_In.
Qed.

Lemma send_batch_ok (prefix file_name : pystr) (st st' : exec_state) :
  send_batch md5 sub fs clock prefix file_name st = Ok st' ->
  exists r,
    rows (loaded (tracking (store st'))) = rows (loaded (tracking (store st))) ++ [r]
    /\ (fun r : tracking_record =>
         experiment_name r = prefix /\ status r = u "submitted"
         /\ In (batch_file r) [file_name]
         /\ get_file_hash md5 fs (batch_file r) = Ok (file_hash r)) r
    /\ failed_execute (store st') = failed_execute (store st)
    /\ results_dir (store st') = results_dir (store st).
Proof.
  unfold send_batch, add_batch_to_tracking.
  destruct (batches_dir fs !! file_name) as [content|]; [|done]. cbn [bind].
  destruct (files_create sub content) as [file_id|]; [|done]. cbn [bind].
  destruct (batches_create sub file_id) as [job_id|]; [|done]. cbn [bind].
  destruct (get_file_hash md5 fs file_name) as [h|] eqn:Hh; [|done]. cbn [bind].
  intros [= <-]. eexists. split; [reflexivity|].
  split; [|done]. repeat split; try done. by left.
Qed.

Lemma send_batches_spec (prefix : pystr) (files : list pystr) (processed : bool)
    (st : exec_state) :
  exists new,
    rows (loaded (tracking (store (send_batches md5 sub fs clock prefix files processed st).2)))
    = rows (loaded (tracking (store st))) ++ new
    /\ Forall (fun r : tracking_record =>
       experiment_name r = prefix /\ status r = u "submitted"
       /\ In (batch_file r) files
       /\ get_file_hash md5 fs (batch_file r) = Ok (file_hash r)) new
    /\ results_dir (store (send_batches md5 sub fs clock prefix files processed st).2)
       = results_dir (store st)
    /\ ((send_batches md5 sub fs clock prefix files processed st).1 = true
        <-> processed = true \/ new <> []).
Proof.
  revert processed st. induction files as [|f rest IH]; intros processed st.
  - exists []. cbn. rewrite app_nil_r. repeat split; try done.
    + by left.
    + by intros [?|?].
  - cbn [send_batches].
    destruct (send_batch md5 sub fs clock prefix f st) as [st1|e] eqn:Hsend.
    + destruct (send_batch_ok _ _ _ _ Hsend) as (r & Hrows & Hr & _ & Hres).
      destruct (IH true st1) as (new & Hrows' & Hnew & Hres' & Hflag).
      exists (r :: new). rewrite Hrows', Hrows, <- app_assoc. split; [done|].
      split; [|split].
      * constructor.
        -- destruct Hr as (He & Hs & [Hf|[]] & Hh).
           split; [exact He|]. split; [exact Hs|]. split; [by left|exact Hh].
        -- eapply Forall_impl; [exact Hnew|].
           intros x (? & ? & ? & ?). repeat split; try done. by right.
      * by rewrite Hres'.
      * rewrite Hflag. split; [by right|]. by left.
    + set (st1 := {| store := _; stamps := stamps st |}).
      destruct (IH processed st1) as (new & Hrows' & Hnew & Hres' & Hflag).
      exists new. split; [exact Hrows'|]. split; [|split; [exact Hres'|exact Hflag]].
      eapply Forall_impl; [exact Hnew|].
      intros x (? & ? & ? & ?). repeat split; try done. by right.
Qed.

Lemma get_batches_to_send_listed (prefix : pystr) (f : tracking_file) :
  get_batches_to_send md5 fs prefix (get_batches_for_experiment prefix fs) f
  = Ok (List.filter
          (fun bf => negb (is_tracked md5 fs (records_of prefix (loaded f)) bf))
          (get_batches_for_experiment prefix fs)).
Proof.
  unfold get_batches_to_send.
  rewrite batches_to_send_loop_filter; [done|].
  apply batches_for_experiment_hash.
Qed.


Lemma send_batches_down (prefix : pystr) (files : list pystr) (processed : bool)
    (st : exec_state) :
  (forall content, exists e, files_create sub content = Raise e) ->
  valid_line prefix = true -> wf_registry (failed_execute (store st)) ->
  (send_batches md5 sub fs clock prefix files processed st).1 = processed
  /\ tracking (store (send_batches md5 sub fs clock prefix files processed st).2)
     = tracking (store st)
  /\ stamps (send_batches md5 sub fs clock prefix files processed st).2 = stamps st
  /\ wf_registry
       (failed_execute (store (send_batches md5 sub fs clock prefix files processed st).2))
  /\ (files <> [] ->
      occurrences prefix
        (get_failed_experiments_list
           (failed_execute (store (send_batches md5 sub fs clock prefix files processed st).2)))
      = 1%nat)
  /\ (forall n, n <> prefix ->
      occurrences n
        (get_failed_experiments_list
           (failed_execute (store (send_batches md5 sub fs clock prefix files processed st).2)))
      = occurrences n (get_failed_experiments_list (failed_execute (store st)))).
Proof.
  intros Hdown Hvalid. revert st. induction files as [|f rest IH]; intros st Hwf.
  - cbn. repeat split; done.
  - cbn [send_batches].
    assert (exists e, send_batch md5 sub fs clock prefix f st = Raise e) as [e ->].
    { unfold send_batch. destruct (batches_dir fs !! f) as [content|]; [|by eexists].
      cbn [bind]. destruct (Hdown content) as [e ->]. by eexists. }
    set (st1 := {| store := _; stamps := stamps st |}).
    assert (failed_execute (store st1)
            = add_failed_experiment_to_list prefix (failed_execute (store st))) as Hreg
      by done.
    assert (wf_registry (failed_execute (store st1))) as Hwf1.
    { rewrite Hreg. by apply add_failed_experiment_wf. }
    destruct (IH st1 Hwf1) as (Hflag & Htrack & Hstamps & Hwf' & Honce & Hother).
    split; [exact Hflag|]. split; [by rewrite Htrack|]. split; [by rewrite Hstamps|].
    split; [exact Hwf'|]. split.
    + intros _. destruct rest as [|f' rest'].
      * cbn [send_batches snd]. rewrite Hreg. by apply add_failed_experiment_once.
      * by apply Honce.
    + intros n Hn. rewrite (Hother n Hn), Hreg.
      rewrite add_failed_experiment_lines by done.
      case_bool_decide; [done|]. rewrite occurrences_app. unfold occurrences at 2.
      cbn [List.filter]. rewrite (proj2 (str_eqb_false n prefix) Hn). cbn. lia.
Qed.

(** X20: when the service refuses every upload, the submission of an
    experiment that has a file to send tracks nothing and reads no clock,
    and — for a name that is a registry line and a registry as the program
    writes it — leaves the experiment in the registry of failures exactly
    once, however many of its files were refused; the other names of the
    registry are as often there as before. *)
Theorem refused_uploads_record_experiment_once (prefix : pystr) (st : exec_state)
    (f : pystr) (rest : list pystr)
    (Hdown : forall content, exists e, files_create sub content = Raise e)
    (Hname : valid_line prefix = true)
    (Hregistry : wf_registry (failed_execute (store st)))
    (Hto_send : get_batches_to_send md5 fs prefix (get_batches_for_experiment prefix fs)
                  (tracking (store st)) = Ok (f :: rest)) :
  exists st',
    submit_experiment md5 sub fs clock prefix st = Ok st'
    /\ tracking (store st') = tracking (store st)
    /\ stamps st' = stamps st
    /\ occurrences prefix (get_failed_experiments_list (failed_execute (store st'))) = 1%nat
    /\ (forall n, n <> prefix ->
          occurrences n (get_failed_experiments_list (failed_execute (store st')))
          = occurrences n (get_failed_experiments_list (failed_execute (store st)))).
Proof.
  unfold submit_experiment. rewrite Hto_send. cbn [bind].
  destruct (send_batches_down prefix (f :: rest) false st Hdown Hname Hregistry)
    as (Hflag & Htrack & Hstamps & _ & Honce & Hother).
  destruct (send_batches md5 sub fs clock prefix (f :: rest) false st)
    as [processed st1]. cbn [fst snd] in *. subst processed.
  exists st1. repeat split; try done. by apply Honce.
Qed.

Lemma filter_none {A : Type} (p : A -> bool) (l : list A) :
  (forall x, In x l -> p x = true) -> List.filter (fun x => negb (p x)) l = [].
Proof.
  induction l as [|x l IH]; intros Hall; [done|].
  cbn [List.filter]. rewrite Hall by (by left). cbn [negb].
  apply IH. intros y Hy. apply Hall. by right.
Qed.

Lemma is_tracked_more (existing more : list tracking_record) (bf : pystr) :
  is_tracked md5 fs existing bf = true ->
  is_tracked md5 fs (existing ++ more) bf = true.
Proof.
  rewrite !is_tracked_spec. intros (r & Hin & Hr). exists r. split; [|done].
  apply in_or_app. by left.
Qed.

Lemma send_batches_accepted (prefix : pystr) (files : list pystr) (processed : bool)
    (st : exec_state) :
  (forall content, exists file_id, files_create sub content = Ok file_id) ->
  (forall file_id, exists job_id, batches_create sub file_id = Ok job_id) ->
  (forall bf, In bf files -> is_Some (batches_dir fs !! bf)) ->
  forall bf, In bf files ->
    exists r, In r (rows (loaded (tracking
                (store (send_batches md5 sub fs clock prefix files processed st).2))))
              /\ experiment_name r = prefix /\ batch_file r = bf
              /\ get_file_hash md5 fs bf = Ok (file_hash r).
Proof.
  intros Hup Hjob. revert processed st.
  induction files as [|f rest IH]; intros processed st Hfiles bf Hin; [done|].
  cbn [send_batches].
  assert (exists st1, send_batch md5 sub fs clock prefix f st = Ok st1) as [st1 Hsend].
  { unfold send_batch, add_batch_to_tracking.
    destruct (Hfiles f (or_introl eq_refl)) as [content Hc]. rewrite Hc. cbn [bind].
    destruct (Hup content) as [file_id ->]. cbn [bind].
    destruct (Hjob file_id) as [job_id ->]. cbn [bind].
    destruct (batch_file_hash f (Hfiles f (or_introl eq_refl))) as [h ->].
    cbn [bind]. by eexists. }
  rewrite Hsend.
  destruct Hin as [<-|Hin].
  - destruct (send_batch_ok _ _ _ _ Hsend) as (r & Hrows & (He & _ & [Hf|[]] & Hh) & _).
    destruct (send_batches_spec prefix rest true st1) as (new & Hrows' & _).
    exists r. rewrite Hrows', Hrows. split.
    + apply in_or_app. left. apply in_or_app. right. by left.
    + subst f. done.
  - apply IH; [|done]. intros bf' Hbf'. apply Hfiles. by right.
Qed.


End Submit.

Lemma refused_uploads_record_experiment_once_witness :
  exists st',
    submit_experiment sample_md5 service_down dedup_fs sample_clock (u "e") fresh_exec
    = Ok st'
    /\ tracking (store st') = Missing
    /\ occurrences (u "e") (get_failed_experiments_list (failed_execute (store st')))
       = 1%nat.
Proof.
  edestruct (refused_uploads_record_experiment_once sample_md5 service_down dedup_fs
               sample_clock (u "e") fresh_exec)
    as (st' & Hok & Htrack & _ & Honce & _).
  - intros content. by exists RemoteError.
  - reflexivity.
  - exact I.
  - cbv. reflexivity.
  - exists st'. split; [exact Hok|]. split; [exact Htrack|exact Honce].
Defined.


(** * Further properties of the extraction of the word *)

Import Regex.

Lemma literal_full_stop (c : N) : literal_ignorecase 46 c = (c =? 46).
Proof.
  unfold literal_ignorecase. change (lower 46) with 46%N. unfold lower.
  change ((46 =? 105) && ((c =? 304) || (c =? 305))) with false.
  change ((46 =? 115) && (c =? 383)) with false.
  change ((46 =? 107) && (c =? 8490)) with false.
  rewrite !orb_false_r.
  destruct (N.leb_spec 65 c), (N.leb_spec c 90), (N.leb_spec 192 c),
    (N.leb_spec c 222), (N.eqb_spec c 215); cbn [andb negb];
    destruct (N.eqb_spec c 46); try lia;
    try (apply N.eqb_neq; lia); try (apply N.eqb_eq; lia).
Qed.

Lemma run_literals (lits pre : pystr) (its : list item) (s : pystr) (st : mstate) :
  List.map lower pre = List.map lower lits ->
  run (List.map (fun l => One (literal_ignorecase l)) lits ++ its) (pre ++ s) st
  = run its s {| pos := pos st + List.length pre; group_start := group_start st;
                 group_end := group_end st |}.
Proof.
  revert pre st. induction lits as [|l lits IH]; intros pre st Hsame.
  - destruct pre; [|done]. cbn [List.map app List.length]. f_equal.
    apply mstate_ext; cbn; lia.
  - destruct pre as [|c pre]; [done|]. injection Hsame as Hc Hrest.
    cbn [List.map app run one]. unfold literal_ignorecase at 1.
    rewrite Hc, N.eqb_refl. cbn [orb]. rewrite IH by done. f_equal.
    apply mstate_ext; cbn; lia.
Qed.

Lemma star_greedy_all (p : N -> bool) (k : cont) (ws s : pystr) (st : mstate)
    (r : mstate) :
  forallb p ws = true ->
  match s with c :: _ => p c = false | [] => True end ->
  k s {| pos := pos st + List.length ws; group_start := group_start st;
         group_end := group_end st |} = Some r ->
  star_greedy p k (ws ++ s) st = Some r.
Proof.
  intros Hws Hhead. revert st. induction ws as [|c ws IH]; intros st Hk.
  - cbn [app]. replace st with {| pos := pos st + 0; group_start := group_start st;
                                  group_end := group_end st |}
      by (apply mstate_ext; cbn; lia).
    cbn [List.length] in Hk. cbn [pos group_start group_end].
    destruct s as [|c s]; cbn [star_greedy]; [exact Hk|]. by rewrite Hhead.
  - cbn [forallb] in Hws. apply andb_true_iff in Hws as [Hc Hws].
    cbn [app star_greedy]. rewrite Hc. rewrite (IH Hws (advance st)); [done|].
    rewrite <- Hk. f_equal. apply mstate_ext; cbn; lia.
Qed.

Lemma star_lazy_to_full_stop (g rest : pystr) (st : mstate) :
  forallb (fun c => negb (c =? 46) && negb (c =? 10)) g = true ->
  star_lazy dot (run [GroupClose; One (literal_ignorecase 46)]) (g ++ 46 :: rest) st
  = Some {| pos := pos st + List.length g + 1; group_start := group_start st;
            group_end := pos st + List.length g |}.
Proof.
  revert st. induction g as [|c g IH]; intros st Hg.
  - cbn. mstate_eq.
  - cbn [forallb] in Hg. apply andb_true_iff in Hg as [Hc Hg].
    apply andb_true_iff in Hc as [Hstop Hline].
    cbn [app star_lazy run one]. rewrite literal_full_stop.
    apply negb_true_iff in Hstop. rewrite Hstop.
    unfold dot at 1. rewrite Hline. rewrite IH by done. mstate_eq.
Qed.

Lemma search_from_here (its : list item) (s : pystr) (start : nat) (r : mstate) :
  run its s {| pos := start; group_start := start; group_end := start |} = Some r ->
  search_from its s start = Some (start, r).
Proof. intros Hrun. destruct s; cbn [search_from]; by rewrite Hrun. Qed.

Lemma slice_middle {A : Type} (a w b : list A) :
  slice (a ++ w ++ b) (List.length a) (List.length a + List.length w) = w.
Proof.
  unfold slice.
  replace (List.length a + List.length w - List.length a)%nat with (List.length w) by lia.
  by rewrite drop_app_length, take_app_length.
Qed.

Lemma strip_first_not_space (c : N) (w : pystr) :
  strip (c :: w) = c :: w -> is_space c = false.
Proof.
  unfold strip, strip_by. cbn [lstrip_by].
  destruct (is_space c) eqn:Hc; [|done]. intros Heq.
  apply (f_equal (@List.length N)) in Heq. cbn [List.length] in Heq.
  assert (forall p s, (List.length (rstrip_by p s) <= List.length s)%nat) as Hr.
  { intros p s. induction s as [|x s IHs]; [done|]. cbn [rstrip_by].
    destruct (rstrip_by p s); [destruct (p x)|]; cbn [List.length] in *; lia. }
  assert (forall p s, (List.length (lstrip_by p s) <= List.length s)%nat) as Hl.
  { intros p s. induction s as [|x s IHs]; [done|]. cbn [lstrip_by].
    destruct (p x); cbn [List.length]; lia. }
  pose proof (Hr is_space (lstrip_by is_space w)). pose proof (Hl is_space w). lia.
Qed.

(** X22: a text that opens with the marker "La expresión es:" in any
    letter case, goes on with any white space (or none), then a word and a
    full stop, gives back the word, whatever follows the full stop —
    provided the word is not empty, has no white space and no quote
    character (one of the double quote, the apostrophe and the low double
    quote) at either end, and holds neither a full stop nor a line feed.
    So a word that holds a full stop is cut at it. *)
Theorem extract_word_input_recovers_word (marker ws w rest : pystr)
    (Hmarker : List.map lower marker
               = List.map lower (u "La expresi" ++ [243] ++ u "n es:"))
    (Hws : forallb is_space ws = true)
    (Hword : w <> [])
    (Hstripped : strip w = w)
    (Hquotes : strip_chars quote_chars w = w)
    (Hplain : forallb (fun c => negb (c =? 46) && negb (c =? 10)) w = true) :
  extract_word_input (marker ++ ws ++ w ++ u "." ++ rest) = Some w.
Proof.
  unfold extract_word_input, search.
  set (final := {| pos := List.length marker + List.length ws + List.length w + 1;
                   group_start := List.length marker + List.length ws;
                   group_end := List.length marker + List.length ws + List.length w |}).
  assert (Hrun : run expression_pattern (marker ++ ws ++ w ++ u "." ++ rest)
                   {| pos := 0; group_start := 0; group_end := 0 |} = Some final).
  { unfold expression_pattern. rewrite run_literals by exact Hmarker.
    change (run (Star is_space :: GroupOpen :: PlusLazy dot
                 :: [GroupClose; One (literal_ignorecase 46)]))
      with (star_greedy is_space
              (fun s st => one dot (star_lazy dot
                                      (run [GroupClose; One (literal_ignorecase 46)])) s
                             {| pos := pos st; group_start := pos st;
                                group_end := group_end st |})).
    destruct w as [|c w]; [done|].
    apply star_greedy_all; [exact Hws|by apply strip_first_not_space in Hstripped|].
    cbn [forallb] in Hplain. apply andb_true_iff in Hplain as [Hc Hplain].
    apply andb_true_iff in Hc as [_ Hline].
    cbn [app one pos group_start group_end]. unfold dot at 1. rewrite Hline.
    change (u "." ++ rest) with (46 :: rest).
    rewrite star_lazy_to_full_stop by exact Hplain.
    subst final. unfold advance. cbn [pos group_start group_end List.length].
    f_equal. apply mstate_ext; cbn; lia. }
  rewrite (search_from_here _ _ _ _ Hrun). unfold group1. cbn [snd].
  subst final. cbn [group_start group_end].
  rewrite (app_assoc marker ws), <- length_app, slice_middle.
  by rewrite Hstripped, Hquotes.
Qed.

Lemma extract_word_input_recovers_word_witness :
  extract_word_input (u "LA EXPRESI" ++ [211] ++ u "N ES:" ++ u "  "
                      ++ u "dar la lata" ++ u "." ++ u " Responde con un n" ++ [250]
                      ++ u "mero.")
  = Some (u "dar la lata").
Proof.
  apply (extract_word_input_recovers_word (u "LA EXPRESI" ++ [211] ++ u "N ES:")
           (u "  ") (u "dar la lata")
           (u " Responde con un n" ++ [250] ++ u "mero.")).
  - vm_compute. reflexivity.
  - vm_compute. reflexivity.
  - discriminate.
  - vm_compute. reflexivity.
  - vm_compute. reflexivity.
  - vm_compute. reflexivity.
Defined.

Lemma star_greedy_reaches (p0 : N -> bool) (k : cont) (p : N -> bool) (s : pystr)
    (st r : mstate) :
  (forall s st r, k s st = Some r -> exists c, In c s /\ p0 c = true) ->
  star_greedy p k s st = Some r -> exists c, In c s /\ p0 c = true.
Proof.
  intros Hk.
  revert st r. induction s as [|c s IH]; intros st r; cbn [star_greedy].
  - apply Hk.
  - destruct (p c); [|apply Hk].
    destruct (star_greedy p k s (advance st)) as [r'|] eqn:Hdeep; [|apply Hk].
    intros _. destruct (IH _ _ Hdeep) as (c' & Hin & Hc'). exists c'. split; [by right|done].
Qed.

Lemma star_lazy_reaches (p0 : N -> bool) (k : cont) (p : N -> bool) (s : pystr)
    (st r : mstate) :
  (forall s st r, k s st = Some r -> exists c, In c s /\ p0 c = true) ->
  star_lazy p k s st = Some r -> exists c, In c s /\ p0 c = true.
Proof.
  intros Hk.
  revert st r. induction s as [|c s IH]; intros st r; cbn [star_lazy].
  - destruct (k [] st) eqn:Hhere; [|done]. intros _. by apply Hk in Hhere.
  - destruct (k (c :: s) st) eqn:Hhere; [intros _; by apply Hk in Hhere|].
    destruct (p c); [|done]. intros Hdeep.
    destruct (IH _ _ Hdeep) as (c' & Hin & Hc'). exists c'. split; [by right|done].
Qed.

Lemma run_reaches_last (its : list item) (p0 : N -> bool) (s : pystr) (st r : mstate) :
  run (its ++ [One p0]) s st = Some r -> exists c, In c s /\ p0 c = true.
Proof.
  revert s st r. induction its as [|it its IH]; intros s st r.
  - cbn [app run]. unfold one. destruct s as [|c s]; [done|].
    destruct (p0 c) eqn:Hc; [|done]. intros _. exists c. split; [by left|done].
  - cbn [app run]. destruct it as [p|p|p|p| |]; unfold one.
    + destruct s as [|c s]; [done|]. destruct (p c); [|done].
      intros (c' & Hin & Hc')%IH. exists c'. split; [by right|done].
    + apply star_greedy_reaches. exact IH.
    + destruct s as [|c s]; [done|]. destruct (p c); [|done].
      intros Hdeep. apply (star_greedy_reaches p0) in Hdeep as (c' & Hin & Hc');
        [|exact IH].
      exists c'. split; [by right|done].
    + destruct s as [|c s]; [done|]. destruct (p c); [|done].
      intros Hdeep. apply (star_lazy_reaches p0) in Hdeep as (c' & Hin & Hc');
        [|exact IH].
      exists c'. split; [by right|done].
    + apply IH.
    + apply IH.
Qed.

Lemma search_reaches_last (its : list item) (p0 : N -> bool) (s : pystr) (start : nat)
    (m : nat * mstate) :
  search_from (its ++ [One p0]) s start = Some m -> exists c, In c s /\ p0 c = true.
Proof.
  revert start. induction s as [|c s IH]; intros start; cbn [search_from].
  - destruct (run (its ++ [One p0]) [] _) eqn:Hrun; [|done].
    intros _. by apply run_reaches_last in Hrun.
  - destruct (run (its ++ [One p0]) (c :: s) _) eqn:Hrun.
    + intros _. by apply run_reaches_last in Hrun.
    + intros (c' & Hin & Hc')%IH. exists c'. split; [by right|done].
Qed.

(** X23: a text without a full stop gives no word: [extract_word_input]
    answers [None] for it, whatever else it holds. *)
Theorem extract_word_input_needs_full_stop (text : pystr)
    (Hnone : ~ In 46%N text) :
  extract_word_input text = None.
Proof.
  unfold extract_word_input, search.
  destruct (search_from expression_pattern text 0) as [m|] eqn:Hsearch; [|done].
  exfalso. apply Hnone.
  change expression_pattern
    with ((List.map (fun l => One (literal_ignorecase l))
             (u "La expresi" ++ [243] ++ u "n es:")
           ++ [Star is_space; GroupOpen; PlusLazy dot; GroupClose])
          ++ [One (literal_ignorecase 46)]) in Hsearch.
  apply search_reaches_last in Hsearch as (c & Hin & Hc).
  rewrite literal_full_stop in Hc. by apply N.eqb_eq in Hc as ->.
Qed.

Lemma extract_word_input_needs_full_stop_witness :
  extract_word_input (u "La expresi" ++ [243] ++ u "n es: correr") = None.
Proof.
  apply extract_word_input_needs_full_stop.
  vm_compute. intros H. repeat (destruct H as [H|H]; [discriminate H|]). exact H.
Defined.

(** * Further properties of a run of the prepare stage *)

Lemma occurrences_list_remove_other (e x : pystr) (l : list pystr) :
  e <> x -> occurrences e (list_remove x l) = occurrences e l.
Proof.
  intros Hne. unfold occurrences. induction l as [|y l IH]; [done|].
  cbn [list_remove]. destruct (str_eqb y x) eqn:Hy.
  - apply str_eqb_true in Hy as ->. cbn [List.filter].
    by rewrite (proj2 (str_eqb_false e x) Hne).
  - cbn [List.filter]. destruct (str_eqb e y); cbn [List.length]; by rewrite IH.
Qed.

Lemma occurrences_list_remove (e : pystr) (l : list pystr) :
  In e l -> S (occurrences e (list_remove e l)) = occurrences e l.
Proof.
  unfold occurrences. induction l as [|y l IH]; [done|]. intros Hin.
  cbn [list_remove List.filter]. destruct (str_eqb y e) eqn:Hy.
  - apply str_eqb_true in Hy as ->. by rewrite str_eqb_refl.
  - destruct Hin as [->|Hin]; [by rewrite str_eqb_refl in Hy|].
    cbn [List.filter]. destruct (str_eqb e y); cbn [List.length]; by rewrite IH.
Qed.

Lemma occurrences_positive (e : pystr) (l : list pystr) :
  In e l -> (0 < occurrences e l)%nat.
Proof.
  unfold occurrences. induction l as [|y l IH]; [done|]. intros [->|Hin].
  - cbn [List.filter]. rewrite str_eqb_refl. cbn. lia.
  - cbn [List.filter]. destruct (str_eqb e y); cbn [List.length]; [lia|by apply IH].
Qed.

Lemma update_failed_other_occurrences (n e : pystr) (success : bool)
    (reg : option pystr) :
  valid_line n = true -> e <> n ->
  occurrences e (load_failed_experiments (update_failed_experiments n success reg))
  = occurrences e (load_failed_experiments reg).
Proof.
  intros Hn Hne. rewrite update_failed_experiments_load.
  destruct (success && _).
  - by apply occurrences_list_remove_other.
  - destruct (negb success && _); [|done].
    rewrite stripped_lines_single by done. rewrite occurrences_app.
    unfold occurrences at 2. cbn [List.filter].
    rewrite (proj2 (str_eqb_false e n) Hne). cbn. lia.
Qed.

Lemma update_failed_success_clears (e : pystr) (reg : option pystr) :
  (occurrences e (load_failed_experiments reg) <= 1)%nat ->
  ~ In e (load_failed_experiments (update_failed_experiments e true reg)).
Proof.
  intros Honce. rewrite update_failed_experiments_load. cbn [andb negb].
  case_bool_decide as Hin.
  - apply list_elem_of_In in Hin. intros Hstill%occurrences_positive.
    pose proof (occurrences_list_remove e _ Hin). lia.
  - by rewrite list_elem_of_In in Hin.
Qed.

Section Rerun.
Variable env : prep_env.
Variable all_configs : gmap pystr config.

Lemma run_stays_clear names s f st (e : pystr) :
  Forall (fun n => valid_line n = true) names ->
  outcome env all_configs e = Some true ->
  ~ In e (load_failed_experiments (failed_prepare st)) ->
  ~ In e (load_failed_experiments
            (failed_prepare
               (final (process_multiple_experiments env all_configs names s f st)))).
Proof.
  intros Hvalid Hout. revert s f st.
  induction Hvalid as [|n rest Hn Hrest IH]; intros s f st Hclear; [done|].
  destruct (all_configs !! n) as [cfg|] eqn:Hcfg.
  - rewrite (run_cons_config env all_configs n cfg) by done.
    assert (~ In e (load_failed_experiments (failed_prepare (turn env n cfg st))))
      as Hclear'.
    { rewrite turn_registry. destruct (decide (e = n)) as [->|Hne].
      - rewrite (outcome_verdict env all_configs n cfg st Hcfg) in Hout.
        injection Hout as ->. apply update_failed_success_clears.
        rewrite occurrences_zero by done. lia.
      - by rewrite update_failed_other. }
    destruct (fst _); by apply IH.
  - rewrite run_cons_skip by done. by apply IH.
Qed.

Lemma run_clears_success names s f st (e : pystr) :
  Forall (fun n => valid_line n = true) names ->
  In e names -> outcome env all_configs e = Some true ->
  (occurrences e (load_failed_experiments (failed_prepare st)) <= 1)%nat ->
  ~ In e (load_failed_experiments
            (failed_prepare
               (final (process_multiple_experiments env all_configs names s f st)))).
Proof.
  intros Hvalid Hin Hout. revert s f st.
  induction Hvalid as [|n rest Hn Hrest IH]; intros s f st Honce; [done|].
  destruct (all_configs !! n) as [cfg|] eqn:Hcfg.
  - rewrite (run_cons_config env all_configs n cfg) by done.
    destruct (decide (n = e)) as [->|Hne].
    + assert (~ In e (load_failed_experiments (failed_prepare (turn env e cfg st))))
        as Hclear.
      { rewrite turn_registry.
        pose proof (outcome_verdict env all_configs e cfg st Hcfg) as Hv.
        rewrite Hout in Hv. injection Hv as <-.
        by apply update_failed_success_clears. }
      destruct (fst _); by apply run_stays_clear.
    + destruct Hin as [?|Hin]; [done|].
      assert (occurrences e (load_failed_experiments (failed_prepare (turn env n cfg st)))
              <= 1)%nat as Honce'.
      { rewrite turn_registry, update_failed_other_occurrences by done. exact Honce. }
      destruct (fst _); by apply IH.
  - rewrite run_cons_skip by done. destruct Hin as [->|Hin].
    + unfold outcome in Hout. by rewrite Hcfg in Hout.
    + by apply IH.
Qed.

End Rerun.

(** X24: a run of the prepare stage clears the experiments it prepares:
    when the names of the run are registry lines and the registry held an
    experiment at most once, an experiment of the run that is prepared
    with success is not in the registry when the run ends, whether it was
    there before or not and whatever the run makes of the other names. *)
Theorem prepared_experiment_leaves_registry
    (env : prep_env) (all_configs : gmap pystr config) (names : list pystr)
    (st : prep_state) (e : pystr)
    (Hnames : Forall (fun n => valid_line n = true) names)
    (Hin : In e names)
    (Hsuccess : outcome env all_configs e = Some true)
    (Honce : (occurrences e (load_failed_experiments (failed_prepare st)) <= 1)%nat) :
  ~ In e (load_failed_experiments
            (failed_prepare
               (final (process_multiple_experiments env all_configs names 0 0 st)))).
Proof. by apply run_clears_success. Qed.

Lemma prepared_experiment_leaves_registry_witness :
  In (u "good_exp")
     (load_failed_experiments (Some (u "good_exp" ++ [10])))
  /\ ~ In (u "good_exp")
       (load_failed_experiments
          (failed_prepare
             (final (process_multiple_experiments sample_env sample_configs
                       [u "blank_exp"; u "good_exp"] 0 0
                       {| batches := ∅;
                          failed_prepare := Some (u "good_exp" ++ [10]);
                          ticks := 0 |})))).
Proof.
  split; [vm_compute; by left|].
  apply prepared_experiment_leaves_registry.
  - repeat constructor.
  - right. by left.
  - vm_compute. reflexivity.
  - vm_compute. lia.
Defined.

(** * The submission stage as a whole *)

Section Stage.
Variable md5 : bytes -> pystr.
Variable sub : submitter.
Variable fs : file_system.
Variable clock : nat -> pystr.

Lemma send_batches_exists (prefix : pystr) (files : list pystr) (processed : bool)
    (st : exec_state) :
  exists_file (tracking (store st)) = true ->
  exists_file
    (tracking (store (send_batches md5 sub fs clock prefix files processed st).2)) = true.
Proof.
  revert processed st. induction files as [|f rest IH]; intros processed st Hex; [done|].
  cbn [send_batches].
  destruct (send_batch md5 sub fs clock prefix f st) as [st1|e] eqn:Hsend.
  - apply IH. unfold send_batch, add_batch_to_tracking in Hsend.
    destruct (batches_dir fs !! f) as [content|]; [|done]. cbn [bind] in Hsend.
    destruct (files_create sub content) as [file_id|]; [|done]. cbn [bind] in Hsend.
    destruct (batches_create sub file_id) as [job_id|]; [|done]. cbn [bind] in Hsend.
    destruct (get_file_hash md5 fs f) as [h|]; [|done]. cbn [bind] in Hsend.
    by injection Hsend as <-.
  - by apply IH.
Qed.

Lemma submit_experiment_grows (prefix : pystr) (st : exec_state) :
  exists st' new,
    submit_experiment md5 sub fs clock prefix st = Ok st'
    /\ rows (loaded (tracking (store st'))) = rows (loaded (tracking (store st))) ++ new
    /\ Forall (fun r => experiment_name r = prefix /\ status r = u "submitted") new
    /\ results_dir (store st') = results_dir (store st)
    /\ (exists_file (tracking (store st)) = true ->
        exists_file (tracking (store st')) = true).
Proof.
  unfold submit_experiment. rewrite get_batches_to_send_listed. cbn [bind].
  set (to_send := List.filter _ (get_batches_for_experiment prefix fs)).
  destruct to_send as [|f rest] eqn:Hsend.
  - destruct (get_batches_for_experiment prefix fs);
      eexists; exists []; rewrite app_nil_r; repeat split; done.
  - rewrite <- Hsend. clear Hsend.
    destruct (send_batches_spec md5 sub fs clock prefix to_send false st)
      as (new & Hrows & Hnew & Hres & _).
    pose proof (send_batches_exists prefix to_send false st) as Hex.
    destruct (send_batches md5 sub fs clock prefix to_send false st)
      as [processed st1]. cbn [fst snd] in *.
    assert (Forall (fun r => experiment_name r = prefix /\ status r = u "submitted") new)
      as Hall.
    { eapply Forall_impl; [exact Hnew|]. by intros r (? & ? & _). }
    destruct processed; eexists; exists new; (split; [reflexivity|]);
      cbn; repeat split; done.
Qed.

Lemma submit_experiments_grow (prefixes : list pystr) (st : exec_state) :
  exists st' new,
    submit_experiments md5 sub fs clock prefixes st = Ok st'
    /\ rows (loaded (tracking (store st'))) = rows (loaded (tracking (store st))) ++ new
    /\ Forall (fun r => In (experiment_name r) prefixes /\ status r = u "submitted") new
    /\ results_dir (store st') = results_dir (store st)
    /\ (exists_file (tracking (store st)) = true ->
        exists_file (tracking (store st')) = true).
Proof.
  revert st. induction prefixes as [|prefix rest IH]; intros st.
  - exists st, []. rewrite app_nil_r. repeat split; done.
  - cbn [submit_experiments].
    destruct (submit_experiment_grows prefix st) as (st1 & new1 & -> & Hrows1 & Hnew1 & Hres1 & Hex1).
    cbn [bind].
    destruct (IH st1) as (st' & new & Hrun & Hrows & Hnew & Hres & Hex).
    exists st', (new1 ++ new). split; [exact Hrun|].
    split; [by rewrite Hrows, Hrows1, <- app_assoc|]. split; [|split].
    + apply Forall_app. split.
      * eapply Forall_impl; [exact Hnew1|]. intros r [<- ?]. split; [by left|done].
      * eapply Forall_impl; [exact Hnew|]. intros r [? ?]. split; [by right|done].
    + by rewrite Hres.
    + intros H. by apply Hex, Hex1.
Qed.


End Stage.
